(** * News bot: content generation with provider fallback

    A shallow embedding of the tweet generation pipeline of the bot
    (generateLeagueNewsFromAPI and the functions it reaches, up to Run),
    with the properties of its content policy and of its fallback
    orchestration.

    Go strings are byte sequences: [len] counts bytes and [s[:n]] slices
    bytes.  They are embedded as lists of 8-bit characters. *)

From Stdlib Require Import List String Ascii ZArith NArith Lia Bool Arith.
From Stdlib Require Import DecimalString.
Import ListNotations.

Set Implicit Arguments.

(** ** Go strings *)

Module GoString.

Definition gostring := list ascii.

(** A string literal of the source. *)
Definition lit (s : string) : gostring := list_ascii_of_string s.

(** The builtin [len] on strings: a number of bytes. *)
Definition len (s : gostring) : nat := List.length s.

(** [s[:n]]: the runtime panics (here [None]) when [n > len(s)]. *)
Definition sliceTo (s : gostring) (n : nat) : option gostring :=
  if n <=? len s then Some (firstn n s) else None.

Definition byte (c : ascii) : N := N_of_ascii c.

Definition quote : ascii := ascii_of_nat 34.
Definition newline : gostring := [ascii_of_nat 10].

(** The [asciiSpace] table of package strings: tab, line feed, vertical
    tab, form feed, carriage return, space. *)
Definition asciiSpace (c : ascii) : bool :=
  let b := byte c in
  ((9 <=? b) && (b <=? 13) || (b =? 32))%N.

(** [unicode.IsSpace] on the runes above U+007F, through their UTF-8
    encodings: U+0085 and U+00A0 take two bytes; U+1680, U+2000 to U+200A,
    U+2028, U+2029, U+202F, U+205F and U+3000 take three.  The decoder of
    package utf8 yields a rune only from its shortest encoding, so a rune
    is one of these exactly when its bytes are. *)
Definition spaceRune2 (c1 c2 : ascii) : bool :=
  ((byte c1 =? 194) && ((byte c2 =? 133) || (byte c2 =? 160)))%N.

Definition spaceRune3 (c1 c2 c3 : ascii) : bool :=
  let b1 := byte c1 in let b2 := byte c2 in let b3 := byte c3 in
  ((b1 =? 225) && (b2 =? 154) && (b3 =? 128)
   || (b1 =? 226) && (b2 =? 128)
        && ((128 <=? b3) && (b3 <=? 138) || (b3 =? 168) || (b3 =? 169) || (b3 =? 175))
   || (b1 =? 226) && (b2 =? 129) && (b3 =? 159)
   || (b1 =? 227) && (b2 =? 128) && (b3 =? 128))%N.

(** Scanning a string rune by rune for a class of runes of one, two or
    three bytes, given by its encodings: the loop of [TrimLeftFunc]. *)
Section Runes.
Variable is1 : ascii -> bool.
Variable is2 : ascii -> ascii -> bool.
Variable is3 : ascii -> ascii -> ascii -> bool.

(** Width in bytes of the rune of the class [s] starts with; 0 when
    the first rune of [s] is not in the class (or [s] is empty, or its
    first bytes are not valid UTF-8: the decoder then yields U+FFFD). *)
Definition runeWidth (s : gostring) : nat :=
  match s with
  | c1 :: r1 =>
      if is1 c1 then 1
      else match r1 with
           | c2 :: r2 =>
               if is2 c1 c2 then 2
               else match r2 with
                    | c3 :: _ => if is3 c1 c2 c3 then 3 else 0
                    | [] => 0
                    end
           | [] => 0
           end
  | [] => 0
  end.

Fixpoint trimRunes (s : gostring) : gostring :=
  match s with
  | [] => []
  | c1 :: r1 =>
      if is1 c1 then trimRunes r1
      else match r1 with
           | c2 :: r2 =>
               if is2 c1 c2 then trimRunes r2
               else match r2 with
                    | c3 :: r3 => if is3 c1 c2 c3 then trimRunes r3 else s
                    | [] => s
                    end
           | [] => s
           end
  end.
End Runes.

Definition leadingSpaceWidth : gostring -> nat :=
  runeWidth asciiSpace spaceRune2 spaceRune3.

(** The same from the end of the string, on the reversed bytes
    ([utf8.DecodeLastRuneInString] steps back to the nearest start byte
    and accepts the rune when its encoding ends the string). *)
Definition trailingSpaceWidthRev : gostring -> nat :=
  runeWidth asciiSpace (fun c1 c2 => spaceRune2 c2 c1)
            (fun c1 c2 c3 => spaceRune3 c3 c2 c1).

(** [strings.TrimLeftFunc(s, unicode.IsSpace)]. *)
Definition TrimLeftSpace : gostring -> gostring :=
  trimRunes asciiSpace spaceRune2 spaceRune3.

(** [strings.TrimRightFunc(s, unicode.IsSpace)]. *)
Definition TrimRightSpace (s : gostring) : gostring :=
  rev (trimRunes asciiSpace (fun c1 c2 => spaceRune2 c2 c1)
                 (fun c1 c2 c3 => spaceRune3 c3 c2 c1) (rev s)).

(** [strings.TrimSpace]: all leading and trailing white space, as
    defined by Unicode, removed. *)
Definition TrimSpace (s : gostring) : gostring :=
  TrimRightSpace (TrimLeftSpace s).

(** [trimLeftByte] and [trimRightByte] of package strings. *)
Fixpoint trimLeftByte (s : gostring) (c : ascii) : gostring :=
  match s with
  | [] => []
  | x :: r => if Ascii.eqb x c then trimLeftByte r c else s
  end.

Definition trimRightByte (s : gostring) (c : ascii) : gostring :=
  rev (trimLeftByte (rev s) c).

(** [strings.Trim(s, cutset)] for a cutset of one ASCII byte, the only
    use the program makes of it: every leading and trailing [c] goes. *)
Definition Trim (s : gostring) (c : ascii) : gostring :=
  trimLeftByte (trimRightByte s c) c.

(** The verb [%d] of package fmt on an int. *)
Definition fmt_d (z : Z) : gostring :=
  lit (NilEmpty.string_of_int (Z.to_int z)).

(** Whether the first, the last rune of [s] is white space. *)
Definition startsWithSpace (s : gostring) : bool :=
  negb (leadingSpaceWidth s =? 0).
Definition endsWithSpace (s : gostring) : bool :=
  negb (trailingSpaceWidthRev (rev s) =? 0).
Definition startsWithByte (c : ascii) (s : gostring) : bool :=
  match s with x :: _ => Ascii.eqb x c | [] => false end.
Definition endsWithByte (c : ascii) (s : gostring) : bool :=
  startsWithByte c (rev s).

Arguments lit : simpl never.

End GoString.
Import GoString.

(** ** Content policy

    The block every Gemini path ends with,

      content = strings.TrimSpace(content)
      content = strings.Trim(content, <one double quote>)
      if len(content) > 280 { content = content[:277] + "..." }

    and its Perplexity variant, which trims white space only. *)

Definition maxLen : nat := 280.
Definition minLen : nat := 100.

Definition truncateTweet (content : gostring) : option gostring :=
  if 280 <? len content then
    match sliceTo content 277 with
    | Some head => Some (head ++ lit "...")
    | None => None
    end
  else Some content.

Definition normalizeGemini (raw : gostring) : option gostring :=
  let content := TrimSpace raw in
  let content := Trim content quote in
  truncateTweet content.

Definition normalizePerplexity (raw : gostring) : option gostring :=
  let content := TrimSpace raw in
  truncateTweet content.

(** ** Data of the program *)

(** [PremierLeagueMatch]: the nested one-field structs are flattened. *)
Record PremierLeagueMatch := {
  HomeTeamName : gostring;
  AwayTeamName : gostring;
  UtcDate : gostring;
  Status : gostring;
  FullTimeHome : Z;
  FullTimeAway : Z
}.

Record NewsAPIArticle := {
  Title : gostring;
  Description : gostring;
  Url : gostring;
  SourceName : gostring
}.

(** [TweetResponse]: the data of the post and the messages of [Errors]. *)
Record TweetResponse := {
  DataID : gostring;
  DataText : gostring;
  Errors : list gostring
}.

(** A Go [error]: nil, or a value with its message. *)
Definition error := option gostring.

Definition FootballLeague := gostring.
Definition PremierLeague : FootballLeague := lit "PL".
Definition LaLiga : FootballLeague := lit "PD".
Definition Bundesliga : FootballLeague := lit "BL1".
Definition SerieA : FootballLeague := lit "SA".
Definition Ligue1 : FootballLeague := lit "FL1".
Definition IrishPremier : FootballLeague := lit "IRL".

(** ** The outside world

    Every remote service is an oracle of the run.  A JSON body is
    carried together with what the decoder makes of it. *)

Inductive Decoded (A : Type) : Type :=
| DecodeError (msg : gostring)
| DecodeOk (a : A).
Arguments DecodeError {A} msg.

Inductive HttpReply (A : Type) : Type :=
| DoError (msg : gostring)
| Response (StatusCode : Z) (body : gostring) (decoded : Decoded A).
Arguments DoError {A} msg.

(** A candidate of a Gemini response: its [Content], a pointer that
    can be nil, to the parts of the content, each part as the verb [%v]
    prints it.  The candidates themselves are taken not to be nil
    pointers: the client builds one for each candidate of the reply. *)
Record Candidate := { Content : option (list gostring) }.

Inductive GenerateReply : Type :=
| GenerateError (msg : gostring)
| GenerateResponse (Candidates : list Candidate).

Inductive PostReply : Type :=
| PostDoError (msg : gostring)
| PostReadError (msg : gostring)
| PostResponse (StatusCode : Z) (body : gostring) (decoded : Decoded TweetResponse).

Record World := {
  PerplexityAPIKey : gostring;
  (** GET on football-data.org, by URL *)
  footballData : gostring -> HttpReply (list PremierLeagueMatch);
  (** GET on newsapi.org, by URL *)
  newsAPI : gostring -> HttpReply (list NewsAPIArticle);
  (** [model.GenerateContent]: by the number of earlier calls of the
      run and the prompt *)
  gemini : nat -> gostring -> GenerateReply;
  (** POST on api.perplexity.ai, by system and user message; the
      decoded body is the message content of each choice *)
  perplexity : gostring -> gostring -> HttpReply (list gostring);
  (** POST on api.twitter.com/2/tweets, by the string [postToTwitter]
      is given; the body of the request is the JSON encoding of that
      string *)
  twitter : gostring -> PostReply
}.

(** What a run does to the outside, in order: the requests it sends.
    What it writes to the log and to the standard output is left out.
    The event of a post holds the Go string the post is made from, the
    argument of [postToTwitter]: the request carries [json.Marshal] of
    it, which is not the same bytes (escapes, and U+FFFD for a byte that
    is not valid UTF-8). *)
Inductive Event : Type :=
| EvFetchMatches (url : gostring)
| EvFetchNews (url : gostring)
| EvGenerateContent (prompt : gostring)
| EvPerplexity (system user : gostring)
| EvPost (text : gostring).

Definition isGenerateContent (e : Event) : bool :=
  match e with EvGenerateContent _ => true | _ => false end.
Definition isPerplexity (e : Event) : bool :=
  match e with EvPerplexity _ _ => true | _ => false end.
Definition isPost (e : Event) : bool :=
  match e with EvPost _ => true | _ => false end.
Definition isProvider (e : Event) : bool :=
  isGenerateContent e || isPerplexity e.

(** ** Computations: a trace of events, and panics *)

Inductive Outcome (A : Type) : Type :=
| Returned (a : A) (t : list Event)
| Panicked (t : list Event).
Arguments Panicked {A} t.

Definition M (A : Type) : Type := list Event -> Outcome A.

Definition ret {A} (a : A) : M A := fun t => Returned a t.
Definition bind {A B} (c : M A) (k : A -> M B) : M B :=
  fun t => match c t with
           | Returned a t' => k a t'
           | Panicked t' => Panicked t'
           end.
Definition panic {A} : M A := fun t => Panicked t.
Definition emit (e : Event) : M unit := fun t => Returned tt (t ++ [e]).
Definition history : M (list Event) := fun t => Returned t t.

Declare Scope go_scope.
Delimit Scope go_scope with go.
Notation "x <- c1 ;; c2" := (bind c1 (fun x => c2))
  (at level 100, c1 at next level, right associativity) : go_scope.
Notation "' pat <- c1 ;; c2" := (bind c1 (fun x => match x with pat => c2 end))
  (at level 100, pat pattern, c1 at next level, right associativity) : go_scope.
Notation "c1 ;; c2" := (bind c1 (fun _ => c2))
  (at level 100, right associativity) : go_scope.
Local Open Scope go_scope.

(** A slice expression or a pointer dereference that may panic. *)
Definition orPanic {A} (o : option A) : M A :=
  match o with Some a => ret a | None => panic end.

Definition run {A} (c : M A) : Outcome A := c [].

Definition traceOf {A} (o : Outcome A) : list Event :=
  match o with Returned _ t => t | Panicked t => t end.

(** ** Calls to the services *)

Definition getMatches (w : World) (url : gostring)
  : M (HttpReply (list PremierLeagueMatch)) :=
  emit (EvFetchMatches url) ;; ret (footballData w url).

Definition getNews (w : World) (url : gostring)
  : M (HttpReply (list NewsAPIArticle)) :=
  emit (EvFetchNews url) ;; ret (newsAPI w url).

Definition GenerateContent (w : World) (prompt : gostring) : M GenerateReply :=
  t <- history ;;
  emit (EvGenerateContent prompt) ;;
  ret (gemini w (List.length (filter isGenerateContent t)) prompt).

Definition postPerplexity (w : World) (system user : gostring)
  : M (HttpReply (list gostring)) :=
  emit (EvPerplexity system user) ;; ret (perplexity w system user).

Definition postTweet (w : World) (text : gostring) : M PostReply :=
  emit (EvPost text) ;; ret (twitter w text).

(** The test
    [len(resp.Candidates) == 0 || len(resp.Candidates[0].Content.Parts) == 0]
    and, when it is false, [resp.Candidates[0].Content.Parts[0]].  The
    test dereferences the content of the first candidate: when that
    pointer is nil, its evaluation panics. *)
Inductive FirstPart : Type :=
| ContentNil
| NoPart
| Part (part : gostring).

Definition firstPart (Candidates : list Candidate) : FirstPart :=
  match Candidates with
  | [] => NoPart
  | c :: _ =>
      match Content c with
      | None => ContentNil
      | Some [] => NoPart
      | Some (part :: _) => Part part
      end
  end.

(** ** The operations *)

Definition premierLeagueMatchesURL : gostring :=
  lit "https://api.football-data.org/v4/competitions/PL/matches?status=FINISHED&limit=1".

Definition leagueMatchesURL (league : FootballLeague) : gostring :=
  lit "https://api.football-data.org/v4/competitions/" ++ league
  ++ lit "/matches?status=FINISHED&limit=5".

Definition cryptoNewsURL : gostring :=
  lit "https://newsapi.org/v2/top-headlines?q=crypto&pageSize=1".

Definition fetchLatestPremierLeagueMatch (w : World)
  : M (option PremierLeagueMatch * error) :=
  let url := premierLeagueMatchesURL in
  resp <- getMatches w url ;;
  match resp with
  | DoError err => ret (None, Some err)
  | Response StatusCode body decoded =>
      if negb (StatusCode =? 200)%Z then
        ret (None, Some (lit "football-data.org API error: " ++ body))
      else
        match decoded with
        | DecodeError err => ret (None, Some err)
        | DecodeOk Matches =>
            if List.length Matches =? 0 then ret (None, Some (lit "no matches found"))
            else
              m <- orPanic (nth_error Matches (List.length Matches - 1)) ;;
              ret (Some m, None)
        end
  end.

Definition fetchLatestLeagueMatch (w : World) (league : FootballLeague)
  : M (option PremierLeagueMatch * error) :=
  let url := leagueMatchesURL league in
  resp <- getMatches w url ;;
  match resp with
  | DoError err => ret (None, Some err)
  | Response StatusCode body decoded =>
      if negb (StatusCode =? 200)%Z then
        ret (None, Some (lit "football-data.org API error: " ++ body))
      else
        match decoded with
        | DecodeError err => ret (None, Some err)
        | DecodeOk Matches =>
            if List.length Matches =? 0 then ret (None, Some (lit "no matches found"))
            else
              m <- orPanic (nth_error Matches (List.length Matches - 1)) ;;
              ret (Some m, None)
        end
  end.

Definition fetchLatestCryptoNews (w : World)
  : M (option NewsAPIArticle * error) :=
  let url := cryptoNewsURL in
  resp <- getNews w url ;;
  match resp with
  | DoError err => ret (None, Some err)
  | Response StatusCode body decoded =>
      if negb (StatusCode =? 200)%Z then
        ret (None, Some (lit "newsapi.org API error: " ++ body))
      else
        match decoded with
        | DecodeError err => ret (None, Some err)
        | DecodeOk Articles =>
            if List.length Articles =? 0 then ret (None, Some (lit "no crypto news found"))
            else
              a <- orPanic (nth_error Articles 0) ;;
              ret (Some a, None)
        end
  end.

(** The line [Match: %s %d - %d %s] shared by the football prompts. *)
Definition scoreLine (m : PremierLeagueMatch) : gostring :=
  HomeTeamName m ++ lit " " ++ fmt_d (FullTimeHome m) ++ lit " - "
  ++ fmt_d (FullTimeAway m) ++ lit " " ++ AwayTeamName m.

Definition perplexityFootballSystem (leagueName : gostring) : gostring :=
  lit "You are an expert football Twitter writer. Write engaging, informative tweets with emojis where appropriate. Always include relevant hashtags like #"
  ++ leagueName ++ lit " #Football #FootballNews. Keep tweets under 280 characters.".

Definition perplexityFootballPrompt (leagueName : gostring)
    (m : PremierLeagueMatch) (date : gostring) : gostring :=
  lit "You are an expert football Twitter writer. Write engaging, informative tweets with emojis where appropriate. Always include relevant hashtags like #"
  ++ leagueName
  ++ lit " #Football #FootballNews. Keep tweets under 280 characters. Generate a tweet about the latest "
  ++ leagueName
  ++ lit " football result. The tweet must be at least 100 characters long, under 280 characters, engaging and informative."
  ++ newline ++ lit "Match: " ++ scoreLine m
  ++ newline ++ lit "Date: " ++ date.

(** What both Perplexity functions do with the reply. *)
Definition perplexityContent (resp : HttpReply (list gostring))
  : M (gostring * error) :=
  match resp with
  | DoError err => ret ([], Some (lit "failed to call Perplexity API: " ++ err))
  | Response StatusCode body decoded =>
      if negb (StatusCode =? 200)%Z then
        ret ([], Some (lit "Perplexity API error: " ++ body))
      else
        match decoded with
        | DecodeError err =>
            ret ([], Some (lit "failed to decode Perplexity response: " ++ err))
        | DecodeOk Choices =>
            if List.length Choices =? 0 then
              ret ([], Some (lit "no choices returned from Perplexity"))
            else
              raw <- orPanic (nth_error Choices 0) ;;
              content <- orPanic (normalizePerplexity raw) ;;
              ret (content, None)
        end
  end.

Definition fetchPerplexityFootballTweet (w : World) (leagueName : gostring)
    (match_ : option PremierLeagueMatch) : M (gostring * error) :=
  if len (PerplexityAPIKey w) =? 0 then
    ret ([], Some (lit "Perplexity API key not set"))
  else
    m <- orPanic match_ ;;
    date <- orPanic (sliceTo (UtcDate m) 10) ;;
    let prompt := perplexityFootballPrompt leagueName m date in
    resp <- postPerplexity w (perplexityFootballSystem leagueName) prompt ;;
    perplexityContent resp.

Definition perplexityCryptoSystem : gostring :=
  lit "You are an expert crypto Twitter writer. Write engaging, informative tweets with emojis where appropriate. Always include relevant hashtags like #Crypto #Blockchain #CryptoNews. Keep tweets under 280 characters.".

Definition perplexityCryptoPrompt (a : NewsAPIArticle) : gostring :=
  lit "Generate a tweet about this crypto news headline and summary."
  ++ newline
  ++ lit "The tweet must be at least 100 characters long, under 280 characters, engaging and informative."
  ++ newline
  ++ lit "Include hashtags like #Crypto #Blockchain #CryptoNews."
  ++ newline ++ newline
  ++ lit "Title: " ++ Title a ++ newline
  ++ lit "Description: " ++ Description a ++ newline
  ++ lit "Source: " ++ SourceName a.

Definition fetchPerplexityCryptoTweet (w : World)
    (article : option NewsAPIArticle) : M (gostring * error) :=
  if len (PerplexityAPIKey w) =? 0 then
    ret ([], Some (lit "Perplexity API key not set"))
  else
    a <- orPanic article ;;
    resp <- postPerplexity w perplexityCryptoSystem (perplexityCryptoPrompt a) ;;
    perplexityContent resp.

(** The prompts of the Gemini paths are raw string literals: their [\n]
    is a backslash and an n. *)
Definition premierLeaguePrompt (m : PremierLeagueMatch) (date : gostring)
  : gostring :=
  lit "Generate a tweet about the latest Premier League result:\nDate: "
  ++ date ++ lit "\n" ++ scoreLine m
  ++ lit "\nMake it concise, engaging, under 280 characters, and include hashtags like #PremierLeague #EPL.".

Definition generatePremierLeagueNewsFromAPI (w : World) : M (gostring * error) :=
  '(match_, err) <- fetchLatestPremierLeagueMatch w ;;
  match err with
  | Some e => ret ([], Some (lit "failed to fetch latest match: " ++ e))
  | None =>
      m <- orPanic match_ ;;
      date <- orPanic (sliceTo (UtcDate m) 10) ;;
      resp <- GenerateContent w (premierLeaguePrompt m date) ;;
      match resp with
      | GenerateError e => ret ([], Some (lit "failed to generate summary: " ++ e))
      | GenerateResponse Candidates =>
          match firstPart Candidates with
          | ContentNil => panic
          | NoPart => ret ([], Some (lit "no content generated"))
          | Part part =>
              content <- orPanic (normalizeGemini part) ;;
              ret (content, None)
          end
      end
  end.

Definition cryptoPrompt (a : NewsAPIArticle) : gostring :=
  lit "Generate a tweet about this crypto news headline and summary.\nTitle: "
  ++ Title a ++ lit "\nDescription: " ++ Description a
  ++ lit "\nSource: " ++ SourceName a
  ++ lit "\nRequirements:\n- The tweet must be at least 100 characters long.\n- Keep it under 280 characters.\n- Make it engaging and informative.\n- Include hashtags like #Crypto #Blockchain #News.".

Definition generateCryptoNewsFromAPI (w : World) : M (gostring * error) :=
  '(article, err) <- fetchLatestCryptoNews w ;;
  match err with
  | Some e => ret ([], Some (lit "failed to fetch crypto news: " ++ e))
  | None =>
      a <- orPanic article ;;
      resp <- GenerateContent w (cryptoPrompt a) ;;
      match resp with
      | GenerateError _ => fetchPerplexityCryptoTweet w article
      | GenerateResponse Candidates =>
          match firstPart Candidates with
          | ContentNil => panic
          | NoPart => fetchPerplexityCryptoTweet w article
          | Part part =>
              content <- orPanic (normalizeGemini part) ;;
              ret (content, None)
          end
      end
  end.

Definition leaguePrompt (leagueName : gostring) (m : PremierLeagueMatch)
    (date : gostring) : gostring :=
  lit "Write a complete, engaging tweet (at least 100 but under 280 characters) about the latest "
  ++ leagueName ++ lit " football result.\n\nMatch: " ++ scoreLine m
  ++ lit "\nDate: " ++ date
  ++ lit "\n\nMake the tweet informative and detailed, mentioning key moments or context if possible. Avoid generic statements. Include hashtags like #"
  ++ leagueName ++ lit " #Football. Output only the tweet text.".

Definition leagueRetryPrompt (leagueName : gostring) (m : PremierLeagueMatch)
    (date : gostring) : gostring :=
  lit "Write a complete, detailed tweet (at least 100 but under 280 characters) about the latest "
  ++ leagueName ++ lit " football result.\n\nMatch: " ++ scoreLine m
  ++ lit "\nDate: " ++ date
  ++ lit "\n\nBe detailed and informative. Mention key facts, context, and impact. Avoid generic statements. Include hashtags like #"
  ++ leagueName ++ lit " #Football. Output only the tweet text.".

Definition generateLeagueNewsFromAPI (w : World) (league : FootballLeague)
    (leagueName : gostring) : M (gostring * error) :=
  '(match_, err) <- fetchLatestLeagueMatch w league ;;
  match err with
  | Some e => ret ([], Some (lit "failed to fetch latest match: " ++ e))
  | None =>
      m <- orPanic match_ ;;
      date <- orPanic (sliceTo (UtcDate m) 10) ;;
      resp <- GenerateContent w (leaguePrompt leagueName m date) ;;
      match resp with
      | GenerateError _ => fetchPerplexityFootballTweet w leagueName match_
      | GenerateResponse Candidates =>
          match firstPart Candidates with
          | ContentNil => panic
          | NoPart => fetchPerplexityFootballTweet w leagueName match_
          | Part part =>
              content <- orPanic (normalizeGemini part) ;;
              if len content <? 100 then
                (* Retry with a stronger prompt if too short *)
                resp <- GenerateContent w (leagueRetryPrompt leagueName m date) ;;
                match resp with
                | GenerateError _ =>
                    fetchPerplexityFootballTweet w leagueName match_
                | GenerateResponse Candidates =>
                    match firstPart Candidates with
                    | ContentNil => panic
                    | NoPart => fetchPerplexityFootballTweet w leagueName match_
                    | Part part =>
                        content <- orPanic (normalizeGemini part) ;;
                        ret (content, None)
                    end
                end
              else ret (content, None)
          end
      end
  end.

(** [json.Marshal] of a struct with one string field and
    [http.NewRequest] on a constant URL do not fail: their error
    branches are left out, here and in the Perplexity functions. *)
Definition postToTwitter (w : World) (content : gostring) : M error :=
  resp <- postTweet w content ;;
  match resp with
  | PostDoError err => ret (Some (lit "failed to make request: " ++ err))
  | PostReadError err => ret (Some (lit "failed to read response: " ++ err))
  | PostResponse StatusCode body decoded =>
      match decoded with
      | DecodeError err =>
          ret (Some (lit "failed to parse response: " ++ err
                     ++ lit ", raw response: " ++ body))
      | DecodeOk tweetResp =>
          if negb (StatusCode =? 201)%Z then
            match Errors tweetResp with
            | message :: _ =>
                ret (Some (lit "X API error (status " ++ fmt_d StatusCode
                           ++ lit "): " ++ message))
            | [] =>
                ret (Some (lit "X API error (status " ++ fmt_d StatusCode
                           ++ lit "): " ++ body))
            end
          else ret None
      end
  end.

(** [Run], with the reading of the clock, [time.Now().Unix()], as an
    argument.  The operator [%] of Go truncates towards zero. *)
Definition Run (w : World) (now : Z) : M error :=
  '(content, err) <-
    match Z.rem now 7 with
    | 0 => generateLeagueNewsFromAPI w PremierLeague (lit "PremierLeague")
    | 1 => generateLeagueNewsFromAPI w LaLiga (lit "LaLiga")
    | 2 => generateLeagueNewsFromAPI w Bundesliga (lit "Bundesliga")
    | 3 => generateLeagueNewsFromAPI w SerieA (lit "SerieA")
    | 4 => generateLeagueNewsFromAPI w Ligue1 (lit "Ligue1")
    | 5 => generateLeagueNewsFromAPI w IrishPremier (lit "IrishPremierDivision")
    | 6 => generateCryptoNewsFromAPI w
    | _ => ret ([], None)
    end%Z ;;
  match err with
  | Some e => ret (Some (lit "failed to generate news: " ++ e))
  | None =>
      err <- postToTwitter w content ;;
      match err with
      | Some e => ret (Some (lit "failed to post to X: " ++ e))
      | None => ret None
      end
  end.

(** ** Reading aids for the statements *)

(** The primary provider failed: the call returned an error, or a
    response without a candidate, or with a first candidate whose content
    has no part. *)
Definition primaryFailed (r : GenerateReply) : bool :=
  match r with
  | GenerateError _ => true
  | GenerateResponse Candidates =>
      match firstPart Candidates with
      | NoPart => true
      | _ => false
      end
  end.

(** The first candidate of the response has no content: reading its
    parts panics. *)
Definition primaryPanics (r : GenerateReply) : bool :=
  match r with
  | GenerateError _ => false
  | GenerateResponse Candidates =>
      match firstPart Candidates with
      | ContentNil => true
      | _ => false
      end
  end.

(** The text of a reply of the primary provider, after the content policy. *)
Definition primaryContent (r : GenerateReply) : option gostring :=
  match r with
  | GenerateError _ => None
  | GenerateResponse Candidates =>
      match firstPart Candidates with
      | Part part => normalizeGemini part
      | _ => None
      end
  end.

(** The text of a reply of the fallback provider, after its content policy. *)
Definition fallbackContent (r : HttpReply (list gostring)) : option gostring :=
  match r with
  | DoError _ => None
  | Response StatusCode _ decoded =>
      if negb (StatusCode =? 200)%Z then None
      else match decoded with
           | DecodeError _ => None
           | DecodeOk Choices =>
               match Choices with
               | [] => None
               | raw :: _ => normalizePerplexity raw
               end
           end
  end.

(** A fact source failed: transport error, a status other than 200, a
    body that does not decode, or an empty list. *)
Definition factFetchFails {A} (r : HttpReply (list A)) : bool :=
  match r with
  | DoError _ => true
  | Response StatusCode _ decoded =>
      negb (StatusCode =? 200)%Z
      || match decoded with
         | DecodeError _ => true
         | DecodeOk l => List.length l =? 0
         end
  end.

(** A fact source answered with a list that is not empty; [x] is its
    last element (the match the program takes), its first element (the
    article). *)
Definition lastFetched {A} (r : HttpReply (list A)) (x : A) : Prop :=
  exists body l,
    r = Response 200 body (DecodeOk l)
    /\ nth_error l (List.length l - 1) = Some x.

Definition firstFetched {A} (r : HttpReply (list A)) (x : A) : Prop :=
  exists body l,
    r = Response 200 body (DecodeOk l) /\ nth_error l 0 = Some x.

(** The date of a match as the prompts show it: [match.UtcDate[:10]]. *)
Definition dateOf (m : PremierLeagueMatch) : gostring := firstn 10 (UtcDate m).

(** The runs of [fetchPerplexityFootballTweet] on a match whose date has
    its ten bytes, from a trace [t], by cases. *)
Inductive PerplexityRun (w : World) (leagueName : gostring)
    (m : PremierLeagueMatch) (t : list Event)
  : Outcome (gostring * error) -> Prop :=
| PerplexityNoKey :
    len (PerplexityAPIKey w) = 0 ->
    PerplexityRun w leagueName m t
      (Returned ([], Some (lit "Perplexity API key not set")) t)
| PerplexityFailed e :
    len (PerplexityAPIKey w) <> 0 ->
    fallbackContent
      (perplexity w (perplexityFootballSystem leagueName)
                  (perplexityFootballPrompt leagueName m (dateOf m))) = None ->
    PerplexityRun w leagueName m t
      (Returned ([], Some e)
         (t ++ [EvPerplexity (perplexityFootballSystem leagueName)
                  (perplexityFootballPrompt leagueName m (dateOf m))]))
| PerplexityOk content :
    len (PerplexityAPIKey w) <> 0 ->
    fallbackContent
      (perplexity w (perplexityFootballSystem leagueName)
                  (perplexityFootballPrompt leagueName m (dateOf m)))
    = Some content ->
    PerplexityRun w leagueName m t
      (Returned (content, None)
         (t ++ [EvPerplexity (perplexityFootballSystem leagueName)
                  (perplexityFootballPrompt leagueName m (dateOf m))])).

(** The runs of [generateLeagueNewsFromAPI], by cases. *)
Inductive LeagueRun (w : World) (league : FootballLeague) (leagueName : gostring)
  : Outcome (gostring * error) -> Prop :=
| LeagueFetchFailed e :
    factFetchFails (footballData w (leagueMatchesURL league)) = true ->
    LeagueRun w league leagueName
      (Returned ([], Some (lit "failed to fetch latest match: " ++ e))
         [EvFetchMatches (leagueMatchesURL league)])
| LeagueShortDate m :
    lastFetched (footballData w (leagueMatchesURL league)) m ->
    len (UtcDate m) < 10 ->
    LeagueRun w league leagueName
      (Panicked [EvFetchMatches (leagueMatchesURL league)])
| LeagueFirst m content :
    lastFetched (footballData w (leagueMatchesURL league)) m ->
    10 <= len (UtcDate m) ->
    primaryContent (gemini w 0 (leaguePrompt leagueName m (dateOf m)))
    = Some content ->
    100 <= len content ->
    LeagueRun w league leagueName
      (Returned (content, None)
         [EvFetchMatches (leagueMatchesURL league);
          EvGenerateContent (leaguePrompt leagueName m (dateOf m))])
| LeagueRetry m short content :
    lastFetched (footballData w (leagueMatchesURL league)) m ->
    10 <= len (UtcDate m) ->
    primaryContent (gemini w 0 (leaguePrompt leagueName m (dateOf m)))
    = Some short ->
    len short < 100 ->
    primaryContent (gemini w 1 (leagueRetryPrompt leagueName m (dateOf m)))
    = Some content ->
    LeagueRun w league leagueName
      (Returned (content, None)
         [EvFetchMatches (leagueMatchesURL league);
          EvGenerateContent (leaguePrompt leagueName m (dateOf m));
          EvGenerateContent (leagueRetryPrompt leagueName m (dateOf m))])
| LeagueContentNil m :
    lastFetched (footballData w (leagueMatchesURL league)) m ->
    10 <= len (UtcDate m) ->
    primaryPanics (gemini w 0 (leaguePrompt leagueName m (dateOf m))) = true ->
    LeagueRun w league leagueName
      (Panicked
         [EvFetchMatches (leagueMatchesURL league);
          EvGenerateContent (leaguePrompt leagueName m (dateOf m))])
| LeagueRetryContentNil m short :
    lastFetched (footballData w (leagueMatchesURL league)) m ->
    10 <= len (UtcDate m) ->
    primaryContent (gemini w 0 (leaguePrompt leagueName m (dateOf m)))
    = Some short ->
    len short < 100 ->
    primaryPanics (gemini w 1 (leagueRetryPrompt leagueName m (dateOf m)))
    = true ->
    LeagueRun w league leagueName
      (Panicked
         [EvFetchMatches (leagueMatchesURL league);
          EvGenerateContent (leaguePrompt leagueName m (dateOf m));
          EvGenerateContent (leagueRetryPrompt leagueName m (dateOf m))])
| LeagueFallback m o :
    lastFetched (footballData w (leagueMatchesURL league)) m ->
    10 <= len (UtcDate m) ->
    primaryFailed (gemini w 0 (leaguePrompt leagueName m (dateOf m))) = true ->
    PerplexityRun w leagueName m
      [EvFetchMatches (leagueMatchesURL league);
       EvGenerateContent (leaguePrompt leagueName m (dateOf m))] o ->
    LeagueRun w league leagueName o
| LeagueRetryFallback m short o :
    lastFetched (footballData w (leagueMatchesURL league)) m ->
    10 <= len (UtcDate m) ->
    primaryContent (gemini w 0 (leaguePrompt leagueName m (dateOf m)))
    = Some short ->
    len short < 100 ->
    primaryFailed (gemini w 1 (leagueRetryPrompt leagueName m (dateOf m)))
    = true ->
    PerplexityRun w leagueName m
      [EvFetchMatches (leagueMatchesURL league);
       EvGenerateContent (leaguePrompt leagueName m (dateOf m));
       EvGenerateContent (leagueRetryPrompt leagueName m (dateOf m))] o ->
    LeagueRun w league leagueName o.

Definition isFetch (e : Event) : bool :=
  match e with
  | EvFetchMatches _ | EvFetchNews _ => true
  | _ => false
  end.

(** The fact source an event asked, and whether its answer failed. *)
Definition fetchFailed (w : World) (e : Event) : bool :=
  match e with
  | EvFetchMatches url => factFetchFails (footballData w url)
  | EvFetchNews url => factFetchFails (newsAPI w url)
  | _ => false
  end.

(** Following the words of the specification, which counts
    characters: the characters of a string are the runes of its UTF-8
    encoding, as [utf8.RuneCountInString] counts them; a byte that
    starts no valid encoding is a character of its own. *)
Definition inRange (lo hi : N) (c : ascii) : bool :=
  ((lo <=? byte c) && (byte c <=? hi))%N.

Definition continuation (c : ascii) : bool := inRange 128 191 c.

Definition threeByteStart (c1 c2 : ascii) : bool :=
  inRange 224 224 c1 && inRange 160 191 c2
  || inRange 225 236 c1 && continuation c2
  || inRange 237 237 c1 && inRange 128 159 c2
  || inRange 238 239 c1 && continuation c2.

Definition fourByteStart (c1 c2 : ascii) : bool :=
  inRange 240 240 c1 && inRange 144 191 c2
  || inRange 241 243 c1 && continuation c2
  || inRange 244 244 c1 && inRange 128 143 c2.

(** The number of bytes of the first character of a string. *)
Definition utf8Width (s : gostring) : nat :=
  match s with
  | [] => 0
  | c1 :: r1 =>
      if inRange 0 127 c1 then 1
      else match r1 with
           | [] => 1
           | c2 :: r2 =>
               if inRange 194 223 c1 && continuation c2 then 2
               else match r2 with
                    | [] => 1
                    | c3 :: r3 =>
                        if threeByteStart c1 c2 && continuation c3 then 3
                        else match r3 with
                             | [] => 1
                             | c4 :: _ =>
                                 if fourByteStart c1 c2 && continuation c3
                                    && continuation c4
                                 then 4 else 1
                             end
                    end
           end
  end.

(** The characters of a string, each as its bytes; a character takes
    at least one byte, so that the length of the string is fuel enough. *)
Fixpoint splitChars (fuel : nat) (s : gostring) : list gostring :=
  match fuel with
  | 0 => []
  | S fuel' =>
      match s with
      | [] => []
      | _ :: _ =>
          firstn (utf8Width s) s :: splitChars fuel' (skipn (utf8Width s) s)
      end
  end.

Definition chars (s : gostring) : list gostring := splitChars (len s) s.
Definition charCount (s : gostring) : nat := List.length (chars s).
Definition firstChars (n : nat) (s : gostring) : gostring :=
  List.concat (firstn n (chars s)).

(** Following the words of the specification: a single layer of
    enclosing quote characters is removed, that is one pair at most. *)
Definition stripOneQuoteLayer (s : gostring) : gostring :=
  if startsWithByte quote s && endsWithByte quote s && (2 <=? len s)
  then removelast (tl s) else s.

Definition specValidate (raw : gostring) : option gostring :=
  truncateTweet (stripOneQuoteLayer (TrimSpace raw)).

(** ** Sample worlds *)

Module Samples.

Definition derby : PremierLeagueMatch := {|
  HomeTeamName := lit "Liverpool FC";
  AwayTeamName := lit "Everton FC";
  UtcDate := lit "2025-04-02T19:00:00Z";
  Status := lit "FINISHED";
  FullTimeHome := 1;
  FullTimeAway := 0
|}.

(** A match whose date field is too short to be sliced. *)
Definition undated : PremierLeagueMatch := {|
  HomeTeamName := lit "Liverpool FC";
  AwayTeamName := lit "Everton FC";
  UtcDate := lit "2025";
  Status := lit "FINISHED";
  FullTimeHome := 1;
  FullTimeAway := 0
|}.

Definition posted (text : gostring) : PostReply :=
  PostResponse 201 (lit "{}")
    (DecodeOk {| DataID := lit "1"; DataText := text; Errors := [] |}).

(** A world from the answer of the football source, the answers of the
    primary provider by call, and the answer of the fallback provider. *)
Definition world (matches : HttpReply (list PremierLeagueMatch))
    (answers : nat -> GenerateReply) (fallback : HttpReply (list gostring))
  : World := {|
  PerplexityAPIKey := lit "pplx-key";
  footballData := fun _ => matches;
  newsAPI := fun _ => DoError (lit "timeout");
  gemini := fun n _ => answers n;
  perplexity := fun _ _ => fallback;
  twitter := posted
|}.

Definition found (m : PremierLeagueMatch) : HttpReply (list PremierLeagueMatch) :=
  Response 200 (lit "{}") (DecodeOk [m]).

Definition says (text : gostring) : GenerateReply :=
  GenerateResponse [{| Content := Some [text] |}].

Definition longTweet : gostring :=
  lit "Liverpool edge Everton 1-0 in a tense Merseyside derby at Anfield, the winner coming just before the hour. #PremierLeague #Football".

(** 281 letters e with an acute accent, of two bytes each. *)
Definition accents : gostring :=
  List.concat (repeat [ascii_of_nat 195; ascii_of_nat 169] 281).

Definition fallbackTweet : gostring :=
  lit "Derby delight! Liverpool FC 1 - 0 Everton FC at Anfield, a result that keeps the title charge on track. #PremierLeague #Football #FootballNews".

(** The primary provider answers too briefly, twice. *)
Definition terse : World :=
  world (found derby) (fun _ => says (lit "Liverpool won."))
        (Response 200 (lit "{}") (DecodeOk [fallbackTweet])).

(** The primary provider answers with blanks, twice. *)
Definition blank : World :=
  world (found derby) (fun _ => says (lit "   "))
        (Response 200 (lit "{}") (DecodeOk [fallbackTweet])).

(** The primary provider answers well at once. *)
Definition fluent : World :=
  world (found derby) (fun _ => says longTweet)
        (Response 200 (lit "{}") (DecodeOk [fallbackTweet])).

(** The primary provider is down; the fallback answers. *)
Definition degraded : World :=
  world (found derby) (fun _ => GenerateError (lit "quota exceeded"))
        (Response 200 (lit "{}") (DecodeOk [fallbackTweet])).

(** The primary provider answers briefly, then is down. *)
Definition flaky : World :=
  world (found derby)
        (fun n => if n =? 0 then says (lit "Liverpool won.")
                  else GenerateResponse [])
        (Response 200 (lit "{}") (DecodeOk [fallbackTweet])).

(** The primary provider answers with a candidate without content. *)
Definition contentless : World :=
  world (found derby) (fun _ => GenerateResponse [{| Content := None |}])
        (Response 200 (lit "{}") (DecodeOk [fallbackTweet])).

(** The football source is down. *)
Definition offline : World :=
  world (DoError (lit "timeout")) (fun _ => says longTweet)
        (Response 200 (lit "{}") (DecodeOk [fallbackTweet])).

(** The football source answers with a match without a full date. *)
Definition dateless : World :=
  world (found undated) (fun _ => says longTweet)
        (Response 200 (lit "{}") (DecodeOk [fallbackTweet])).

End Samples.

(** ** The rest of the program

    Configuration, the process entry point, and the generations the
    rotation of [Run] does not use. *)

(** [os.Getenv] (after [godotenv.Load]): the value of a variable, the
    empty string when it is not set. *)
Definition Env := gostring -> gostring.

Module Config.
Record t := {
  GoogleAPIKey : gostring;
  XAPIKey : gostring;
  XAPIKeySecret : gostring;
  XAccessToken : gostring;
  XAccessTokenSecret : gostring;
  LiverpoolNewsPrompt : gostring;
  FootballDataAPIKey : gostring;
  NewsAPIKey : gostring;
  PerplexityAPIKey : gostring
}.
End Config.

Definition isEmpty (s : gostring) : bool := len s =? 0.

Definition defaultLiverpoolNewsPrompt : gostring :=
  lit "Generate a concise and engaging tweet about Liverpool FC news. Focus on recent matches, transfers, or club updates. Keep it under 280 characters and make it engaging for football fans. Include relevant hashtags like #LFC #Liverpool".

Definition loadConfig (getenv : Env) : option Config.t * error :=
  let config := {|
    Config.GoogleAPIKey := getenv (lit "GOOGLE_API_KEY");
    Config.XAPIKey := getenv (lit "X_API_KEY");
    Config.XAPIKeySecret := getenv (lit "X_API_KEY_SECRET");
    Config.XAccessToken := getenv (lit "X_ACCESS_TOKEN");
    Config.XAccessTokenSecret := getenv (lit "X_ACCESS_TOKEN_SECRET");
    Config.LiverpoolNewsPrompt :=
      (if isEmpty (getenv (lit "LIVERPOOL_NEWS_PROMPT"))
       then defaultLiverpoolNewsPrompt
       else getenv (lit "LIVERPOOL_NEWS_PROMPT"));
    Config.FootballDataAPIKey := getenv (lit "FOOTBALL_DATA_API_KEY");
    Config.NewsAPIKey := getenv (lit "NEWS_API_KEY");
    Config.PerplexityAPIKey := getenv (lit "PERPLEXITY_API_KEY")
  |} in
  if isEmpty (Config.GoogleAPIKey config) then
    (None, Some (lit "GOOGLE_API_KEY is required"))
  else if isEmpty (Config.XAPIKey config) || isEmpty (Config.XAPIKeySecret config)
          || isEmpty (Config.XAccessToken config)
          || isEmpty (Config.XAccessTokenSecret config) then
    (None, Some (lit "all X API credentials are required"))
  else if isEmpty (Config.FootballDataAPIKey config) then
    (None, Some (lit "FOOTBALL_DATA_API_KEY is required"))
  else if isEmpty (Config.NewsAPIKey config) then
    (None, Some (lit "NEWS_API_KEY is required"))
  else (Some config, None).

(** [NewsBot]: its configuration; its two clients are the oracles of
    the world. *)
Record NewsBot := { config : Config.t }.

(** [NewNewsBot], with the outcome of [genai.NewClient] as an argument. *)
Definition NewNewsBot (newClient : error) (config : Config.t)
  : option NewsBot * error :=
  match newClient with
  | Some err => (None, Some (lit "failed to create Gemini client: " ++ err))
  | None => (Some {| config := config |}, None)
  end.

(** The world a bot acts in: the Perplexity key is the one of its
    configuration. *)
Definition botWorld (nb : NewsBot) (w : World) : World := {|
  PerplexityAPIKey := Config.PerplexityAPIKey (config nb);
  footballData := footballData w;
  newsAPI := newsAPI w;
  gemini := gemini w;
  perplexity := perplexity w;
  twitter := twitter w
|}.

(** The slice [debugCredentials] logs:
    [nb.config.XAPIKey[:min(8, len(nb.config.XAPIKey))]]. *)
Definition keyPrefix (key : gostring) : option gostring :=
  sliceTo key (Nat.min 8 (len key)).

Definition debugCredentials (nb : NewsBot) : M unit :=
  _ <- orPanic (keyPrefix (Config.XAPIKey (config nb))) ;;
  ret tt.

(** How the process ends: [log.Fatalf] exits with status 1. *)
Inductive Exit : Type :=
| ExitSuccess
| ExitFatal (msg : gostring).

Definition main (getenv : Env) (newClient : error) (w : World) (now : Z)
  : M Exit :=
  match loadConfig getenv with
  | (_, Some err) => ret (ExitFatal (lit "Failed to load configuration: " ++ err))
  | (config, None) =>
      config <- orPanic config ;;
      match NewNewsBot newClient config with
      | (_, Some err) => ret (ExitFatal (lit "Failed to create news bot: " ++ err))
      | (bot, None) =>
          bot <- orPanic bot ;;
          debugCredentials bot ;;
          err <- Run (botWorld bot w) now ;;
          match err with
          | Some e => ret (ExitFatal (lit "Bot execution failed: " ++ e))
          | None => ret ExitSuccess
          end
      end
  end.

(** *** Generations from the primary provider alone

    The readings of the clock ([now.Format], [now.Day], [now.Year],
    [now.Unix]) are arguments. *)

Definition liverpoolNewsPrompt (currentMonth : gostring) (currentDay : Z) : gostring :=
  lit "Generate an engaging tweet about Liverpool FC history for " ++ currentMonth ++ lit " " ++ fmt_d currentDay ++ lit "." ++ newline
  ++ newline
  ++ lit "Focus on one of these types of historical content:" ++ newline
  ++ lit "1. " ++ [quote] ++ lit "On this day" ++ [quote] ++ lit " historical events (matches, signings, achievements)" ++ newline
  ++ lit "2. Legendary players and their memorable moments" ++ newline
  ++ lit "3. Historic matches and victories" ++ newline
  ++ lit "4. Club records and milestones" ++ newline
  ++ lit "5. Memorable quotes from players/managers" ++ newline
  ++ lit "6. Stadium history (Anfield moments)" ++ newline
  ++ lit "7. European Cup/Champions League history" ++ newline
  ++ lit "8. League title victories" ++ newline
  ++ lit "9. FA Cup moments" ++ newline
  ++ lit "10. Derby matches against Everton or Manchester United" ++ newline
  ++ newline
  ++ lit "Requirements:" ++ newline
  ++ lit "- Make it feel like a " ++ [quote] ++ lit "throwback" ++ [quote] ++ lit " or " ++ [quote] ++ lit "on this day" ++ [quote] ++ lit " style post" ++ newline
  ++ lit "- Include specific years, scores, or player names when possible" ++ newline
  ++ lit "- Keep it under 280 characters" ++ newline
  ++ lit "- Make it engaging for Liverpool fans" ++ newline
  ++ lit "- Include relevant hashtags like #LFC #Liverpool #OnThisDay #YNWA" ++ newline
  ++ lit "- Sound authentic and factual" ++ newline
  ++ lit "- Generate only the tweet text, no quotes or formatting" ++ newline
  ++ newline
  ++ lit "Current date context: " ++ currentMonth ++ lit " " ++ fmt_d currentDay ++ newline
  ++ lit "Make it feel timely and relevant to today's date if possible.".

Definition liverpoolHistoryPrompt (topic : gostring) : gostring :=
  lit "Create an engaging historical tweet about Liverpool FC focusing on " ++ topic ++ lit "." ++ newline
  ++ newline
  ++ lit "Make it:" ++ newline
  ++ lit "- Nostalgic and celebratory" ++ newline
  ++ lit "- Include specific details (years, scores, names)" ++ newline
  ++ lit "- Under 280 characters" ++ newline
  ++ lit "- Engaging for Liverpool supporters" ++ newline
  ++ lit "- Include hashtags like #LFC #Liverpool #YNWA #History" ++ newline
  ++ lit "- Sound like a passionate fan sharing a great memory" ++ newline
  ++ newline
  ++ lit "Generate only the tweet text, no formatting or quotes.".

Definition premierLeagueNewsPrompt (currentMonth : gostring)
    (currentDay currentYear : Z) : gostring :=
  lit "Generate a concise, engaging tweet with the latest Premier League news as of " ++ currentMonth ++ lit " " ++ fmt_d currentDay ++ lit ", " ++ fmt_d currentYear ++ lit "." ++ newline
  ++ newline
  ++ lit "Requirements:" ++ newline
  ++ lit "- Focus on recent matches, transfers, injuries, standings, or major headlines" ++ newline
  ++ lit "- Mention specific teams, players, or results if possible" ++ newline
  ++ lit "- Keep it under 280 characters" ++ newline
  ++ lit "- Make it interesting for football fans" ++ newline
  ++ lit "- Include relevant hashtags like #PremierLeague #EPL #Football" ++ newline
  ++ lit "- Generate only the tweet text, no quotes or formatting" ++ newline
  ++ newline
  ++ lit "Current date context: " ++ currentMonth ++ lit " " ++ fmt_d currentDay ++ lit ", " ++ fmt_d currentYear.

Definition topics : list gostring :=
  [ lit "legendary players like Steven Gerrard, Kenny Dalglish, or Ian Rush";
    lit "historic European Cup victories in the 1970s and 1980s";
    lit "memorable Premier League moments and title wins";
    lit "Anfield atmosphere and famous stadium moments";
    lit "classic derby matches against Everton or Manchester United";
    lit "Bill Shankly or Bob Paisley management eras";
    lit "Champions League victories in 2005 and 2019";
    lit "FA Cup finals and memorable cup runs";
    lit "record-breaking performances and club milestones";
    lit "famous Liverpool chants and supporter culture" ].

(** [topics[i]] for an index of type int64: out of range, also when
    negative, the runtime panics. *)
Definition topicAt (i : Z) : option gostring :=
  if (i <? 0)%Z then None else nth_error topics (Z.to_nat i).

Definition generateLiverpoolNews (w : World) (currentMonth : gostring)
    (currentDay : Z) : M (gostring * error) :=
  resp <- GenerateContent w (liverpoolNewsPrompt currentMonth currentDay) ;;
  match resp with
  | GenerateError e => ret ([], Some (lit "failed to generate content: " ++ e))
  | GenerateResponse Candidates =>
      match firstPart Candidates with
      | ContentNil => panic
      | NoPart => ret ([], Some (lit "no content generated"))
      | Part part =>
          content <- orPanic (normalizeGemini part) ;;
          ret (content, None)
      end
  end.

Definition generateLiverpoolHistoryVariation (w : World) (unix : Z)
  : M (gostring * error) :=
  topic <- orPanic (topicAt (Z.rem unix (Z.of_nat (List.length topics)))) ;;
  resp <- GenerateContent w (liverpoolHistoryPrompt topic) ;;
  match resp with
  | GenerateError e => ret ([], Some (lit "failed to generate content: " ++ e))
  | GenerateResponse Candidates =>
      match firstPart Candidates with
      | ContentNil => panic
      | NoPart => ret ([], Some (lit "no content generated"))
      | Part part =>
          content <- orPanic (normalizeGemini part) ;;
          ret (content, None)
      end
  end.

Definition generatePremierLeagueNews (w : World) (currentMonth : gostring)
    (currentDay currentYear : Z) : M (gostring * error) :=
  resp <- GenerateContent w
            (premierLeagueNewsPrompt currentMonth currentDay currentYear) ;;
  match resp with
  | GenerateError e =>
      ret ([], Some (lit "failed to generate Premier League news: " ++ e))
  | GenerateResponse Candidates =>
      match firstPart Candidates with
      | ContentNil => panic
      | NoPart => ret ([], Some (lit "no content generated"))
      | Part part =>
          content <- orPanic (normalizeGemini part) ;;
          ret (content, None)
      end
  end.

(** *** The earlier [Run], of main.go: one generation, no rotation *)

Module MainGo.
Definition Run (w : World) : M error :=
  '(content, err) <- generatePremierLeagueNewsFromAPI w ;;
  match err with
  | Some e => ret (Some (lit "failed to generate Premier League news: " ++ e))
  | None =>
      err <- postToTwitter w content ;;
      match err with
      | Some e => ret (Some (lit "failed to post to X: " ++ e))
      | None => ret None
      end
  end.
End MainGo.

(** An environment from a list of bindings; the first binding of a
    name counts. *)
Fixpoint envOf (bindings : list (gostring * gostring)) : Env :=
  fun name =>
    match bindings with
    | [] => []
    | (n, v) :: rest =>
        if list_eq_dec ascii_dec n name then v else envOf rest name
    end.

Definition sampleEnv : Env :=
  envOf [ (lit "GOOGLE_API_KEY", lit "g-key");
          (lit "X_API_KEY", lit "x-key-0123456789");
          (lit "X_API_KEY_SECRET", lit "x-secret");
          (lit "X_ACCESS_TOKEN", lit "x-token");
          (lit "X_ACCESS_TOKEN_SECRET", lit "x-token-secret");
          (lit "FOOTBALL_DATA_API_KEY", lit "fd-key");
          (lit "NEWS_API_KEY", lit "news-key") ].

(** The variables [loadConfig] requires. *)
Definition requiredKeys : list gostring :=
  [ lit "GOOGLE_API_KEY"; lit "X_API_KEY"; lit "X_API_KEY_SECRET";
    lit "X_ACCESS_TOKEN"; lit "X_ACCESS_TOKEN_SECRET";
    lit "FOOTBALL_DATA_API_KEY"; lit "NEWS_API_KEY" ].

Module MoreSamples.

Definition headline : NewsAPIArticle := {|
  Title := lit "Bitcoin tops 100k";
  Description := lit "The price of bitcoin crossed 100,000 dollars on Tuesday.";
  Url := lit "https://example.org/bitcoin";
  SourceName := lit "Example Wire"
|}.

(** The news source answers; the primary provider answers briefly; no
    Perplexity key is set. *)
Definition newsroom : World := {|
  PerplexityAPIKey := [];
  footballData := fun _ => DoError (lit "timeout");
  newsAPI := fun _ => Response 200 (lit "{}") (DecodeOk [headline]);
  gemini := fun _ _ => Samples.says (lit "Bitcoin up.");
  perplexity := fun _ _ => DoError (lit "unauthorized");
  twitter := Samples.posted
|}.

(** The primary provider is down and no Perplexity key is set. *)
Definition keyless : World := {|
  PerplexityAPIKey := [];
  footballData := fun _ => Samples.found Samples.derby;
  newsAPI := fun _ => DoError (lit "timeout");
  gemini := fun _ _ => GenerateError (lit "quota exceeded");
  perplexity := fun _ _ => DoError (lit "unauthorized");
  twitter := Samples.posted
|}.

End MoreSamples.

(** * Properties *)

Unset Implicit Arguments.

(** ** Strings *)

Section RuneFacts.
Variable is1 : ascii -> bool.
Variable is2 : ascii -> ascii -> bool.
Variable is3 : ascii -> ascii -> ascii -> bool.

Let width := runeWidth is1 is2 is3.
Let trim := trimRunes is1 is2 is3.

Lemma gostring_len_ind (P : gostring -> Prop) :
  (forall s, (forall r, len r < len s -> P r) -> P s) -> forall s, P s.
Proof.
  intros step s.
  assert (H : forall n r, len r < n -> P r).
  { induction n as [|n IH]; intros r Hr; [lia|].
    apply step. intros r' Hr'. apply IH. lia. }
  apply (H (S (len s))). lia.
Qed.

Lemma runeWidth_le s : width s <= len s.
Proof.
  subst width. destruct s as [|c1 [|c2 [|c3 r]]]; simpl;
    repeat match goal with |- context [if ?b then _ else _] => destruct b end;
    simpl; lia.
Qed.

Lemma trimRunes_step s :
  trim s = match width s with
           | 0 => s
           | w => trim (skipn w s)
           end.
Proof.
  subst width trim. destruct s as [|c1 r1]; [reflexivity|].
  change (trimRunes is1 is2 is3 (c1 :: r1))
    with (if is1 c1 then trimRunes is1 is2 is3 r1
          else match r1 with
               | c2 :: r2 =>
                   if is2 c1 c2 then trimRunes is1 is2 is3 r2
                   else match r2 with
                        | c3 :: r3 =>
                            if is3 c1 c2 c3 then trimRunes is1 is2 is3 r3
                            else c1 :: r1
                        | [] => c1 :: r1
                        end
               | [] => c1 :: r1
               end).
  unfold runeWidth.
  destruct (is1 c1); [reflexivity|].
  destruct r1 as [|c2 r2]; [reflexivity|].
  destruct (is2 c1 c2); [reflexivity|].
  destruct r2 as [|c3 r3]; [reflexivity|].
  destruct (is3 c1 c2 c3); reflexivity.
Qed.

Lemma trimRunes_fixed s : width s = 0 -> trim s = s.
Proof. intros H. rewrite trimRunes_step, H. reflexivity. Qed.

Lemma trimRunes_cons c1 r1 :
  trim (c1 :: r1)
  = if is1 c1 then trim r1
    else match r1 with
         | c2 :: r2 =>
             if is2 c1 c2 then trim r2
             else match r2 with
                  | c3 :: r3 => if is3 c1 c2 c3 then trim r3 else c1 :: r1
                  | [] => c1 :: r1
                  end
         | [] => c1 :: r1
         end.
Proof. reflexivity. Qed.

(** A leading rune of the class is skipped whatever follows it. *)
Lemma trimRunes_skip s w x :
  width s = S w -> trim (firstn (S w) s ++ x) = trim x.
Proof.
  subst width. unfold runeWidth.
  destruct s as [|c1 r1]; [discriminate|].
  destruct (is1 c1) eqn:E1.
  { intros [= <-]. cbn [firstn app]. rewrite trimRunes_cons, E1. reflexivity. }
  destruct r1 as [|c2 r2]; [discriminate|].
  destruct (is2 c1 c2) eqn:E2.
  { intros [= <-]. cbn [firstn app]. rewrite trimRunes_cons, E1, E2. reflexivity. }
  destruct r2 as [|c3 r3]; [discriminate|].
  destruct (is3 c1 c2 c3) eqn:E3; [|discriminate].
  intros [= <-]. cbn [firstn app]. rewrite trimRunes_cons, E1, E2, E3. reflexivity.
Qed.

(** What is removed is a prefix, made of runes of the class only. *)
Lemma trimRunes_suffix s : exists p, s = p ++ trim s /\ trim p = [].
Proof.
  induction s as [s IH] using gostring_len_ind.
  rewrite trimRunes_step. destruct (width s) as [|w] eqn:E.
  - exists []. split; reflexivity.
  - pose proof (runeWidth_le s) as Hle. rewrite E in Hle.
    destruct (IH (skipn (S w) s)) as (p & Hp & Hp').
    { unfold len in *. rewrite length_skipn. lia. }
    exists (firstn (S w) s ++ p). split.
    + rewrite <- app_assoc, <- Hp. symmetry. apply firstn_skipn.
    + rewrite (trimRunes_skip s w p E). exact Hp'.
Qed.

(** What is left does not start with a rune of the class. *)
Lemma trimRunes_width s : width (trim s) = 0.
Proof.
  induction s as [s IH] using gostring_len_ind.
  rewrite trimRunes_step. destruct (width s) as [|w] eqn:E; [exact E|].
  pose proof (runeWidth_le s) as Hle. rewrite E in Hle.
  apply IH. unfold len in *. rewrite length_skipn. lia.
Qed.

Lemma trimRunes_len s : len (trim s) <= len s.
Proof.
  destruct (trimRunes_suffix s) as (p & Hp & _).
  rewrite Hp at 2. unfold len. rewrite length_app. lia.
Qed.

(** A string that starts with no rune of the class has no non-empty
    prefix that does. *)
Lemma runeWidth_prefix a b : a <> [] -> width (a ++ b) = 0 -> width a = 0.
Proof.
  subst width. intros Ha.
  destruct a as [|c1 [|c2 [|c3 r]]]; [congruence| | |]; simpl.
  - destruct (is1 c1); [discriminate|reflexivity].
  - destruct (is1 c1); [discriminate|]. destruct b as [|c3 b]; simpl.
    + auto.
    + destruct (is2 c1 c2); [discriminate|reflexivity].
  - auto.
Qed.
End RuneFacts.

Lemma TrimSpace_len s : len (TrimSpace s) <= len s.
Proof.
  unfold TrimSpace, TrimRightSpace, TrimLeftSpace.
  set (t := trimRunes asciiSpace spaceRune2 spaceRune3 s).
  assert (len t <= len s) by apply trimRunes_len.
  unfold len in *. rewrite length_rev.
  etransitivity; [apply trimRunes_len|]. unfold len. rewrite length_rev. lia.
Qed.

Lemma TrimRightSpace_prefix s :
  exists q, s = TrimRightSpace s ++ q /\ TrimRightSpace q = [].
Proof.
  unfold TrimRightSpace.
  destruct (trimRunes_suffix asciiSpace (fun c1 c2 => spaceRune2 c2 c1)
              (fun c1 c2 c3 => spaceRune3 c3 c2 c1) (rev s)) as (p & Hp & Hp').
  exists (rev p). split.
  - rewrite <- rev_app_distr, <- Hp. symmetry. apply rev_involutive.
  - rewrite rev_involutive, Hp'. reflexivity.
Qed.

(** The string is its trimmed form between two runs of white space. *)
Lemma TrimSpace_decompose s :
  exists p q, s = p ++ TrimSpace s ++ q
              /\ TrimLeftSpace p = [] /\ TrimRightSpace q = [].
Proof.
  unfold TrimSpace.
  destruct (trimRunes_suffix asciiSpace spaceRune2 spaceRune3 s) as (p & Hp & Hp').
  fold TrimLeftSpace in Hp, Hp'.
  destruct (TrimRightSpace_prefix (TrimLeftSpace s)) as (q & Hq & Hq').
  exists p, q. rewrite <- Hq. auto.
Qed.

(** No white space is left at either end. *)
Lemma TrimSpace_clean s :
  startsWithSpace (TrimSpace s) = false /\ endsWithSpace (TrimSpace s) = false.
Proof.
  unfold startsWithSpace, endsWithSpace, TrimSpace. split.
  - destruct (TrimRightSpace_prefix (TrimLeftSpace s)) as (q & Hq & _).
    destruct (TrimRightSpace (TrimLeftSpace s)) as [|c r] eqn:E; [reflexivity|].
    unfold leadingSpaceWidth.
    rewrite (runeWidth_prefix _ _ _ (c :: r) q); [reflexivity|discriminate|].
    rewrite <- Hq. apply trimRunes_width.
  - unfold TrimRightSpace, trailingSpaceWidthRev.
    rewrite rev_involutive, trimRunes_width. reflexivity.
Qed.

Lemma TrimSpace_fixed s :
  startsWithSpace s = false -> endsWithSpace s = false -> TrimSpace s = s.
Proof.
  unfold startsWithSpace, endsWithSpace, TrimSpace, TrimRightSpace, TrimLeftSpace.
  intros Hl Hr.
  apply negb_false_iff, Nat.eqb_eq in Hl.
  apply negb_false_iff, Nat.eqb_eq in Hr.
  rewrite (trimRunes_fixed _ _ _ s Hl).
  rewrite (trimRunes_fixed _ _ _ (rev s) Hr).
  apply rev_involutive.
Qed.

Lemma trimLeftByte_suffix s c : exists n, s = repeat c n ++ trimLeftByte s c.
Proof.
  induction s as [|x r IH]; simpl.
  - exists 0. reflexivity.
  - destruct (Ascii.eqb_spec x c) as [->|Hne].
    + destruct IH as [n Hn]. exists (S n). simpl. f_equal. exact Hn.
    + exists 0. reflexivity.
Qed.

Lemma trimLeftByte_clean s c : startsWithByte c (trimLeftByte s c) = false.
Proof.
  induction s as [|x r IH]; simpl; [reflexivity|].
  destruct (Ascii.eqb x c) eqn:E; [exact IH|]. simpl. exact E.
Qed.

Lemma trimLeftByte_fixed s c : startsWithByte c s = false -> trimLeftByte s c = s.
Proof. destruct s as [|x r]; simpl; [reflexivity|]. intros ->. reflexivity. Qed.

Lemma startsWithByte_app c a b :
  a <> [] -> startsWithByte c (a ++ b) = startsWithByte c a.
Proof. destruct a; [congruence|reflexivity]. Qed.

Lemma rev_repeat (c : ascii) n : rev (repeat c n) = repeat c n.
Proof.
  induction n as [|n IH]; [reflexivity|].
  simpl. rewrite IH. symmetry. apply repeat_cons.
Qed.

(** [Trim] removes a run of the byte at each end, of any length. *)
Lemma Trim_decompose s c : exists n m, s = repeat c n ++ Trim s c ++ repeat c m.
Proof.
  unfold Trim, trimRightByte.
  destruct (trimLeftByte_suffix (rev s) c) as [m Hm].
  destruct (trimLeftByte_suffix (rev (trimLeftByte (rev s) c)) c) as [n Hn].
  exists n, m. rewrite app_assoc, <- Hn.
  rewrite <- (rev_repeat c m), <- rev_app_distr, <- Hm.
  symmetry. apply rev_involutive.
Qed.

(** and leaves the byte at neither end. *)
Lemma Trim_clean s c :
  startsWithByte c (Trim s c) = false /\ endsWithByte c (Trim s c) = false.
Proof.
  unfold Trim, trimRightByte, endsWithByte. split; [apply trimLeftByte_clean|].
  set (u := rev (trimLeftByte (rev s) c)).
  assert (Hu : startsWithByte c (rev u) = false).
  { subst u. rewrite rev_involutive. apply trimLeftByte_clean. }
  destruct (trimLeftByte_suffix u c) as [n Hn].
  destruct (trimLeftByte u c) as [|x r] eqn:E; [reflexivity|].
  rewrite Hn, rev_app_distr, startsWithByte_app in Hu; [exact Hu|].
  intros H. apply (f_equal (@List.length ascii)) in H.
  rewrite length_rev in H. discriminate.
Qed.

Lemma Trim_fixed s c :
  startsWithByte c s = false -> endsWithByte c s = false -> Trim s c = s.
Proof.
  unfold Trim, trimRightByte, endsWithByte. intros Hl Hr.
  rewrite (trimLeftByte_fixed (rev s) c Hr), rev_involutive.
  apply trimLeftByte_fixed, Hl.
Qed.

Lemma Trim_len s c : len (Trim s c) <= len s.
Proof.
  destruct (Trim_decompose s c) as (n & m & H).
  rewrite H at 2. unfold len. rewrite !length_app. lia.
Qed.

(** ** The content policy *)

Lemma truncateTweet_short s : len s <= 280 -> truncateTweet s = Some s.
Proof.
  intros H. unfold truncateTweet.
  destruct (Nat.ltb_spec 280 (len s)); [lia|reflexivity].
Qed.

Lemma truncateTweet_long s :
  280 < len s -> truncateTweet s = Some (firstn 277 s ++ lit "...").
Proof.
  intros H. unfold truncateTweet, sliceTo.
  destruct (Nat.ltb_spec 280 (len s)); [|lia].
  destruct (Nat.leb_spec 277 (len s)); [reflexivity|lia].
Qed.

Lemma len_truncated s : 280 < len s -> len (firstn 277 s ++ lit "...") = 280.
Proof.
  intros H. unfold len in *. rewrite length_app, length_firstn.
  change (List.length (lit "...")) with 3. lia.
Qed.

(** The slice of the policy is always in range. *)
Lemma truncateTweet_total s : exists r, truncateTweet s = Some r.
Proof.
  destruct (Nat.le_gt_cases (len s) 280).
  - exists s. apply truncateTweet_short. assumption.
  - eexists. apply truncateTweet_long. assumption.
Qed.

Lemma truncateTweet_len s r : truncateTweet s = Some r -> len r <= 280.
Proof.
  destruct (Nat.le_gt_cases (len s) 280) as [H|H].
  - rewrite (truncateTweet_short s H). intros [= <-]. exact H.
  - rewrite (truncateTweet_long s H). intros E.
    assert (Hr : r = firstn 277 s ++ lit "...") by congruence.
    rewrite Hr, (len_truncated s H). lia.
Qed.

Lemma truncateTweet_le s r : truncateTweet s = Some r -> len r <= len s.
Proof.
  destruct (Nat.le_gt_cases (len s) 280) as [H|H].
  - rewrite (truncateTweet_short s H). intros [= <-]. lia.
  - rewrite (truncateTweet_long s H). intros E.
    assert (Hr : r = firstn 277 s ++ lit "...") by congruence.
    rewrite Hr, (len_truncated s H). lia.
Qed.

Lemma normalizeGemini_total raw : exists r, normalizeGemini raw = Some r.
Proof. apply truncateTweet_total. Qed.

Lemma normalizePerplexity_total raw : exists r, normalizePerplexity raw = Some r.
Proof. apply truncateTweet_total. Qed.

Lemma normalizeGemini_len raw r : normalizeGemini raw = Some r -> len r <= 280.
Proof. apply truncateTweet_len. Qed.

Lemma normalizePerplexity_len raw r :
  normalizePerplexity raw = Some r -> len r <= 280.
Proof. apply truncateTweet_len. Qed.

Lemma normalizeGemini_fixed v :
  startsWithSpace v = false -> endsWithSpace v = false ->
  startsWithByte quote v = false -> endsWithByte quote v = false ->
  len v <= 280 ->
  normalizeGemini v = Some v.
Proof.
  intros Hs1 Hs2 Hq1 Hq2 Hlen. unfold normalizeGemini.
  rewrite (TrimSpace_fixed v Hs1 Hs2), (Trim_fixed v quote Hq1 Hq2).
  apply truncateTweet_short, Hlen.
Qed.

(** The cut text keeps the first byte and ends with a full stop. *)
Lemma truncated_ends t c :
  280 < len t ->
  startsWithByte c (firstn 277 t ++ lit "...") = startsWithByte c t
  /\ endsWithByte quote (firstn 277 t ++ lit "...") = false.
Proof.
  intros H. split.
  - destruct t as [|x r]; [simpl in H; lia|]. reflexivity.
  - unfold endsWithByte. rewrite rev_app_distr. reflexivity.
Qed.

(** The example of the specification: spaces and one pair of quotes
    around a short text. *)
Example liverpool_example :
  normalizeGemini (lit "  " ++ [quote]
                   ++ lit "Liverpool beat Everton 2-1 at Anfield! #LFC"
                   ++ [quote] ++ lit "  ")
  = Some (lit "Liverpool beat Everton 2-1 at Anfield! #LFC").
Proof. vm_compute. reflexivity. Qed.

(** C3, amended. Truncation law, with lengths in bytes as the builtin
    [len] gives them: when the trimmed form of the raw output (white
    space, then quotes, removed) is longer than 280 bytes, the validated
    text is its first 277 bytes followed by three full stops, and its
    length is exactly 280 bytes.  The cut is at a byte count, wherever
    that falls in a word. *)
Theorem truncation_law (raw : gostring) :
  maxLen < len (Trim (TrimSpace raw) quote) ->
  exists result,
    normalizeGemini raw = Some result
    /\ result = firstn (maxLen - 3) (Trim (TrimSpace raw) quote) ++ lit "..."
    /\ len result = maxLen.
Proof.
  unfold maxLen. intros H. eexists. split; [|split; [reflexivity|]].
  - unfold normalizeGemini. apply truncateTweet_long, H.
  - apply (len_truncated _ H).
Qed.

Lemma truncation_law_witness :
  exists result,
    normalizeGemini (repeat "a"%char 300) = Some result
    /\ result = firstn (maxLen - 3) (Trim (TrimSpace (repeat "a"%char 300)) quote)
                ++ lit "..."
    /\ len result = maxLen.
Proof.
  apply (truncation_law (repeat "a"%char 300)).
  apply Nat.ltb_lt. vm_compute. reflexivity.
Defined.

(** The count is of bytes: 141 letters of two bytes each are cut, and
    the cut falls between the two bytes of the 139th. *)
Example truncation_counts_bytes :
  exists head,
    normalizeGemini (List.concat (repeat [ascii_of_nat 195; ascii_of_nat 169] 141))
    = Some (head ++ [ascii_of_nat 195] ++ lit "...")
    /\ len head = 276.
Proof.
  exists (List.concat (repeat [ascii_of_nat 195; ascii_of_nat 169] 138)).
  split; vm_compute; reflexivity.
Qed.

(** C3, as stated, in characters, fails: a text of 281 letters of two
    bytes each is longer than 280 characters; its validated form is not
    its first 277 characters followed by three full stops, and has 142
    characters, not 280: 138 letters, the first byte of the 139th, and
    the full stops. *)
Lemma truncation_characters_counterexample :
  Trim (TrimSpace Samples.accents) quote = Samples.accents
  /\ maxLen < charCount Samples.accents
  /\ (exists result,
         normalizeGemini Samples.accents = Some result
         /\ result <> firstChars (maxLen - 3) Samples.accents ++ lit "..."
         /\ charCount result = 142)
  /\ ~ (forall raw,
           maxLen < charCount (Trim (TrimSpace raw) quote) ->
           exists result,
             normalizeGemini raw = Some result
             /\ result
                = firstChars (maxLen - 3) (Trim (TrimSpace raw) quote) ++ lit "..."
             /\ charCount result = maxLen).
Proof.
  assert (T : Trim (TrimSpace Samples.accents) quote = Samples.accents)
    by (vm_compute; reflexivity).
  assert (L : maxLen < charCount Samples.accents)
    by (apply Nat.ltb_lt; vm_compute; reflexivity).
  assert (N : exists result,
             normalizeGemini Samples.accents = Some result
             /\ len result = 280 /\ charCount result = 142).
  { eexists. split; [vm_compute; reflexivity|].
    split; vm_compute; reflexivity. }
  assert (F : len (firstChars (maxLen - 3) Samples.accents ++ lit "...") = 557)
    by (vm_compute; reflexivity).
  destruct N as (result & Hn & Hlen & Hc).
  split; [exact T|]. split; [exact L|]. split.
  - exists result. split; [exact Hn|]. split; [|exact Hc].
    intros E. rewrite E, F in Hlen. discriminate Hlen.
  - intros H. destruct (H Samples.accents) as (r & Hr & _ & Hcount).
    + rewrite T. exact L.
    + assert (r = result) by congruence. subst r.
      rewrite Hc in Hcount. discriminate Hcount.
Qed.

(** On a text of one-byte characters the two counts agree, and the law
    holds in characters too. *)
Lemma splitChars_ascii fuel s :
  len s <= fuel -> forallb (inRange 0 127) s = true ->
  splitChars fuel s = map (fun c => [c]) s.
Proof.
  revert s. induction fuel as [|fuel IH]; intros [|c r] Hlen Ha;
    try reflexivity; unfold len in Hlen; cbn [List.length] in Hlen; [lia|].
  cbn [forallb] in Ha. apply andb_true_iff in Ha as [Hc Hr].
  cbn [splitChars utf8Width]. rewrite Hc. cbn [firstn skipn map].
  rewrite IH; [reflexivity|unfold len; lia|exact Hr].
Qed.

Lemma charCount_ascii s : forallb (inRange 0 127) s = true -> charCount s = len s.
Proof.
  intros H. unfold charCount, chars.
  rewrite (splitChars_ascii (len s) s (Nat.le_refl _) H). apply length_map.
Qed.

Lemma firstChars_ascii n s :
  forallb (inRange 0 127) s = true -> firstChars n s = firstn n s.
Proof.
  intros H. unfold firstChars, chars.
  rewrite (splitChars_ascii (len s) s (Nat.le_refl _) H). clear H.
  revert n. induction s as [|c r IH]; intros [|n]; try reflexivity.
  cbn [map firstn List.concat app]. rewrite IH. reflexivity.
Qed.

Lemma trimmed_ascii raw :
  forallb (inRange 0 127) raw = true ->
  forallb (inRange 0 127) (Trim (TrimSpace raw) quote) = true.
Proof.
  intros H.
  destruct (TrimSpace_decompose raw) as (p & q & E & _ & _).
  destruct (Trim_decompose (TrimSpace raw) quote) as (n & m & E').
  rewrite E, !forallb_app in H.
  apply andb_true_iff in H as [_ H]. apply andb_true_iff in H as [H _].
  rewrite E', !forallb_app in H.
  apply andb_true_iff in H as [_ H]. apply andb_true_iff in H as [H _].
  exact H.
Qed.

Lemma truncation_law_one_byte_characters raw :
  forallb (inRange 0 127) raw = true ->
  maxLen < charCount (Trim (TrimSpace raw) quote) ->
  exists result,
    normalizeGemini raw = Some result
    /\ result = firstChars (maxLen - 3) (Trim (TrimSpace raw) quote) ++ lit "..."
    /\ charCount result = maxLen.
Proof.
  intros Ha H. pose proof (trimmed_ascii raw Ha) as Ht.
  rewrite (charCount_ascii _ Ht) in H.
  rewrite (firstChars_ascii _ _ Ht).
  unfold maxLen in *. eexists. split; [|split; [reflexivity|]].
  - unfold normalizeGemini. apply truncateTweet_long, H.
  - rewrite charCount_ascii; [apply (len_truncated _ H)|].
    rewrite forallb_app. apply andb_true_iff. split; [|reflexivity].
    rewrite <- (firstn_skipn 277 (Trim (TrimSpace raw) quote)), forallb_app in Ht.
    apply andb_true_iff in Ht as [Ht _]. exact Ht.
Qed.

(** The same law on the fallback path, whose trimmed form keeps quotes. *)
Lemma truncation_law_perplexity (raw : gostring) :
  maxLen < len (TrimSpace raw) ->
  exists result,
    normalizePerplexity raw = Some result
    /\ result = firstn (maxLen - 3) (TrimSpace raw) ++ lit "..."
    /\ len result = maxLen.
Proof.
  unfold maxLen. intros H. eexists. split; [|split; [reflexivity|]].
  - unfold normalizePerplexity. apply truncateTweet_long, H.
  - apply (len_truncated _ H).
Qed.

(** C5, as stated, fails: two layers of quotes are both removed, where
    stripping a single enclosing pair would leave one. *)
Lemma quote_layers_counterexample :
  normalizeGemini ([quote; quote] ++ lit "a" ++ [quote; quote]) = Some (lit "a")
  /\ specValidate ([quote; quote] ++ lit "a" ++ [quote; quote])
     = Some ([quote] ++ lit "a" ++ [quote])
  /\ ~ (forall raw, normalizeGemini raw = specValidate raw).
Proof.
  split; [vm_compute; reflexivity|]. split; [vm_compute; reflexivity|].
  intros H. specialize (H ([quote; quote] ++ lit "a" ++ [quote; quote])).
  vm_compute in H. discriminate H.
Qed.

(** C5, amended. The validated text is the raw output with the white
    space at both ends removed, then every double quote at both ends
    removed (runs of any length, paired or not), then cut to the limit;
    a string with neither white space nor a quote at its ends and within
    the limit is returned unchanged. *)
Theorem normalizeGemini_trims (raw : gostring) :
  (exists p q n m,
      raw = p ++ TrimSpace raw ++ q
      /\ TrimLeftSpace p = [] /\ TrimRightSpace q = []
      /\ TrimSpace raw
         = repeat quote n ++ Trim (TrimSpace raw) quote ++ repeat quote m)
  /\ startsWithSpace (TrimSpace raw) = false
  /\ endsWithSpace (TrimSpace raw) = false
  /\ startsWithByte quote (Trim (TrimSpace raw) quote) = false
  /\ endsWithByte quote (Trim (TrimSpace raw) quote) = false
  /\ normalizeGemini raw = truncateTweet (Trim (TrimSpace raw) quote)
  /\ (startsWithSpace raw = false -> endsWithSpace raw = false ->
      startsWithByte quote raw = false -> endsWithByte quote raw = false ->
      len raw <= maxLen ->
      normalizeGemini raw = Some raw).
Proof.
  split; [|repeat split].
  - destruct (TrimSpace_decompose raw) as (p & q & H1 & H2 & H3).
    destruct (Trim_decompose (TrimSpace raw) quote) as (n & m & H4).
    exists p, q, n, m. auto.
  - apply TrimSpace_clean.
  - apply TrimSpace_clean.
  - apply Trim_clean.
  - apply Trim_clean.
  - apply normalizeGemini_fixed.
Qed.

Lemma normalizeGemini_trims_witness :
  normalizeGemini (lit "Liverpool beat Everton 2-1 at Anfield! #LFC")
  = Some (lit "Liverpool beat Everton 2-1 at Anfield! #LFC").
Proof.
  apply (normalizeGemini_trims (lit "Liverpool beat Everton 2-1 at Anfield! #LFC"));
    try reflexivity.
  apply Nat.leb_le. vm_compute. reflexivity.
Defined.

(** A text that has neither white space nor a quote at its ends, within
    the limit, is what a validation returns on itself. *)
Lemma valid_text_is_an_output v :
  startsWithSpace v = false -> endsWithSpace v = false ->
  startsWithByte quote v = false -> endsWithByte quote v = false ->
  len v <= maxLen ->
  exists raw, normalizeGemini raw = Some v.
Proof.
  intros Hs1 Hs2 Hq1 Hq2 Hlen. exists v.
  apply normalizeGemini_fixed; assumption.
Qed.

(** C9. Validation leaves a valid text as it is: a string that is
    trimmed of white space and of quotes at both ends and is within the
    280 limit is returned unchanged by the validation (white space
    trimmed, quotes trimmed, cut when over the limit). *)
Theorem validation_idempotent (v : gostring) :
  startsWithSpace v = false -> endsWithSpace v = false ->
  startsWithByte quote v = false -> endsWithByte quote v = false ->
  len v <= maxLen ->
  normalizeGemini v = Some v.
Proof. apply normalizeGemini_fixed. Qed.

Lemma validation_idempotent_witness :
  normalizeGemini (lit "Up the Reds") = Some (lit "Up the Reds").
Proof.
  apply (validation_idempotent (lit "Up the Reds")); try reflexivity.
  apply Nat.leb_le. vm_compute. reflexivity.
Defined.

(** What a validation returns is always free of quotes at its ends and
    within the limit; it can keep white space that stood just inside
    the quotes, and is returned unchanged by a second validation when
    it has none at its ends. *)
Lemma validated_text_revalidates (raw v : gostring) :
  normalizeGemini raw = Some v ->
  startsWithByte quote v = false /\ endsWithByte quote v = false
  /\ len v <= maxLen
  /\ (startsWithSpace v = false -> endsWithSpace v = false ->
      normalizeGemini v = Some v).
Proof.
  intros Hv.
  assert (Hq : startsWithByte quote v = false /\ endsWithByte quote v = false).
  { unfold normalizeGemini in Hv.
    set (t := Trim (TrimSpace raw) quote) in *.
    destruct (Trim_clean (TrimSpace raw) quote) as [Hq1 Hq2]. fold t in Hq1, Hq2.
    destruct (Nat.le_gt_cases (len t) 280) as [H|H].
    - rewrite (truncateTweet_short t H) in Hv.
      assert (v = t) by congruence. subst v. auto.
    - rewrite (truncateTweet_long t H) in Hv.
      assert (Hr : v = firstn 277 t ++ lit "...") by congruence.
      destruct (truncated_ends t quote H) as [E1 E2].
      rewrite Hr, E1. auto. }
  destruct Hq as [Hq1 Hq2].
  assert (Hlen : len v <= 280) by exact (normalizeGemini_len raw v Hv).
  repeat split; auto.
  intros Hs1 Hs2. apply normalizeGemini_fixed; assumption.
Qed.

(** A text validated from white space inside quotes keeps that white
    space, and a second validation removes it. *)
Example inner_white_space_is_kept :
  normalizeGemini ([quote] ++ lit " a " ++ [quote]) = Some (lit " a ")
  /\ normalizeGemini (lit " a ") = Some (lit "a").
Proof. split; vm_compute; reflexivity. Qed.

(** ** Runs *)

(** A fact source either fails or yields its element. *)
Lemma fetch_last_cases {A} (r : HttpReply (list A)) :
  factFetchFails r = true \/ exists x, lastFetched r x.
Proof.
  destruct r as [e|code body [e|l]]; simpl; auto.
  - rewrite orb_true_r. auto.
  - destruct (Z.eqb_spec code 200) as [->|]; simpl; auto.
    destruct l as [|a l]; simpl; auto.
    right. destruct (nth_error (a :: l) (List.length (a :: l) - 1)) as [x|] eqn:E.
    + exists x, body, (a :: l). auto.
    + apply nth_error_None in E. simpl in E. lia.
Qed.

Lemma fetch_first_cases {A} (r : HttpReply (list A)) :
  factFetchFails r = true \/ exists x, firstFetched r x.
Proof.
  destruct r as [e|code body [e|l]]; simpl; auto.
  - rewrite orb_true_r. auto.
  - destruct (Z.eqb_spec code 200) as [->|]; simpl; auto.
    destruct l as [|a l]; simpl; auto.
    right. exists a, body, (a :: l). auto.
Qed.

Lemma fetch_last_exclusive {A} (r : HttpReply (list A)) x :
  lastFetched r x -> factFetchFails r = false.
Proof.
  intros (body & l & -> & H). simpl.
  destruct l; [destruct (0 - 1); discriminate|reflexivity].
Qed.

Lemma fetch_first_exclusive {A} (r : HttpReply (list A)) x :
  firstFetched r x -> factFetchFails r = false.
Proof.
  intros (body & l & -> & H). simpl. destruct l; [discriminate|reflexivity].
Qed.

Lemma lastFetched_inj {A} (r : HttpReply (list A)) x y :
  lastFetched r x -> lastFetched r y -> x = y.
Proof.
  intros (b1 & l1 & E1 & H1) (b2 & l2 & E2 & H2).
  rewrite E1 in E2. inversion E2; subst. congruence.
Qed.

Lemma fetchLatestLeagueMatch_fails w league t :
  factFetchFails (footballData w (leagueMatchesURL league)) = true ->
  exists e,
    fetchLatestLeagueMatch w league t
    = Returned (None, Some e) (t ++ [EvFetchMatches (leagueMatchesURL league)]).
Proof.
  unfold fetchLatestLeagueMatch, getMatches, bind, emit, ret, factFetchFails.
  destruct (footballData w (leagueMatchesURL league)) as [e|code body [e|l]].
  - eauto.
  - destruct (negb (code =? 200)%Z); eauto.
  - destruct (negb (code =? 200)%Z); [eauto|]. simpl.
    destruct (List.length l =? 0); [eauto|discriminate].
Qed.

Lemma fetchLatestLeagueMatch_ok w league m t :
  lastFetched (footballData w (leagueMatchesURL league)) m ->
  fetchLatestLeagueMatch w league t
  = Returned (Some m, None) (t ++ [EvFetchMatches (leagueMatchesURL league)]).
Proof.
  intros (body & l & E & H).
  unfold fetchLatestLeagueMatch, getMatches, bind, emit, ret, orPanic.
  rewrite E. simpl. rewrite H.
  destruct l; [destruct (0 - 1); discriminate|reflexivity].
Qed.

Lemma bind_eq {A B} (c : M A) (k : A -> M B) t :
  bind c k t = match c t with
               | Returned a t' => k a t'
               | Panicked t' => Panicked t'
               end.
Proof. reflexivity. Qed.

Lemma ret_eq {A} (a : A) t : ret a t = Returned a t.
Proof. reflexivity. Qed.

Lemma orPanic_Some {A} (a : A) t : orPanic (Some a) t = Returned a t.
Proof. reflexivity. Qed.

Lemma orPanic_None {A} t : @orPanic A None t = Panicked t.
Proof. reflexivity. Qed.

Lemma GenerateContent_eq w prompt t :
  GenerateContent w prompt t
  = Returned (gemini w (List.length (filter isGenerateContent t)) prompt)
             (t ++ [EvGenerateContent prompt]).
Proof. reflexivity. Qed.

Lemma postPerplexity_eq w system user t :
  postPerplexity w system user t
  = Returned (perplexity w system user) (t ++ [EvPerplexity system user]).
Proof. reflexivity. Qed.

Lemma postTweet_eq w text t :
  postTweet w text t = Returned (twitter w text) (t ++ [EvPost text]).
Proof. reflexivity. Qed.

Lemma sliceTo_ok s n : n <= len s -> sliceTo s n = Some (firstn n s).
Proof. intros H. unfold sliceTo. destruct (Nat.leb_spec n (len s)); [reflexivity|lia]. Qed.

Lemma sliceTo_panic s n : len s < n -> sliceTo s n = None.
Proof. intros H. unfold sliceTo. destruct (Nat.leb_spec n (len s)); [lia|reflexivity]. Qed.

Lemma primary_cases r :
  primaryFailed r = true \/ primaryPanics r = true
  \/ exists content, primaryContent r = Some content.
Proof.
  destruct r as [e|cands]; simpl; auto.
  destruct (firstPart cands) as [| |part]; auto.
  right. right. apply normalizeGemini_total.
Qed.

(** The replies on which the program takes the fallback, and those on
    which it panics, by their shape. *)
Lemma primaryFailed_iff r :
  primaryFailed r = true
  <-> (exists e, r = GenerateError e)
      \/ r = GenerateResponse []
      \/ (exists c rest, r = GenerateResponse (c :: rest) /\ Content c = Some []).
Proof.
  split.
  - destruct r as [e|[|[[[|part parts]|]] rest]]; simpl; try discriminate; eauto 6.
  - intros [[e ->]|[->|(c & rest & -> & Hc)]]; simpl; try reflexivity.
    rewrite Hc. reflexivity.
Qed.

Lemma primaryPanics_iff r :
  primaryPanics r = true
  <-> exists c rest, r = GenerateResponse (c :: rest) /\ Content c = None.
Proof.
  split.
  - destruct r as [e|[|[[[|part parts]|]] rest]]; simpl; try discriminate; eauto.
  - intros (c & rest & -> & Hc). simpl. rewrite Hc. reflexivity.
Qed.

Lemma primaryPanics_content r : primaryPanics r = true -> primaryContent r = None.
Proof.
  destruct r as [e|cands]; simpl; auto.
  destruct (firstPart cands); try discriminate; reflexivity.
Qed.

Lemma primaryContent_len r content : primaryContent r = Some content -> len content <= 280.
Proof.
  destruct r as [e|cands]; simpl; [discriminate|].
  destruct (firstPart cands) as [| |part]; try discriminate.
  apply normalizeGemini_len.
Qed.

Lemma primaryFailed_content r : primaryFailed r = true -> primaryContent r = None.
Proof.
  destruct r as [e|cands]; simpl; auto.
  destruct (firstPart cands); try discriminate; reflexivity.
Qed.

Lemma fallbackContent_len r content : fallbackContent r = Some content -> len content <= 280.
Proof.
  destruct r as [e|code body [e|[|raw l]]]; simpl; try discriminate;
    destruct (negb (code =? 200)%Z); try discriminate.
  apply normalizePerplexity_len.
Qed.

Lemma perplexityContent_run reply t :
  match fallbackContent reply with
  | Some content => perplexityContent reply t = Returned (content, None) t
  | None => exists e, perplexityContent reply t = Returned ([], Some e) t
  end.
Proof.
  unfold perplexityContent, fallbackContent.
  destruct reply as [e|code body [e|[|raw l]]]; simpl; eauto;
    destruct (negb (code =? 200)%Z); simpl; eauto.
  destruct (normalizePerplexity_total raw) as [r Hr].
  rewrite bind_eq. simpl. rewrite bind_eq, Hr. reflexivity.
Qed.

Lemma fetchPerplexityFootballTweet_run w leagueName m t :
  10 <= len (UtcDate m) ->
  PerplexityRun w leagueName m t
    (fetchPerplexityFootballTweet w leagueName (Some m) t).
Proof.
  intros Hdate. unfold fetchPerplexityFootballTweet.
  destruct (Nat.eqb_spec (len (PerplexityAPIKey w)) 0) as [Hk|Hk].
  { apply PerplexityNoKey, Hk. }
  rewrite bind_eq, orPanic_Some, bind_eq, (sliceTo_ok _ 10 Hdate), orPanic_Some.
  fold (dateOf m). rewrite bind_eq, postPerplexity_eq.
  pose proof (perplexityContent_run
                (perplexity w (perplexityFootballSystem leagueName)
                   (perplexityFootballPrompt leagueName m (dateOf m)))
                (t ++ [EvPerplexity (perplexityFootballSystem leagueName)
                         (perplexityFootballPrompt leagueName m (dateOf m))])) as H.
  destruct (fallbackContent _) as [content|] eqn:E.
  - rewrite H. apply PerplexityOk; assumption.
  - destruct H as [e ->]. apply PerplexityFailed; assumption.
Qed.


(** The equations of [generateLeagueNewsFromAPI], one per path. *)
Section LeaguePaths.
Variable w : World.
Variable league : FootballLeague.
Variable leagueName : gostring.

Let url := leagueMatchesURL league.
Let first m := leaguePrompt leagueName m (dateOf m).
Let retry m := leagueRetryPrompt leagueName m (dateOf m).
Let generate := generateLeagueNewsFromAPI w league leagueName.

Lemma league_fetch_failed :
  factFetchFails (footballData w url) = true ->
  exists e,
    run generate
    = Returned ([], Some (lit "failed to fetch latest match: " ++ e))
               [EvFetchMatches url].
Proof.
  intros Hf. subst generate url. unfold run, generateLeagueNewsFromAPI.
  destruct (fetchLatestLeagueMatch_fails w league [] Hf) as [e He].
  exists e. rewrite bind_eq, He. reflexivity.
Qed.

Lemma league_short_date m :
  lastFetched (footballData w url) m -> len (UtcDate m) < 10 ->
  run generate = Panicked [EvFetchMatches url].
Proof.
  intros Hm Hdate. subst generate url. unfold run, generateLeagueNewsFromAPI.
  rewrite bind_eq, (fetchLatestLeagueMatch_ok w league m [] Hm).
  rewrite bind_eq, orPanic_Some, bind_eq, (sliceTo_panic _ 10 Hdate).
  reflexivity.
Qed.

(** Up to the first answer of the primary provider. *)
Lemma league_first_call m :
  lastFetched (footballData w url) m -> 10 <= len (UtcDate m) ->
  run generate
  = match gemini w 0 (first m) with
    | GenerateError _ => fetchPerplexityFootballTweet w leagueName (Some m)
    | GenerateResponse Candidates =>
        match firstPart Candidates with
        | ContentNil => panic
        | NoPart => fetchPerplexityFootballTweet w leagueName (Some m)
        | Part part =>
            content <- orPanic (normalizeGemini part) ;;
            if len content <? 100 then
              resp <- GenerateContent w (retry m) ;;
              match resp with
              | GenerateError _ =>
                  fetchPerplexityFootballTweet w leagueName (Some m)
              | GenerateResponse Candidates =>
                  match firstPart Candidates with
                  | ContentNil => panic
                  | NoPart => fetchPerplexityFootballTweet w leagueName (Some m)
                  | Part part =>
                      content <- orPanic (normalizeGemini part) ;;
                      ret (content, None)
                  end
              end
            else ret (content, None)
        end
    end [EvFetchMatches url; EvGenerateContent (first m)].
Proof.
  intros Hm Hdate. subst generate url first retry.
  unfold run, generateLeagueNewsFromAPI.
  rewrite bind_eq, (fetchLatestLeagueMatch_ok w league m [] Hm).
  rewrite bind_eq, orPanic_Some, bind_eq, (sliceTo_ok _ 10 Hdate), orPanic_Some.
  fold (dateOf m). rewrite bind_eq, GenerateContent_eq. reflexivity.
Qed.

Lemma league_first_failed m :
  lastFetched (footballData w url) m -> 10 <= len (UtcDate m) ->
  primaryFailed (gemini w 0 (first m)) = true ->
  run generate
  = fetchPerplexityFootballTweet w leagueName (Some m)
      [EvFetchMatches url; EvGenerateContent (first m)].
Proof.
  intros Hm Hdate Hfail. rewrite (league_first_call m Hm Hdate).
  destruct (gemini w 0 (first m)) as [e|cands]; [reflexivity|].
  simpl in Hfail. destruct (firstPart cands); try discriminate; reflexivity.
Qed.

Lemma league_first_ok m content :
  lastFetched (footballData w url) m -> 10 <= len (UtcDate m) ->
  primaryContent (gemini w 0 (first m)) = Some content ->
  100 <= len content ->
  run generate
  = Returned (content, None) [EvFetchMatches url; EvGenerateContent (first m)].
Proof.
  intros Hm Hdate Hc Hlen. rewrite (league_first_call m Hm Hdate).
  destruct (gemini w 0 (first m)) as [e|cands]; [discriminate|].
  simpl in Hc. destruct (firstPart cands) as [| |part]; try discriminate.
  rewrite bind_eq, Hc, orPanic_Some.
  destruct (Nat.ltb_spec (len content) 100); [lia|reflexivity].
Qed.

(** Up to the answer to the retry. *)
Lemma league_retry_call m short :
  lastFetched (footballData w url) m -> 10 <= len (UtcDate m) ->
  primaryContent (gemini w 0 (first m)) = Some short ->
  len short < 100 ->
  run generate
  = match gemini w 1 (retry m) with
    | GenerateError _ => fetchPerplexityFootballTweet w leagueName (Some m)
    | GenerateResponse Candidates =>
        match firstPart Candidates with
        | ContentNil => panic
        | NoPart => fetchPerplexityFootballTweet w leagueName (Some m)
        | Part part =>
            content <- orPanic (normalizeGemini part) ;;
            ret (content, None)
        end
    end [EvFetchMatches url; EvGenerateContent (first m);
         EvGenerateContent (retry m)].
Proof.
  intros Hm Hdate Hc Hlen. rewrite (league_first_call m Hm Hdate).
  destruct (gemini w 0 (first m)) as [e|cands]; [discriminate|].
  simpl in Hc. destruct (firstPart cands) as [| |part]; try discriminate.
  rewrite bind_eq, Hc, orPanic_Some.
  destruct (Nat.ltb_spec (len short) 100); [|lia].
  rewrite bind_eq, GenerateContent_eq. reflexivity.
Qed.

Lemma league_retry_failed m short :
  lastFetched (footballData w url) m -> 10 <= len (UtcDate m) ->
  primaryContent (gemini w 0 (first m)) = Some short ->
  len short < 100 ->
  primaryFailed (gemini w 1 (retry m)) = true ->
  run generate
  = fetchPerplexityFootballTweet w leagueName (Some m)
      [EvFetchMatches url; EvGenerateContent (first m);
       EvGenerateContent (retry m)].
Proof.
  intros Hm Hdate Hc Hlen Hfail.
  rewrite (league_retry_call m short Hm Hdate Hc Hlen).
  destruct (gemini w 1 (retry m)) as [e|cands]; [reflexivity|].
  simpl in Hfail. destruct (firstPart cands); try discriminate; reflexivity.
Qed.

Lemma league_retry_ok m short content :
  lastFetched (footballData w url) m -> 10 <= len (UtcDate m) ->
  primaryContent (gemini w 0 (first m)) = Some short ->
  len short < 100 ->
  primaryContent (gemini w 1 (retry m)) = Some content ->
  run generate
  = Returned (content, None)
      [EvFetchMatches url; EvGenerateContent (first m);
       EvGenerateContent (retry m)].
Proof.
  intros Hm Hdate Hc Hlen Hc2.
  rewrite (league_retry_call m short Hm Hdate Hc Hlen).
  destruct (gemini w 1 (retry m)) as [e|cands]; [discriminate|].
  simpl in Hc2. destruct (firstPart cands) as [| |part]; try discriminate.
  rewrite bind_eq, Hc2, orPanic_Some. reflexivity.
Qed.

Lemma league_first_panics m :
  lastFetched (footballData w url) m -> 10 <= len (UtcDate m) ->
  primaryPanics (gemini w 0 (first m)) = true ->
  run generate = Panicked [EvFetchMatches url; EvGenerateContent (first m)].
Proof.
  intros Hm Hdate Hp. rewrite (league_first_call m Hm Hdate).
  destruct (gemini w 0 (first m)) as [e|cands]; [discriminate|].
  simpl in Hp. destruct (firstPart cands); try discriminate; reflexivity.
Qed.

Lemma league_retry_panics m short :
  lastFetched (footballData w url) m -> 10 <= len (UtcDate m) ->
  primaryContent (gemini w 0 (first m)) = Some short ->
  len short < 100 ->
  primaryPanics (gemini w 1 (retry m)) = true ->
  run generate
  = Panicked [EvFetchMatches url; EvGenerateContent (first m);
              EvGenerateContent (retry m)].
Proof.
  intros Hm Hdate Hc Hlen Hp.
  rewrite (league_retry_call m short Hm Hdate Hc Hlen).
  destruct (gemini w 1 (retry m)) as [e|cands]; [discriminate|].
  simpl in Hp. destruct (firstPart cands); try discriminate; reflexivity.
Qed.

(** Every run is one of the eight cases. *)
Lemma generateLeagueNewsFromAPI_run : LeagueRun w league leagueName (run generate).
Proof.
  destruct (fetch_last_cases (footballData w url)) as [Hf|[m Hm]].
  { destruct (league_fetch_failed Hf) as [e ->]. apply LeagueFetchFailed, Hf. }
  destruct (Nat.le_gt_cases 10 (len (UtcDate m))) as [Hdate|Hdate].
  2:{ rewrite (league_short_date m Hm Hdate). eapply LeagueShortDate; eassumption. }
  destruct (primary_cases (gemini w 0 (first m))) as [Hfail|[Hp|[c Hc]]].
  { rewrite (league_first_failed m Hm Hdate Hfail).
    eapply LeagueFallback; try eassumption.
    apply fetchPerplexityFootballTweet_run, Hdate. }
  { rewrite (league_first_panics m Hm Hdate Hp).
    eapply LeagueContentNil; eassumption. }
  destruct (Nat.le_gt_cases 100 (len c)) as [Hlen|Hlen].
  { rewrite (league_first_ok m c Hm Hdate Hc Hlen). eapply LeagueFirst; eassumption. }
  destruct (primary_cases (gemini w 1 (retry m))) as [Hfail|[Hp|[c2 Hc2]]].
  { rewrite (league_retry_failed m c Hm Hdate Hc Hlen Hfail).
    eapply LeagueRetryFallback; try eassumption.
    apply fetchPerplexityFootballTweet_run, Hdate. }
  { rewrite (league_retry_panics m c Hm Hdate Hc Hlen Hp).
    eapply LeagueRetryContentNil; eassumption. }
  rewrite (league_retry_ok m c c2 Hm Hdate Hc Hlen Hc2).
  eapply LeagueRetry; eassumption.
Qed.
End LeaguePaths.

(** ** The crypto path and the publisher *)

Lemma fetchLatestCryptoNews_fails w t :
  factFetchFails (newsAPI w cryptoNewsURL) = true ->
  exists e,
    fetchLatestCryptoNews w t
    = Returned (None, Some e) (t ++ [EvFetchNews cryptoNewsURL]).
Proof.
  unfold fetchLatestCryptoNews, getNews, bind, emit, ret, factFetchFails.
  destruct (newsAPI w cryptoNewsURL) as [e|code body [e|l]].
  - eauto.
  - destruct (negb (code =? 200)%Z); eauto.
  - destruct (negb (code =? 200)%Z); [eauto|]. simpl.
    destruct (List.length l =? 0); [eauto|discriminate].
Qed.

Lemma fetchLatestCryptoNews_ok w a t :
  firstFetched (newsAPI w cryptoNewsURL) a ->
  fetchLatestCryptoNews w t
  = Returned (Some a, None) (t ++ [EvFetchNews cryptoNewsURL]).
Proof.
  intros (body & l & E & H).
  unfold fetchLatestCryptoNews, getNews, bind, emit, ret, orPanic.
  rewrite E. destruct l as [|x l]; [discriminate|].
  simpl in H. injection H as ->. reflexivity.
Qed.

Lemma fetchPerplexityCryptoTweet_run w a t :
  exists content e t',
    fetchPerplexityCryptoTweet w (Some a) t = Returned (content, e) t'
    /\ len content <= 280
    /\ (t' = t \/ exists system user, t' = t ++ [EvPerplexity system user]).
Proof.
  unfold fetchPerplexityCryptoTweet.
  destruct (len (PerplexityAPIKey w) =? 0).
  { do 3 eexists. rewrite ret_eq. split; [reflexivity|]. simpl. split; [lia|auto]. }
  rewrite bind_eq, orPanic_Some, bind_eq, postPerplexity_eq.
  pose proof (perplexityContent_run
                (perplexity w perplexityCryptoSystem (perplexityCryptoPrompt a))
                (t ++ [EvPerplexity perplexityCryptoSystem (perplexityCryptoPrompt a)]))
    as H.
  destruct (fallbackContent _) as [content|] eqn:E.
  - rewrite H. do 3 eexists. split; [reflexivity|].
    split; [exact (fallbackContent_len _ _ E)|eauto].
  - destruct H as [e ->]. do 3 eexists. split; [reflexivity|].
    simpl. split; [lia|eauto].
Qed.

(** A generation either stops at a failed fetch, or goes on from a
    fetch that succeeded to calls to the providers only. *)
Lemma generateCryptoNewsFromAPI_shape w :
  (exists e,
      fetchFailed w (EvFetchNews cryptoNewsURL) = true
      /\ run (generateCryptoNewsFromAPI w)
         = Returned ([], Some e) [EvFetchNews cryptoNewsURL])
  \/ (exists rest,
        fetchFailed w (EvFetchNews cryptoNewsURL) = false
        /\ run (generateCryptoNewsFromAPI w)
           = Panicked (EvFetchNews cryptoNewsURL :: rest)
        /\ forallb isProvider rest = true)
  \/ (exists content e rest,
        fetchFailed w (EvFetchNews cryptoNewsURL) = false
        /\ run (generateCryptoNewsFromAPI w)
           = Returned (content, e) (EvFetchNews cryptoNewsURL :: rest)
        /\ forallb isProvider rest = true
        /\ len content <= 280).
Proof.
  unfold run, generateCryptoNewsFromAPI. rewrite bind_eq.
  destruct (fetch_first_cases (newsAPI w cryptoNewsURL)) as [Hf|[a Ha]].
  { left. destruct (fetchLatestCryptoNews_fails w [] Hf) as [e ->]. eauto. }
  rewrite (fetchLatestCryptoNews_ok w a [] Ha). cbn [app].
  rewrite bind_eq, orPanic_Some, bind_eq, GenerateContent_eq. cbn [app].
  pose proof (fetch_first_exclusive _ a Ha) as Hok.
  destruct (fetchPerplexityCryptoTweet_run w a
              [EvFetchNews cryptoNewsURL; EvGenerateContent (cryptoPrompt a)])
    as (c & e & t' & HP & Hlen & Ht').
  assert (HPshape :
    exists content e rest,
      fetchFailed w (EvFetchNews cryptoNewsURL) = false
      /\ fetchPerplexityCryptoTweet w (Some a)
           [EvFetchNews cryptoNewsURL; EvGenerateContent (cryptoPrompt a)]
         = Returned (content, e) (EvFetchNews cryptoNewsURL :: rest)
      /\ forallb isProvider rest = true /\ len content <= 280).
  { exists c, e. destruct Ht' as [->|(s & u & ->)]; eexists;
      (split; [exact Hok|split; [exact HP|split; [reflexivity|exact Hlen]]]). }
  destruct (gemini w _ (cryptoPrompt a)) as [e'|cands];
    [right; right; exact HPshape|].
  destruct (firstPart cands) as [| |part];
    [|right; right; exact HPshape|].
  { right. left. exists [EvGenerateContent (cryptoPrompt a)].
    split; [exact Hok|split; reflexivity]. }
  right. right.
  destruct (normalizeGemini_total part) as [c' Hc'].
  rewrite bind_eq, Hc', orPanic_Some, ret_eq.
  exists c', None, [EvGenerateContent (cryptoPrompt a)].
  split; [exact Hok|split; [reflexivity|split; [reflexivity|]]].
  exact (normalizeGemini_len _ _ Hc').
Qed.

Lemma PerplexityRun_shape w leagueName m t o :
  PerplexityRun w leagueName m t o ->
  exists content e t',
    o = Returned (content, e) t'
    /\ len content <= 280
    /\ (t' = t \/ exists system user, t' = t ++ [EvPerplexity system user]).
Proof.
  intros [Hk|e Hk Hf|content Hk Hc]; do 3 eexists;
    (split; [reflexivity|split; [|eauto]]).
  - simpl. lia.
  - simpl. lia.
  - exact (fallbackContent_len _ _ Hc).
Qed.

Lemma generateLeagueNewsFromAPI_shape w league leagueName :
  (exists e,
      fetchFailed w (EvFetchMatches (leagueMatchesURL league)) = true
      /\ run (generateLeagueNewsFromAPI w league leagueName)
         = Returned ([], Some e) [EvFetchMatches (leagueMatchesURL league)])
  \/ (exists rest,
        fetchFailed w (EvFetchMatches (leagueMatchesURL league)) = false
        /\ run (generateLeagueNewsFromAPI w league leagueName)
           = Panicked (EvFetchMatches (leagueMatchesURL league) :: rest)
        /\ forallb isProvider rest = true)
  \/ (exists content e rest,
        fetchFailed w (EvFetchMatches (leagueMatchesURL league)) = false
        /\ run (generateLeagueNewsFromAPI w league leagueName)
           = Returned (content, e) (EvFetchMatches (leagueMatchesURL league) :: rest)
        /\ forallb isProvider rest = true
        /\ len content <= 280).
Proof.
  destruct (generateLeagueNewsFromAPI_run w league leagueName)
    as [e Hf|m Hm Hd|m c Hm Hd Hc Hlen|m c1 c2 Hm Hd Hc1 Hlen Hc2
        |m Hm Hd Hp|m c1 Hm Hd Hc1 Hlen Hp
        |m o Hm Hd Hfail HP|m c1 o Hm Hd Hc1 Hlen Hfail HP].
  - left. eauto.
  - right. left. exists [].
    split; [exact (fetch_last_exclusive _ m Hm)|split; reflexivity].
  - right. right. do 3 eexists.
    split; [exact (fetch_last_exclusive _ m Hm)|].
    split; [reflexivity|split; [reflexivity|exact (primaryContent_len _ _ Hc)]].
  - right. right. do 3 eexists.
    split; [exact (fetch_last_exclusive _ m Hm)|].
    split; [reflexivity|split; [reflexivity|exact (primaryContent_len _ _ Hc2)]].
  - right. left. eexists.
    split; [exact (fetch_last_exclusive _ m Hm)|split; reflexivity].
  - right. left. eexists.
    split; [exact (fetch_last_exclusive _ m Hm)|split; reflexivity].
  - right. right.
    destruct (PerplexityRun_shape _ _ _ _ _ HP) as (c & e & t' & -> & Hc & Ht').
    exists c, e. destruct Ht' as [->|(s & u & ->)]; eexists;
      (split; [exact (fetch_last_exclusive _ m Hm)|]);
      (split; [reflexivity|split; [reflexivity|exact Hc]]).
  - right. right.
    destruct (PerplexityRun_shape _ _ _ _ _ HP) as (c & e & t' & -> & Hc & Ht').
    exists c, e. destruct Ht' as [->|(s & u & ->)]; eexists;
      (split; [exact (fetch_last_exclusive _ m Hm)|]);
      (split; [reflexivity|split; [reflexivity|exact Hc]]).
Qed.

Lemma postToTwitter_run w content t :
  exists err, postToTwitter w content t = Returned err (t ++ [EvPost content]).
Proof.
  unfold postToTwitter. rewrite bind_eq, postTweet_eq.
  destruct (twitter w content) as [e|e|code body [e|resp]]; try (eexists; reflexivity).
  destruct (negb (code =? 201)%Z); [|eexists; reflexivity].
  destruct (Errors resp); eexists; reflexivity.
Qed.

(** ** Run *)

Section Publishing.
Variable w : World.

(** The second half of [Run]: what is done with a generation. *)
Let publish : gostring * error -> M error :=
  fun x =>
    match x with
    | (content, err) =>
        match err with
        | Some e => ret (Some (lit "failed to generate news: " ++ e))
        | None =>
            err <- postToTwitter w content ;;
            match err with
            | Some e => ret (Some (lit "failed to post to X: " ++ e))
            | None => ret None
            end
        end
    end.

Lemma Run_selects now :
  exists g,
    Run w now = bind g publish
    /\ ((exists league leagueName, g = generateLeagueNewsFromAPI w league leagueName)
        \/ g = generateCryptoNewsFromAPI w
        \/ g = ret ([], None)).
Proof.
  unfold Run. eexists. split; [reflexivity|].
  destruct (Z.rem now 7) as [|p|p]; eauto.
  destruct p as [[[q|q|]|[q|q|]|]|[[q|q|]|[q|q|]|]|]; eauto.
Qed.

Lemma publish_error content e t :
  publish (content, Some e) t
  = Returned (Some (lit "failed to generate news: " ++ e)) t.
Proof. reflexivity. Qed.

Lemma publish_post content t :
  exists err, publish (content, None) t = Returned err (t ++ [EvPost content]).
Proof.
  subst publish. cbv beta iota. rewrite bind_eq.
  destruct (postToTwitter_run w content t) as [err ->].
  destruct err; eexists; reflexivity.
Qed.

(** The traces of [Run]: a failed fetch alone; or a fetch that
    succeeded, calls to the providers, and at most one post, of a text
    within the limit, at the end. *)
Lemma Run_shape now :
  (exists f e,
      fetchFailed w f = true /\ run (Run w now) = Returned (Some e) [f])
  \/ (exists f rest,
        isFetch f = true /\ fetchFailed w f = false
        /\ forallb isProvider rest = true
        /\ (run (Run w now) = Panicked (f :: rest)
            \/ (exists e, run (Run w now) = Returned (Some e) (f :: rest))
            \/ (exists err content,
                   len content <= 280
                   /\ run (Run w now)
                      = Returned err ((f :: rest) ++ [EvPost content]))))
  \/ (exists err, run (Run w now) = Returned err [EvPost []]).
Proof.
  destruct (Run_selects now) as (g & -> & Hg). unfold run. rewrite bind_eq.
  assert (Hshape :
    (exists f e, fetchFailed w f = true /\ g [] = Returned ([], Some e) [f])
    \/ (exists f rest, isFetch f = true /\ fetchFailed w f = false
                   /\ g [] = Panicked (f :: rest)
                   /\ forallb isProvider rest = true)
    \/ (exists f content e rest,
          isFetch f = true /\ fetchFailed w f = false
          /\ g [] = Returned (content, e) (f :: rest)
          /\ forallb isProvider rest = true /\ len content <= 280)
    \/ g [] = Returned ([], None) []).
  { destruct Hg as [(league & leagueName & ->)| [->| ->]].
    - destruct (generateLeagueNewsFromAPI_shape w league leagueName)
        as [(e & H1 & H2)|[(rest & H1 & H2 & H3)
                           |(c & e & rest & H1 & H2 & H3 & H4)]].
      + left. eauto.
      + right. left. exists (EvFetchMatches (leagueMatchesURL league)), rest. auto.
      + right. right. left. exists (EvFetchMatches (leagueMatchesURL league)), c, e, rest. auto.
    - destruct (generateCryptoNewsFromAPI_shape w)
        as [(e & H1 & H2)|[(rest & H1 & H2 & H3)
                           |(c & e & rest & H1 & H2 & H3 & H4)]].
      + left. eauto.
      + right. left. exists (EvFetchNews cryptoNewsURL), rest. auto.
      + right. right. left. exists (EvFetchNews cryptoNewsURL), c, e, rest. auto.
    - right. right. right. reflexivity. }
  destruct Hshape as [(f & e & Hf & ->)|[(f & rest & Hi & Hf & -> & Hrest)
                      |[(f & c & e & rest & Hi & Hf & -> & Hrest & Hlen)| ->]]];
    cbv beta iota.
  - left. exists f. rewrite publish_error. eauto.
  - right. left. exists f, rest. auto.
  - right. left. exists f, rest.
    split; [exact Hi|split; [exact Hf|split; [exact Hrest|]]].
    destruct e as [e|].
    + right. left. rewrite publish_error. eauto.
    + right. right. destruct (publish_post c (f :: rest)) as [err Herr].
      exists err, c. split; [exact Hlen|exact Herr].
  - right. right. destruct (publish_post [] []) as [err Herr].
    exists err. exact Herr.
Qed.
End Publishing.

Lemma providers_not_posts rest :
  forallb isProvider rest = true ->
  filter isPost rest = [] /\ existsb isPost rest = false.
Proof.
  induction rest as [|e rest IH]; simpl; [auto|].
  intros H. apply andb_true_iff in H as [He Hr]. destruct (IH Hr) as [IH1 IH2].
  destruct e; simpl in *; try discriminate; auto.
Qed.

Lemma providers_not_fetches w rest :
  forallb isProvider rest = true -> existsb (fetchFailed w) rest = false.
Proof.
  induction rest as [|e rest IH]; simpl; [auto|].
  intros H. apply andb_true_iff in H as [He Hr]. rewrite (IH Hr).
  destruct e; simpl in *; try discriminate; auto.
Qed.

(** ** Properties of the runs *)

Lemma provider_is_no_post rest text :
  forallb isProvider rest = true -> ~ In (EvPost text) rest.
Proof.
  intros H Hin. rewrite forallb_forall in H. specialize (H _ Hin). discriminate.
Qed.

(** C4. Whatever the path (first answer of the primary provider, its
    escalated retry, the fallback provider), the text a generation
    returns has at most 280 bytes, and so has every text [Run] hands to
    the publisher. *)
Theorem generated_text_within_limit (w : World) :
  (forall league leagueName content err t,
      run (generateLeagueNewsFromAPI w league leagueName)
      = Returned (content, err) t ->
      len content <= maxLen)
  /\ (forall now text,
         In (EvPost text) (traceOf (run (Run w now))) -> len text <= maxLen).
Proof.
  unfold maxLen. split.
  - intros league leagueName content err t H.
    destruct (generateLeagueNewsFromAPI_shape w league leagueName)
      as [(e & _ & E)|[(rest & _ & E & _)|(c & e & rest & _ & E & _ & Hlen)]];
      rewrite E in H; try discriminate.
    + assert (content = []) by congruence. subst content. simpl. lia.
    + assert (content = c) by congruence. subst content. exact Hlen.
  - intros now text Hin.
    destruct (Run_shape w now)
      as [(f & e & Hf & E)
         |[(f & rest & Hi & Hf & Hrest & [E|[(e & E)|(err & c & Hlen & E)]])
          |(err & E)]];
      rewrite E in Hin; cbn [traceOf] in Hin.
    + destruct Hin as [->|[]]. discriminate Hf.
    + destruct Hin as [->|Hin]; [discriminate Hi|].
      destruct (provider_is_no_post rest text Hrest Hin).
    + destruct Hin as [->|Hin]; [discriminate Hi|].
      destruct (provider_is_no_post rest text Hrest Hin).
    + apply in_app_or in Hin as [[->|Hin]|[Hin|[]]].
      * discriminate Hi.
      * destruct (provider_is_no_post rest text Hrest Hin).
      * assert (text = c) by congruence. subst text. exact Hlen.
    + destruct Hin as [Hin|[]].
      assert (text = []) by congruence. subst text. simpl. lia.
Qed.

Lemma generated_text_within_limit_witness :
  len Samples.fallbackTweet <= maxLen /\ len Samples.longTweet <= maxLen.
Proof.
  destruct (generated_text_within_limit Samples.degraded) as [Hgen _].
  destruct (generated_text_within_limit Samples.fluent) as [_ Hrun].
  split.
  - apply (Hgen PremierLeague (lit "PremierLeague") Samples.fallbackTweet None
             (traceOf (run (generateLeagueNewsFromAPI Samples.degraded PremierLeague
                              (lit "PremierLeague"))))).
    vm_compute. reflexivity.
  - apply (Hrun 1762000000%Z Samples.longTweet).
    vm_compute. right. right. left. reflexivity.
Defined.

(** C8. A run whose fact fetch fails ends there with an error: the
    fetch is the only event of the run, so that no provider is called
    and nothing is posted. *)
Theorem fact_fetch_failure_aborts (w : World) (now : Z) :
  existsb (fetchFailed w) (traceOf (run (Run w now))) = true ->
  exists e,
    run (Run w now) = Returned (Some e) (traceOf (run (Run w now)))
    /\ List.length (traceOf (run (Run w now))) = 1
    /\ filter isProvider (traceOf (run (Run w now))) = []
    /\ filter isPost (traceOf (run (Run w now))) = [].
Proof.
  intros H.
  destruct (Run_shape w now)
    as [(f & e & Hf & E)
       |[(f & rest & Hi & Hf & Hrest & [E|[(e & E)|(err & c & Hlen & E)]])
        |(err & E)]];
    rewrite E in *; cbn [traceOf] in *.
  - exists e. split; [reflexivity|]. split; [reflexivity|].
    destruct f; try discriminate Hf; split; reflexivity.
  - cbn [existsb] in H. rewrite Hf, (providers_not_fetches w rest Hrest) in H.
    discriminate H.
  - cbn [existsb] in H. rewrite Hf, (providers_not_fetches w rest Hrest) in H.
    discriminate H.
  - cbn [existsb app] in H.
    rewrite existsb_app, Hf, (providers_not_fetches w rest Hrest) in H.
    discriminate H.
  - discriminate H.
Qed.

Lemma fact_fetch_failure_aborts_witness :
  exists e,
    run (Run Samples.offline 1762000000)
    = Returned (Some e) (traceOf (run (Run Samples.offline 1762000000)))
    /\ List.length (traceOf (run (Run Samples.offline 1762000000))) = 1
    /\ filter isProvider (traceOf (run (Run Samples.offline 1762000000))) = []
    /\ filter isPost (traceOf (run (Run Samples.offline 1762000000))) = [].
Proof.
  apply (fact_fetch_failure_aborts Samples.offline 1762000000).
  vm_compute. reflexivity.
Defined.

Lemma fetchLatestPremierLeagueMatch_ok w m t :
  lastFetched (footballData w premierLeagueMatchesURL) m ->
  fetchLatestPremierLeagueMatch w t
  = Returned (Some m, None) (t ++ [EvFetchMatches premierLeagueMatchesURL]).
Proof.
  intros (body & l & E & H).
  unfold fetchLatestPremierLeagueMatch, getMatches, bind, emit, ret, orPanic.
  rewrite E. simpl. rewrite H.
  destruct l; [destruct (0 - 1); discriminate|reflexivity].
Qed.

Lemma premier_league_short_date w m :
  lastFetched (footballData w premierLeagueMatchesURL) m ->
  len (UtcDate m) < 10 ->
  run (generatePremierLeagueNewsFromAPI w)
  = Panicked [EvFetchMatches premierLeagueMatchesURL].
Proof.
  intros Hm Hd. unfold run, generatePremierLeagueNewsFromAPI.
  rewrite bind_eq, (fetchLatestPremierLeagueMatch_ok w m [] Hm).
  rewrite bind_eq, orPanic_Some, bind_eq, (sliceTo_panic _ 10 Hd).
  reflexivity.
Qed.

(** C10. Both generations from a match slice the first ten bytes of its
    date without a check.  Each of them, on its own: when the match it
    fetched has a date of fewer than ten bytes, the generation panics
    right after the fetch instead of returning an error; no provider
    has been called. *)
Theorem short_date_panics (w : World) :
  (forall league leagueName m,
      lastFetched (footballData w (leagueMatchesURL league)) m ->
      len (UtcDate m) < 10 ->
      run (generateLeagueNewsFromAPI w league leagueName)
      = Panicked [EvFetchMatches (leagueMatchesURL league)])
  /\ (forall m,
         lastFetched (footballData w premierLeagueMatchesURL) m ->
         len (UtcDate m) < 10 ->
         run (generatePremierLeagueNewsFromAPI w)
         = Panicked [EvFetchMatches premierLeagueMatchesURL]).
Proof.
  split.
  - intros league leagueName m Hm Hd.
    exact (league_short_date w league leagueName m Hm Hd).
  - intros m Hm Hd. exact (premier_league_short_date w m Hm Hd).
Qed.

Lemma short_date_panics_witness :
  run (generateLeagueNewsFromAPI Samples.dateless LaLiga (lit "LaLiga"))
  = Panicked [EvFetchMatches (leagueMatchesURL LaLiga)]
  /\ run (generatePremierLeagueNewsFromAPI Samples.dateless)
     = Panicked [EvFetchMatches premierLeagueMatchesURL].
Proof.
  destruct (short_date_panics Samples.dateless) as [Hleague Hpremier].
  split.
  - apply (Hleague LaLiga (lit "LaLiga") Samples.undated).
    + exists (lit "{}"), [Samples.undated]. split; reflexivity.
    + apply Nat.ltb_lt. vm_compute. reflexivity.
  - apply (Hpremier Samples.undated).
    + exists (lit "{}"), [Samples.undated]. split; reflexivity.
    + apply Nat.ltb_lt. vm_compute. reflexivity.
Defined.

(** The causes of a panic of the generation: a date of fewer than ten
    bytes, or an answer of the primary provider (the first or the one
    to the retry) whose first candidate has no content.  The slices of
    the content policy are always in range. *)
Lemma league_panic_causes w league leagueName :
  (exists t, run (generateLeagueNewsFromAPI w league leagueName) = Panicked t)
  <-> (exists m,
          lastFetched (footballData w (leagueMatchesURL league)) m
          /\ (len (UtcDate m) < 10
              \/ (10 <= len (UtcDate m)
                  /\ primaryPanics
                       (gemini w 0 (leaguePrompt leagueName m (dateOf m))) = true)
              \/ (10 <= len (UtcDate m)
                  /\ exists short,
                       primaryContent
                         (gemini w 0 (leaguePrompt leagueName m (dateOf m)))
                       = Some short
                       /\ len short < 100
                       /\ primaryPanics
                            (gemini w 1 (leagueRetryPrompt leagueName m (dateOf m)))
                          = true))).
Proof.
  split.
  - intros [t Ht].
    pose proof (generateLeagueNewsFromAPI_run w league leagueName) as R.
    rewrite Ht in R. inversion R; subst.
    + exists m. split; [assumption|]. left. assumption.
    + exists m. split; [assumption|]. right. left. split; assumption.
    + exists m. split; [assumption|]. right. right. split; [assumption|]. eauto.
    + match goal with H : PerplexityRun _ _ _ _ _ |- _ => inversion H end.
    + match goal with H : PerplexityRun _ _ _ _ _ |- _ => inversion H end.
  - intros (m & Hm & [Hd|[(Hd & Hp)|(Hd & short & Hc & Hlen & Hp)]]); eexists.
    + exact (league_short_date w league leagueName m Hm Hd).
    + exact (league_first_panics w league leagueName m Hm Hd Hp).
    + exact (league_retry_panics w league leagueName m short Hm Hd Hc Hlen Hp).
Qed.

(** C1, as stated, fails: when the first answer and the answer to the
    retry are both short, the second is returned as it is, with no
    error. *)
Lemma min_length_counterexample :
  (exists t,
      run (generateLeagueNewsFromAPI Samples.terse PremierLeague (lit "PremierLeague"))
      = Returned (lit "Liverpool won.", None) t)
  /\ len (lit "Liverpool won.") < minLen
  /\ ~ (forall w league leagueName content t,
           run (generateLeagueNewsFromAPI w league leagueName)
           = Returned (content, None) t ->
           minLen <= len content).
Proof.
  assert (E : run (generateLeagueNewsFromAPI Samples.terse PremierLeague
                     (lit "PremierLeague"))
              = Returned (lit "Liverpool won.", None)
                  (traceOf (run (generateLeagueNewsFromAPI Samples.terse
                                   PremierLeague (lit "PremierLeague")))))
    by (vm_compute; reflexivity).
  assert (L : len (lit "Liverpool won.") < minLen)
    by (apply Nat.ltb_lt; vm_compute; reflexivity).
  split; [eexists; exact E|]. split; [exact L|].
  intros H. specialize (H _ _ _ _ _ E). lia.
Qed.

(** C1, amended. A successful generation whose text is the first answer
    of the primary provider, the only call to a provider of the run, has
    at least 100 bytes (and at most 280).  (The text of the retry and the
    text of the fallback provider are returned whatever their length.) *)
Theorem min_length_first_answer (w : World) (league : FootballLeague)
    (leagueName content : gostring) (t : list Event) :
  run (generateLeagueNewsFromAPI w league leagueName) = Returned (content, None) t ->
  List.length (filter isProvider t) = 1 ->
  minLen <= len content /\ len content <= maxLen.
Proof.
  unfold minLen, maxLen. intros H Hn.
  pose proof (generateLeagueNewsFromAPI_run w league leagueName) as R.
  rewrite H in R. inversion R; subst.
  - split; [assumption|]. eapply primaryContent_len; eassumption.
  - discriminate Hn.
  - match goal with HP : PerplexityRun _ _ _ _ _ |- _ => inversion HP; subst end.
    discriminate Hn.
  - match goal with HP : PerplexityRun _ _ _ _ _ |- _ => inversion HP; subst end.
    discriminate Hn.
Qed.

Lemma min_length_first_answer_witness :
  minLen <= len Samples.longTweet /\ len Samples.longTweet <= maxLen.
Proof.
  apply (min_length_first_answer Samples.fluent PremierLeague (lit "PremierLeague")
           Samples.longTweet
           (traceOf (run (generateLeagueNewsFromAPI Samples.fluent PremierLeague
                            (lit "PremierLeague"))))).
  - vm_compute. reflexivity.
  - vm_compute. reflexivity.
Defined.

(** C2, as stated, fails: after a short first answer and a short answer
    to the retry, the fallback provider is not called. *)
Lemma fallback_after_retry_counterexample :
  existsb isPerplexity
    (traceOf (run (generateLeagueNewsFromAPI Samples.terse PremierLeague
                     (lit "PremierLeague")))) = false
  /\ ~ (forall w league leagueName m short1 short2,
           lastFetched (footballData w (leagueMatchesURL league)) m ->
           10 <= len (UtcDate m) ->
           primaryContent (gemini w 0 (leaguePrompt leagueName m (dateOf m)))
           = Some short1 ->
           len short1 < minLen ->
           primaryContent (gemini w 1 (leagueRetryPrompt leagueName m (dateOf m)))
           = Some short2 ->
           len short2 < minLen ->
           existsb isPerplexity
             (traceOf (run (generateLeagueNewsFromAPI w league leagueName)))
           = true).
Proof.
  assert (E : existsb isPerplexity
                (traceOf (run (generateLeagueNewsFromAPI Samples.terse PremierLeague
                                 (lit "PremierLeague")))) = false)
    by (vm_compute; reflexivity).
  split; [exact E|]. intros H.
  rewrite (H Samples.terse PremierLeague (lit "PremierLeague") Samples.derby
             (lit "Liverpool won.") (lit "Liverpool won.")) in E.
  - discriminate E.
  - exists (lit "{}"), [Samples.derby]. split; reflexivity.
  - apply Nat.leb_le. vm_compute. reflexivity.
  - vm_compute. reflexivity.
  - apply Nat.ltb_lt. vm_compute. reflexivity.
  - vm_compute. reflexivity.
  - apply Nat.ltb_lt. vm_compute. reflexivity.
Qed.

Lemma fallback_calls_provider w leagueName m t :
  10 <= len (UtcDate m) -> len (PerplexityAPIKey w) <> 0 ->
  traceOf (fetchPerplexityFootballTweet w leagueName (Some m) t)
  = t ++ [EvPerplexity (perplexityFootballSystem leagueName)
            (perplexityFootballPrompt leagueName m (dateOf m))].
Proof.
  intros Hd Hk.
  destruct (fetchPerplexityFootballTweet_run w leagueName m t Hd) as [Hk'| |];
    [contradiction| |]; reflexivity.
Qed.

Lemma fallback_without_key_run w leagueName m t :
  10 <= len (UtcDate m) -> len (PerplexityAPIKey w) = 0 ->
  fetchPerplexityFootballTweet w leagueName (Some m) t
  = Returned ([], Some (lit "Perplexity API key not set")) t.
Proof.
  intros Hd Hk.
  destruct (fetchPerplexityFootballTweet_run w leagueName m t Hd) as [Hk'| |];
    [reflexivity|contradiction|contradiction].
Qed.

(** C2, amended. The generation goes on with the fallback when a call
    to the primary provider, the first one or the retry, returns an
    error, no candidate, or a first candidate whose content has no part:
    the fallback provider is then called, once, as the last request of
    the run, when its key is set, and the run ends with the error of the
    missing key when it is not.  On a first candidate without content
    the run panics at the call, and there is no fallback.  When the
    answer to the retry has a text, that text is returned, short or not,
    and the fallback provider is not called. *)
Theorem fallback_on_primary_failure (w : World) (league : FootballLeague)
    (leagueName : gostring) (m : PremierLeagueMatch) :
  lastFetched (footballData w (leagueMatchesURL league)) m ->
  10 <= len (UtcDate m) ->
  (primaryFailed (gemini w 0 (leaguePrompt leagueName m (dateOf m))) = true ->
   run (generateLeagueNewsFromAPI w league leagueName)
   = fetchPerplexityFootballTweet w leagueName (Some m) [EvFetchMatches (leagueMatchesURL league);
        EvGenerateContent (leaguePrompt leagueName m (dateOf m))]
   /\ (len (PerplexityAPIKey w) <> 0 ->
       traceOf (run (generateLeagueNewsFromAPI w league leagueName))
       = [EvFetchMatches (leagueMatchesURL league);
          EvGenerateContent (leaguePrompt leagueName m (dateOf m));
          EvPerplexity (perplexityFootballSystem leagueName)
              (perplexityFootballPrompt leagueName m (dateOf m))])
   /\ (len (PerplexityAPIKey w) = 0 ->
       run (generateLeagueNewsFromAPI w league leagueName)
       = Returned ([], Some (lit "Perplexity API key not set"))
           [EvFetchMatches (leagueMatchesURL league);
            EvGenerateContent (leaguePrompt leagueName m (dateOf m))]))
  /\ (primaryPanics (gemini w 0 (leaguePrompt leagueName m (dateOf m))) = true ->
      run (generateLeagueNewsFromAPI w league leagueName)
      = Panicked [EvFetchMatches (leagueMatchesURL league);
                  EvGenerateContent (leaguePrompt leagueName m (dateOf m))])
  /\ (forall short,
         primaryContent (gemini w 0 (leaguePrompt leagueName m (dateOf m)))
         = Some short ->
         len short < minLen ->
         (primaryFailed (gemini w 1 (leagueRetryPrompt leagueName m (dateOf m)))
          = true ->
          run (generateLeagueNewsFromAPI w league leagueName)
          = fetchPerplexityFootballTweet w leagueName (Some m)
              [EvFetchMatches (leagueMatchesURL league);
               EvGenerateContent (leaguePrompt leagueName m (dateOf m));
               EvGenerateContent (leagueRetryPrompt leagueName m (dateOf m))]
          /\ (len (PerplexityAPIKey w) <> 0 ->
              traceOf (run (generateLeagueNewsFromAPI w league leagueName))
              = [EvFetchMatches (leagueMatchesURL league);
                 EvGenerateContent (leaguePrompt leagueName m (dateOf m));
                 EvGenerateContent (leagueRetryPrompt leagueName m (dateOf m));
                 EvPerplexity (perplexityFootballSystem leagueName)
              (perplexityFootballPrompt leagueName m (dateOf m))])
          /\ (len (PerplexityAPIKey w) = 0 ->
              run (generateLeagueNewsFromAPI w league leagueName)
              = Returned ([], Some (lit "Perplexity API key not set"))
                  [EvFetchMatches (leagueMatchesURL league);
                   EvGenerateContent (leaguePrompt leagueName m (dateOf m));
                   EvGenerateContent (leagueRetryPrompt leagueName m (dateOf m))]))
         /\ (primaryPanics (gemini w 1 (leagueRetryPrompt leagueName m (dateOf m)))
             = true ->
             run (generateLeagueNewsFromAPI w league leagueName)
             = Panicked [EvFetchMatches (leagueMatchesURL league);
                         EvGenerateContent (leaguePrompt leagueName m (dateOf m));
                         EvGenerateContent (leagueRetryPrompt leagueName m (dateOf m))])
         /\ (forall content,
                primaryContent
                  (gemini w 1 (leagueRetryPrompt leagueName m (dateOf m)))
                = Some content ->
                run (generateLeagueNewsFromAPI w league leagueName)
                = Returned (content, None)
                    [EvFetchMatches (leagueMatchesURL league);
                     EvGenerateContent (leaguePrompt leagueName m (dateOf m));
                     EvGenerateContent (leagueRetryPrompt leagueName m (dateOf m))])).
Proof.
  unfold minLen. intros Hm Hd. split; [|split].
  - intros Hfail.
    rewrite (league_first_failed w league leagueName m Hm Hd Hfail).
    split; [reflexivity|]. split; intros Hk.
    + apply fallback_calls_provider; assumption.
    + apply fallback_without_key_run; assumption.
  - intros Hp. exact (league_first_panics w league leagueName m Hm Hd Hp).
  - intros short Hc Hlen. split; [|split].
    + intros Hfail.
      rewrite (league_retry_failed w league leagueName m short Hm Hd Hc Hlen Hfail).
      split; [reflexivity|]. split; intros Hk.
      * apply fallback_calls_provider; assumption.
      * apply fallback_without_key_run; assumption.
    + intros Hp.
      exact (league_retry_panics w league leagueName m short Hm Hd Hc Hlen Hp).
    + intros content Hc2.
      exact (league_retry_ok w league leagueName m short content Hm Hd Hc Hlen Hc2).
Qed.

Lemma fallback_on_primary_failure_witness :
  traceOf (run (generateLeagueNewsFromAPI Samples.flaky SerieA (lit "SerieA")))
  = [EvFetchMatches (leagueMatchesURL SerieA);
     EvGenerateContent (leaguePrompt (lit "SerieA") Samples.derby (dateOf Samples.derby));
     EvGenerateContent
       (leagueRetryPrompt (lit "SerieA") Samples.derby (dateOf Samples.derby));
     EvPerplexity (perplexityFootballSystem (lit "SerieA"))
       (perplexityFootballPrompt (lit "SerieA") Samples.derby
          (dateOf Samples.derby))].
Proof.
  destruct (fallback_on_primary_failure Samples.flaky SerieA (lit "SerieA")
              Samples.derby) as (_ & _ & H).
  - exists (lit "{}"), [Samples.derby]. split; reflexivity.
  - apply Nat.leb_le. vm_compute. reflexivity.
  - destruct (H (lit "Liverpool won.")) as [H1 _].
    + vm_compute. reflexivity.
    + apply Nat.ltb_lt. vm_compute. reflexivity.
    + destruct H1 as (_ & H2 & _); [reflexivity|].
      apply H2. vm_compute. discriminate.
Defined.

(** On the sample whose first candidate has no content the generation
    panics at the first call to the primary provider. *)
Example contentless_panics :
  run (generateLeagueNewsFromAPI Samples.contentless SerieA (lit "SerieA"))
  = Panicked
      [EvFetchMatches (leagueMatchesURL SerieA);
       EvGenerateContent
         (leaguePrompt (lit "SerieA") Samples.derby (dateOf Samples.derby))].
Proof. vm_compute. reflexivity. Qed.

(** C6, as stated, fails: a raw output of blanks passes both content
    policies as the empty string, and a generation returns the empty
    string with no error. *)
Lemma empty_response_counterexample :
  normalizeGemini (lit "   ") = Some []
  /\ normalizePerplexity (lit "   ") = Some []
  /\ (exists t,
         run (generateLeagueNewsFromAPI Samples.blank PremierLeague
                (lit "PremierLeague"))
         = Returned ([], None) t)
  /\ ~ (forall raw, len (Trim (TrimSpace raw) quote) = 0 -> normalizeGemini raw = None).
Proof.
  split; [vm_compute; reflexivity|]. split; [vm_compute; reflexivity|]. split.
  - exists (traceOf (run (generateLeagueNewsFromAPI Samples.blank PremierLeague
                            (lit "PremierLeague")))).
    vm_compute. reflexivity.
  - intros H. specialize (H (lit "   ") eq_refl). vm_compute in H. discriminate H.
Qed.

Lemma normalizeGemini_empty raw :
  len (Trim (TrimSpace raw) quote) = 0 -> normalizeGemini raw = Some [].
Proof.
  intros H. unfold normalizeGemini.
  destruct (Trim (TrimSpace raw) quote); [reflexivity|discriminate].
Qed.

(** C6, amended. A raw output whose trimmed form is empty passes the
    content policy as the empty string: there is no error for it.  As a
    first answer it is shorter than 100 bytes, so the primary provider is
    asked again; when the trimmed answer to the retry is empty as well,
    the generation returns the empty string with no error. *)
Theorem empty_text_is_accepted (w : World) (league : FootballLeague)
    (leagueName : gostring) (m : PremierLeagueMatch)
    (raw1 raw2 : gostring) (parts1 parts2 : list gostring)
    (rest1 rest2 : list Candidate) :
  lastFetched (footballData w (leagueMatchesURL league)) m ->
  10 <= len (UtcDate m) ->
  gemini w 0 (leaguePrompt leagueName m (dateOf m))
  = GenerateResponse ({| Content := Some (raw1 :: parts1) |} :: rest1) ->
  len (Trim (TrimSpace raw1) quote) = 0 ->
  gemini w 1 (leagueRetryPrompt leagueName m (dateOf m))
  = GenerateResponse ({| Content := Some (raw2 :: parts2) |} :: rest2) ->
  len (Trim (TrimSpace raw2) quote) = 0 ->
  normalizeGemini raw1 = Some []
  /\ normalizeGemini raw2 = Some []
  /\ run (generateLeagueNewsFromAPI w league leagueName)
     = Returned ([], None)
         [EvFetchMatches (leagueMatchesURL league);
          EvGenerateContent (leaguePrompt leagueName m (dateOf m));
          EvGenerateContent (leagueRetryPrompt leagueName m (dateOf m))].
Proof.
  intros Hm Hd E1 L1 E2 L2.
  pose proof (normalizeGemini_empty raw1 L1) as N1.
  pose proof (normalizeGemini_empty raw2 L2) as N2.
  split; [exact N1|]. split; [exact N2|].
  apply (league_retry_ok w league leagueName m [] [] Hm Hd).
  - rewrite E1. exact N1.
  - simpl. lia.
  - rewrite E2. exact N2.
Qed.

Lemma empty_text_is_accepted_witness :
  normalizeGemini (lit "   ") = Some []
  /\ normalizeGemini (lit "   ") = Some []
  /\ run (generateLeagueNewsFromAPI Samples.blank Bundesliga (lit "Bundesliga"))
     = Returned ([], None)
         [EvFetchMatches (leagueMatchesURL Bundesliga);
          EvGenerateContent
            (leaguePrompt (lit "Bundesliga") Samples.derby (dateOf Samples.derby));
          EvGenerateContent
            (leagueRetryPrompt (lit "Bundesliga") Samples.derby
               (dateOf Samples.derby))].
Proof.
  apply (empty_text_is_accepted Samples.blank Bundesliga (lit "Bundesliga")
           Samples.derby (lit "   ") (lit "   ") [] [] [] []).
  - exists (lit "{}"), [Samples.derby]. split; reflexivity.
  - apply Nat.leb_le. vm_compute. reflexivity.
  - reflexivity.
  - vm_compute. reflexivity.
  - reflexivity.
  - vm_compute. reflexivity.
Defined.

Lemma fallback_answer_run w leagueName m body choice rest content t :
  10 <= len (UtcDate m) ->
  len (PerplexityAPIKey w) <> 0 ->
  perplexity w (perplexityFootballSystem leagueName)
             (perplexityFootballPrompt leagueName m (dateOf m))
  = Response 200 body (DecodeOk (choice :: rest)) ->
  normalizePerplexity choice = Some content ->
  fetchPerplexityFootballTweet w leagueName (Some m) t
  = Returned (content, None)
      (t ++ [EvPerplexity (perplexityFootballSystem leagueName)
            (perplexityFootballPrompt leagueName m (dateOf m))]).
Proof.
  intros Hd Hk Hreply Hc.
  assert (Hfc : fallbackContent
                  (perplexity w (perplexityFootballSystem leagueName)
                     (perplexityFootballPrompt leagueName m (dateOf m)))
                = Some content).
  { rewrite Hreply. exact Hc. }
  destruct (fetchPerplexityFootballTweet_run w leagueName m t Hd)
    as [Hk'|e Hk' Hf|c Hk' Hf].
  - contradiction.
  - congruence.
  - assert (c = content) by congruence. subst c. reflexivity.
Qed.

(** C7. When the primary provider fails (its call returns an error, no
    candidate, or a first candidate whose content has no part; on the
    first call, or on the retry after a short answer) and the fallback
    provider, its key set, answers with a choice, the generation succeeds
    and its text is the validated first choice of the fallback provider
    on the same league name and match: that text whole and alone, with
    nothing of an answer of the primary provider in it.  The fallback
    provider is called once, as the last request of the run. *)
Theorem provider_fallback (w : World) (league : FootballLeague)
    (leagueName : gostring) (m : PremierLeagueMatch)
    (body choice : gostring) (rest : list gostring) :
  lastFetched (footballData w (leagueMatchesURL league)) m ->
  10 <= len (UtcDate m) ->
  len (PerplexityAPIKey w) <> 0 ->
  perplexity w (perplexityFootballSystem leagueName)
             (perplexityFootballPrompt leagueName m (dateOf m))
  = Response 200 body (DecodeOk (choice :: rest)) ->
  exists content,
    normalizePerplexity choice = Some content
    /\ (primaryFailed (gemini w 0 (leaguePrompt leagueName m (dateOf m))) = true ->
        run (generateLeagueNewsFromAPI w league leagueName)
        = Returned (content, None)
            [EvFetchMatches (leagueMatchesURL league);
             EvGenerateContent (leaguePrompt leagueName m (dateOf m));
             EvPerplexity (perplexityFootballSystem leagueName)
            (perplexityFootballPrompt leagueName m (dateOf m))])
    /\ (forall short,
           primaryContent (gemini w 0 (leaguePrompt leagueName m (dateOf m)))
           = Some short ->
           len short < minLen ->
           primaryFailed (gemini w 1 (leagueRetryPrompt leagueName m (dateOf m)))
           = true ->
           run (generateLeagueNewsFromAPI w league leagueName)
           = Returned (content, None)
               [EvFetchMatches (leagueMatchesURL league);
                EvGenerateContent (leaguePrompt leagueName m (dateOf m));
                EvGenerateContent (leagueRetryPrompt leagueName m (dateOf m));
                EvPerplexity (perplexityFootballSystem leagueName)
            (perplexityFootballPrompt leagueName m (dateOf m))]).
Proof.
  unfold minLen. intros Hm Hd Hk Hreply.
  destruct (normalizePerplexity_total choice) as [content Hc].
  exists content. split; [exact Hc|]. split.
  - intros Hfail.
    rewrite (league_first_failed w league leagueName m Hm Hd Hfail).
    exact (fallback_answer_run w leagueName m body choice rest content _
             Hd Hk Hreply Hc).
  - intros short Hs Hlen Hfail.
    rewrite (league_retry_failed w league leagueName m short Hm Hd Hs Hlen Hfail).
    exact (fallback_answer_run w leagueName m body choice rest content _
             Hd Hk Hreply Hc).
Qed.

Lemma provider_fallback_witness :
  run (generateLeagueNewsFromAPI Samples.degraded Ligue1 (lit "Ligue1"))
  = Returned (Samples.fallbackTweet, None)
      [EvFetchMatches (leagueMatchesURL Ligue1);
       EvGenerateContent
         (leaguePrompt (lit "Ligue1") Samples.derby (dateOf Samples.derby));
       EvPerplexity (perplexityFootballSystem (lit "Ligue1"))
         (perplexityFootballPrompt (lit "Ligue1") Samples.derby
            (dateOf Samples.derby))].
Proof.
  destruct (provider_fallback Samples.degraded Ligue1 (lit "Ligue1") Samples.derby
              (lit "{}") Samples.fallbackTweet [])
    as (content & Hc & Hfirst & _).
  - exists (lit "{}"), [Samples.derby]. split; reflexivity.
  - apply Nat.leb_le. vm_compute. reflexivity.
  - vm_compute. discriminate.
  - reflexivity.
  - assert (Hn : normalizePerplexity Samples.fallbackTweet
                 = Some Samples.fallbackTweet) by (vm_compute; reflexivity).
    assert (E : content = Samples.fallbackTweet) by congruence.
    rewrite <- E. apply Hfirst. reflexivity.
Defined.

(** When the fallback provider does not give a text (transport error,
    status other than 200, undecodable body, no choice), the generation
    that took the fallback returns an error and the empty text. *)
Lemma provider_fallback_fails w league leagueName m :
  lastFetched (footballData w (leagueMatchesURL league)) m ->
  10 <= len (UtcDate m) ->
  len (PerplexityAPIKey w) <> 0 ->
  fallbackContent
    (perplexity w (perplexityFootballSystem leagueName)
                (perplexityFootballPrompt leagueName m (dateOf m))) = None ->
  primaryFailed (gemini w 0 (leaguePrompt leagueName m (dateOf m))) = true ->
  exists e,
    run (generateLeagueNewsFromAPI w league leagueName)
    = Returned ([], Some e)
        [EvFetchMatches (leagueMatchesURL league);
         EvGenerateContent (leaguePrompt leagueName m (dateOf m));
         EvPerplexity (perplexityFootballSystem leagueName)
            (perplexityFootballPrompt leagueName m (dateOf m))].
Proof.
  intros Hm Hd Hk Hf Hfail.
  rewrite (league_first_failed w league leagueName m Hm Hd Hfail).
  destruct (fetchPerplexityFootballTweet_run w leagueName m
              [EvFetchMatches (leagueMatchesURL league);
               EvGenerateContent (leaguePrompt leagueName m (dateOf m))] Hd)
    as [Hk'|e Hk' Hf'|c Hk' Hf'].
  - contradiction.
  - exists e. reflexivity.
  - congruence.
Qed.

(** On the degraded sample the text returned is the tweet of the
    fallback provider. *)
Example degraded_returns_fallback_tweet :
  exists t,
    run (generateLeagueNewsFromAPI Samples.degraded Ligue1 (lit "Ligue1"))
    = Returned (Samples.fallbackTweet, None) t.
Proof. eexists. vm_compute. reflexivity. Qed.

(** The text of a successful generation is the validated text of one
    answer of one provider: the first answer of the primary provider,
    its answer to the retry, or the first choice of the fallback. *)
Lemma final_text_single_provider w league leagueName content t :
  run (generateLeagueNewsFromAPI w league leagueName) = Returned (content, None) t ->
  exists m,
    lastFetched (footballData w (leagueMatchesURL league)) m
    /\ (primaryContent (gemini w 0 (leaguePrompt leagueName m (dateOf m)))
        = Some content
        \/ primaryContent (gemini w 1 (leagueRetryPrompt leagueName m (dateOf m)))
           = Some content
        \/ fallbackContent
             (perplexity w (perplexityFootballSystem leagueName)
                         (perplexityFootballPrompt leagueName m (dateOf m)))
           = Some content).
Proof.
  intros H.
  pose proof (generateLeagueNewsFromAPI_run w league leagueName) as R.
  rewrite H in R. inversion R; subst; eauto.
  - match goal with HP : PerplexityRun _ _ _ _ _ |- _ => inversion HP; subst end.
    eauto.
  - match goal with HP : PerplexityRun _ _ _ _ _ |- _ => inversion HP; subst end.
    eauto.
Qed.

(** * Further properties of the program *)

(** ** Configuration *)

Lemma isEmpty_default_prompt : isEmpty defaultLiverpoolNewsPrompt = false.
Proof. vm_compute. reflexivity. Qed.

Lemma loadConfig_required_keys_aux (getenv : Env) :
  (forallb (fun name => negb (isEmpty (getenv name))) requiredKeys = true ->
   exists c,
     loadConfig getenv = (Some c, None)
     /\ isEmpty (Config.LiverpoolNewsPrompt c) = false
     /\ Config.PerplexityAPIKey c = getenv (lit "PERPLEXITY_API_KEY")
     /\ Config.XAPIKey c = getenv (lit "X_API_KEY")
     /\ Config.LiverpoolNewsPrompt c
        = (if isEmpty (getenv (lit "LIVERPOOL_NEWS_PROMPT"))
           then defaultLiverpoolNewsPrompt
           else getenv (lit "LIVERPOOL_NEWS_PROMPT"))
     /\ Config.GoogleAPIKey c = getenv (lit "GOOGLE_API_KEY")
     /\ Config.XAPIKeySecret c = getenv (lit "X_API_KEY_SECRET")
     /\ Config.XAccessToken c = getenv (lit "X_ACCESS_TOKEN")
     /\ Config.XAccessTokenSecret c = getenv (lit "X_ACCESS_TOKEN_SECRET")
     /\ Config.FootballDataAPIKey c = getenv (lit "FOOTBALL_DATA_API_KEY")
     /\ Config.NewsAPIKey c = getenv (lit "NEWS_API_KEY"))
  /\ (forallb (fun name => negb (isEmpty (getenv name))) requiredKeys = false ->
      exists e, loadConfig getenv = (None, Some e)).
Proof.
  unfold loadConfig, requiredKeys. cbn [forallb Config.GoogleAPIKey Config.XAPIKey
    Config.XAPIKeySecret Config.XAccessToken Config.XAccessTokenSecret
    Config.FootballDataAPIKey Config.NewsAPIKey].
  destruct (isEmpty (getenv (lit "GOOGLE_API_KEY")));
  destruct (isEmpty (getenv (lit "X_API_KEY")));
  destruct (isEmpty (getenv (lit "X_API_KEY_SECRET")));
  destruct (isEmpty (getenv (lit "X_ACCESS_TOKEN")));
  destruct (isEmpty (getenv (lit "X_ACCESS_TOKEN_SECRET")));
  destruct (isEmpty (getenv (lit "FOOTBALL_DATA_API_KEY")));
  destruct (isEmpty (getenv (lit "NEWS_API_KEY")));
  cbn [negb andb orb]; (split; intros H; try discriminate H); eauto.
  eexists. split; [reflexivity|]. cbn [Config.LiverpoolNewsPrompt Config.PerplexityAPIKey
    Config.XAPIKey Config.GoogleAPIKey Config.XAPIKeySecret Config.XAccessToken
    Config.XAccessTokenSecret Config.FootballDataAPIKey Config.NewsAPIKey].
  split; [|repeat split; reflexivity].
  destruct (isEmpty (getenv (lit "LIVERPOOL_NEWS_PROMPT"))) eqn:E;
    [exact isEmpty_default_prompt|exact E].
Qed.

(** [loadConfig] succeeds exactly when the seven required variables are
    set.  It then returns a configuration whose prompt is the value of
    LIVERPOOL_NEWS_PROMPT, and the default prompt when that variable is
    not set, so that it is never empty; every other field is the value
    of its variable, the Perplexity key possibly nothing.  Otherwise
    [loadConfig] returns an error and no configuration. *)
Theorem loadConfig_required_keys (getenv : Env) :
  (forallb (fun name => negb (isEmpty (getenv name))) requiredKeys = true ->
   exists c,
     loadConfig getenv = (Some c, None)
     /\ isEmpty (Config.LiverpoolNewsPrompt c) = false
     /\ Config.PerplexityAPIKey c = getenv (lit "PERPLEXITY_API_KEY")
     /\ Config.XAPIKey c = getenv (lit "X_API_KEY")
     /\ Config.LiverpoolNewsPrompt c
        = (if isEmpty (getenv (lit "LIVERPOOL_NEWS_PROMPT"))
           then defaultLiverpoolNewsPrompt
           else getenv (lit "LIVERPOOL_NEWS_PROMPT"))
     /\ Config.GoogleAPIKey c = getenv (lit "GOOGLE_API_KEY")
     /\ Config.XAPIKeySecret c = getenv (lit "X_API_KEY_SECRET")
     /\ Config.XAccessToken c = getenv (lit "X_ACCESS_TOKEN")
     /\ Config.XAccessTokenSecret c = getenv (lit "X_ACCESS_TOKEN_SECRET")
     /\ Config.FootballDataAPIKey c = getenv (lit "FOOTBALL_DATA_API_KEY")
     /\ Config.NewsAPIKey c = getenv (lit "NEWS_API_KEY"))
  /\ (forallb (fun name => negb (isEmpty (getenv name))) requiredKeys = false ->
      exists e, loadConfig getenv = (None, Some e)).
Proof. apply loadConfig_required_keys_aux. Qed.

Lemma loadConfig_required_keys_witness :
  exists c,
    loadConfig sampleEnv = (Some c, None)
    /\ isEmpty (Config.LiverpoolNewsPrompt c) = false
    /\ Config.PerplexityAPIKey c = sampleEnv (lit "PERPLEXITY_API_KEY")
    /\ Config.XAPIKey c = sampleEnv (lit "X_API_KEY")
    /\ Config.LiverpoolNewsPrompt c
       = (if isEmpty (sampleEnv (lit "LIVERPOOL_NEWS_PROMPT"))
          then defaultLiverpoolNewsPrompt
          else sampleEnv (lit "LIVERPOOL_NEWS_PROMPT"))
    /\ Config.GoogleAPIKey c = sampleEnv (lit "GOOGLE_API_KEY")
    /\ Config.XAPIKeySecret c = sampleEnv (lit "X_API_KEY_SECRET")
    /\ Config.XAccessToken c = sampleEnv (lit "X_ACCESS_TOKEN")
    /\ Config.XAccessTokenSecret c = sampleEnv (lit "X_ACCESS_TOKEN_SECRET")
    /\ Config.FootballDataAPIKey c = sampleEnv (lit "FOOTBALL_DATA_API_KEY")
    /\ Config.NewsAPIKey c = sampleEnv (lit "NEWS_API_KEY").
Proof.
  apply (loadConfig_required_keys sampleEnv). vm_compute. reflexivity.
Defined.

Lemma debugCredentials_in_range_aux (nb : NewsBot) (t : list Event) :
  keyPrefix (Config.XAPIKey (config nb)) = Some (firstn 8 (Config.XAPIKey (config nb)))
  /\ len (firstn 8 (Config.XAPIKey (config nb))) <= 8
  /\ debugCredentials nb t = Returned tt t.
Proof.
  assert (E : keyPrefix (Config.XAPIKey (config nb))
              = Some (firstn 8 (Config.XAPIKey (config nb)))).
  { unfold keyPrefix. rewrite sliceTo_ok by apply Nat.le_min_r.
    f_equal. set (key := Config.XAPIKey (config nb)).
    destruct (Nat.le_gt_cases 8 (len key)) as [H|H].
    - rewrite Nat.min_l by exact H. reflexivity.
    - rewrite Nat.min_r by lia. unfold len in *.
      rewrite firstn_all, firstn_all2 by lia. reflexivity. }
  split; [exact E|]. split.
  - unfold len. rewrite length_firstn. apply Nat.le_min_l.
  - unfold debugCredentials. rewrite bind_eq, E. reflexivity.
Qed.

(** The slice [debugCredentials] takes of the API key is always in
    range: it is the first eight bytes of the key, the whole key when it
    is shorter; [debugCredentials] never panics. *)
Theorem debugCredentials_in_range (nb : NewsBot) (t : list Event) :
  keyPrefix (Config.XAPIKey (config nb)) = Some (firstn 8 (Config.XAPIKey (config nb)))
  /\ len (firstn 8 (Config.XAPIKey (config nb))) <= 8
  /\ debugCredentials nb t = Returned tt t.
Proof. apply debugCredentials_in_range_aux. Qed.

(** ** More on the content policies *)

Lemma runeWidth_truncated is1 is2 is3 t x :
  280 < len t ->
  runeWidth is1 is2 is3 (firstn 277 t ++ x) = runeWidth is1 is2 is3 t.
Proof.
  intros H. destruct t as [|c1 [|c2 [|c3 r]]]; try (simpl in H; lia).
  reflexivity.
Qed.

(** The policy of the fallback path is idempotent: validating a
    validated text again returns it unchanged. *)
Theorem normalizePerplexity_idempotent (raw v : gostring) :
  normalizePerplexity raw = Some v -> normalizePerplexity v = Some v.
Proof.
  unfold normalizePerplexity. intros Hv.
  destruct (TrimSpace_clean raw) as [Hs1 Hs2].
  set (t := TrimSpace raw) in *.
  destruct (Nat.le_gt_cases (len t) 280) as [H|H].
  - rewrite (truncateTweet_short t H) in Hv.
    assert (v = t) by congruence. subst v.
    rewrite (TrimSpace_fixed t Hs1 Hs2). apply truncateTweet_short, H.
  - rewrite (truncateTweet_long t H) in Hv.
    assert (Hr : v = firstn 277 t ++ lit "...") by congruence.
    assert (Hv1 : startsWithSpace v = false).
    { rewrite Hr. unfold startsWithSpace, leadingSpaceWidth in *.
      rewrite runeWidth_truncated by exact H. exact Hs1. }
    assert (Hv2 : endsWithSpace v = false).
    { rewrite Hr. unfold endsWithSpace. rewrite rev_app_distr. reflexivity. }
    rewrite (TrimSpace_fixed v Hv1 Hv2). apply truncateTweet_short.
    rewrite Hr, (len_truncated t H). lia.
Qed.

Lemma normalizePerplexity_idempotent_witness :
  normalizePerplexity Samples.fallbackTweet = Some Samples.fallbackTweet.
Proof.
  apply (normalizePerplexity_idempotent
           (lit "  " ++ Samples.fallbackTweet ++ newline) Samples.fallbackTweet).
  vm_compute. reflexivity.
Defined.

(** The policy of the fallback path leaves quotes in place: its text
    starts with a double quote exactly when the raw output, white space
    apart, does; within the limit the text is the raw output less the
    white space at its ends. *)
Theorem fallback_keeps_quotes (raw v : gostring) :
  normalizePerplexity raw = Some v ->
  startsWithByte quote v = startsWithByte quote (TrimSpace raw)
  /\ (len (TrimSpace raw) <= maxLen -> v = TrimSpace raw).
Proof.
  unfold normalizePerplexity, maxLen. intros Hv.
  destruct (Nat.le_gt_cases (len (TrimSpace raw)) 280) as [H|H].
  - rewrite (truncateTweet_short _ H) in Hv.
    assert (v = TrimSpace raw) by congruence. subst v. auto.
  - rewrite (truncateTweet_long _ H) in Hv.
    assert (Hr : v = firstn 277 (TrimSpace raw) ++ lit "...") by congruence.
    split; [|lia].
    rewrite Hr. apply (truncated_ends (TrimSpace raw) quote H).
Qed.

Lemma fallback_keeps_quotes_witness :
  startsWithByte quote ([quote] ++ lit "Up the Reds" ++ [quote])
  = startsWithByte quote (TrimSpace (lit " " ++ [quote] ++ lit "Up the Reds" ++ [quote]))
  /\ (len (TrimSpace (lit " " ++ [quote] ++ lit "Up the Reds" ++ [quote])) <= maxLen ->
      [quote] ++ lit "Up the Reds" ++ [quote]
      = TrimSpace (lit " " ++ [quote] ++ lit "Up the Reds" ++ [quote])).
Proof.
  apply (fallback_keeps_quotes (lit " " ++ [quote] ++ lit "Up the Reds" ++ [quote])
           ([quote] ++ lit "Up the Reds" ++ [quote])).
  vm_compute. reflexivity.
Defined.

(** A validated text is made of bytes of the raw output, in place: it
    is a slice of the raw output, or 277 consecutive bytes of it followed
    by the three full stops. *)
Theorem validated_text_comes_from_raw (raw v : gostring) :
  normalizeGemini raw = Some v ->
  (exists p q, raw = p ++ v ++ q)
  \/ (exists p head q,
         raw = p ++ head ++ q /\ v = head ++ lit "..." /\ len head = 277).
Proof.
  unfold normalizeGemini. intros Hv.
  destruct (TrimSpace_decompose raw) as (p & q & Hraw & _ & _).
  destruct (Trim_decompose (TrimSpace raw) quote) as (n & k & Ht).
  set (t := Trim (TrimSpace raw) quote) in *.
  destruct (Nat.le_gt_cases (len t) 280) as [H|H].
  - rewrite (truncateTweet_short t H) in Hv.
    assert (v = t) by congruence. subst v. left.
    exists (p ++ repeat quote n), (repeat quote k ++ q).
    rewrite Hraw at 1. rewrite Ht at 1. rewrite <- !app_assoc. reflexivity.
  - rewrite (truncateTweet_long t H) in Hv.
    assert (Hr : v = firstn 277 t ++ lit "...") by congruence. right.
    exists (p ++ repeat quote n), (firstn 277 t), (skipn 277 t ++ repeat quote k ++ q).
    split; [|split; [exact Hr|]].
    + rewrite Hraw at 1. rewrite Ht at 1.
      rewrite <- (firstn_skipn 277 t) at 1. rewrite <- !app_assoc. reflexivity.
    + unfold len in *. rewrite length_firstn. lia.
Qed.

Lemma validated_text_comes_from_raw_witness :
  (exists p q,
      lit " " ++ [quote] ++ lit "Up the Reds" ++ [quote] = p ++ lit "Up the Reds" ++ q)
  \/ (exists p head q,
         lit " " ++ [quote] ++ lit "Up the Reds" ++ [quote] = p ++ head ++ q
         /\ lit "Up the Reds" = head ++ lit "..." /\ len head = 277).
Proof.
  apply (validated_text_comes_from_raw
           (lit " " ++ [quote] ++ lit "Up the Reds" ++ [quote]) (lit "Up the Reds")).
  vm_compute. reflexivity.
Defined.

(** ** More on the fetches and the generations *)

Lemma fetch_results_aux (w : World) (league : FootballLeague) (t : list Event) :
  (exists r,
      fetchLatestLeagueMatch w league t
      = Returned r (t ++ [EvFetchMatches (leagueMatchesURL league)])
      /\ ((exists m, r = (Some m, None)
                     /\ lastFetched (footballData w (leagueMatchesURL league)) m)
          \/ (exists e, r = (None, Some e)
                        /\ factFetchFails (footballData w (leagueMatchesURL league))
                           = true)))
  /\ (exists r,
         fetchLatestPremierLeagueMatch w t
         = Returned r (t ++ [EvFetchMatches premierLeagueMatchesURL])
         /\ ((exists m, r = (Some m, None)
                        /\ lastFetched (footballData w premierLeagueMatchesURL) m)
             \/ (exists e, r = (None, Some e)
                           /\ factFetchFails (footballData w premierLeagueMatchesURL)
                              = true)))
  /\ (exists r,
         fetchLatestCryptoNews w t
         = Returned r (t ++ [EvFetchNews cryptoNewsURL])
         /\ ((exists a, r = (Some a, None)
                        /\ firstFetched (newsAPI w cryptoNewsURL) a)
             \/ (exists e, r = (None, Some e)
                           /\ factFetchFails (newsAPI w cryptoNewsURL) = true))).
Proof.
  split; [|split].
  - destruct (fetch_last_cases (footballData w (leagueMatchesURL league)))
      as [Hf|[m Hm]].
    + destruct (fetchLatestLeagueMatch_fails w league t Hf) as [e He].
      eexists. split; [exact He|]. right. eauto.
    + eexists. split; [exact (fetchLatestLeagueMatch_ok w league m t Hm)|].
      left. eauto.
  - destruct (fetch_last_cases (footballData w premierLeagueMatchesURL))
      as [Hf|[m Hm]].
    + assert (He : exists e,
                 fetchLatestPremierLeagueMatch w t
                 = Returned (None, Some e)
                     (t ++ [EvFetchMatches premierLeagueMatchesURL])).
      { revert Hf.
        unfold fetchLatestPremierLeagueMatch, getMatches, bind, emit, ret,
          factFetchFails.
        destruct (footballData w premierLeagueMatchesURL) as [e|code body [e|l]].
        - eauto.
        - destruct (negb (code =? 200)%Z); eauto.
        - destruct (negb (code =? 200)%Z); [eauto|]. simpl.
          destruct (List.length l =? 0); [eauto|discriminate]. }
      destruct He as [e He]. eexists. split; [exact He|]. right. eauto.
    + eexists. split; [exact (fetchLatestPremierLeagueMatch_ok w m t Hm)|].
      left. eauto.
  - destruct (fetch_first_cases (newsAPI w cryptoNewsURL)) as [Hf|[a Ha]].
    + destruct (fetchLatestCryptoNews_fails w t Hf) as [e He].
      eexists. split; [exact He|]. right. eauto.
    + eexists. split; [exact (fetchLatestCryptoNews_ok w a t Ha)|].
      left. eauto.
Qed.

(** The three fetches send one request and never panic; they return
    either an element and no error (the last match of the list, the
    first article) or an error and no element, never neither, in which
    case the answer of the source had failed. *)
Theorem fetch_results (w : World) (league : FootballLeague) (t : list Event) :
  (exists r,
      fetchLatestLeagueMatch w league t
      = Returned r (t ++ [EvFetchMatches (leagueMatchesURL league)])
      /\ ((exists m, r = (Some m, None)
                     /\ lastFetched (footballData w (leagueMatchesURL league)) m)
          \/ (exists e, r = (None, Some e)
                        /\ factFetchFails (footballData w (leagueMatchesURL league))
                           = true)))
  /\ (exists r,
         fetchLatestPremierLeagueMatch w t
         = Returned r (t ++ [EvFetchMatches premierLeagueMatchesURL])
         /\ ((exists m, r = (Some m, None)
                        /\ lastFetched (footballData w premierLeagueMatchesURL) m)
             \/ (exists e, r = (None, Some e)
                           /\ factFetchFails (footballData w premierLeagueMatchesURL)
                              = true)))
  /\ (exists r,
         fetchLatestCryptoNews w t
         = Returned r (t ++ [EvFetchNews cryptoNewsURL])
         /\ ((exists a, r = (Some a, None)
                        /\ firstFetched (newsAPI w cryptoNewsURL) a)
             \/ (exists e, r = (None, Some e)
                           /\ factFetchFails (newsAPI w cryptoNewsURL) = true))).
Proof. apply fetch_results_aux. Qed.

(** A league generation sends at most four requests: the fetch first,
    then one or two calls to the primary provider, then at most one call
    to the fallback provider, which is then the last. *)
Theorem league_request_budget (w : World) (league : FootballLeague)
    (leagueName : gostring) :
  exists calls fallback,
    traceOf (run (generateLeagueNewsFromAPI w league leagueName))
    = EvFetchMatches (leagueMatchesURL league) :: calls ++ fallback
    /\ forallb isGenerateContent calls = true
    /\ forallb isPerplexity fallback = true
    /\ List.length calls <= 2
    /\ List.length fallback <= 1
    /\ (fallback <> [] -> calls <> []).
Proof.
  assert (HP : forall m t o,
             PerplexityRun w leagueName m t o ->
             exists fallback,
               traceOf o = t ++ fallback
               /\ forallb isPerplexity fallback = true
               /\ List.length fallback <= 1).
  { intros m t o [Hk|e Hk Hf|c Hk Hc]; cbn [traceOf].
    - exists []. rewrite app_nil_r. simpl. auto.
    - eexists. split; [reflexivity|]. simpl. auto.
    - eexists. split; [reflexivity|]. simpl. auto. }
  destruct (generateLeagueNewsFromAPI_run w league leagueName)
    as [e Hf|m Hm Hd|m c Hm Hd Hc Hlen|m c1 c2 Hm Hd Hc1 Hlen Hc2
        |m Hm Hd Hp|m c1 Hm Hd Hc1 Hlen Hp
        |m o Hm Hd Hfail R|m c1 o Hm Hd Hc1 Hlen Hfail R]; cbn [traceOf].
  - exists [], []. simpl. repeat split; auto; try congruence.
  - exists [], []. simpl. repeat split; auto; try congruence.
  - exists [EvGenerateContent (leaguePrompt leagueName m (dateOf m))], [].
    simpl. repeat split; auto; try congruence.
  - exists [EvGenerateContent (leaguePrompt leagueName m (dateOf m));
            EvGenerateContent (leagueRetryPrompt leagueName m (dateOf m))], [].
    simpl. repeat split; auto; try congruence.
  - exists [EvGenerateContent (leaguePrompt leagueName m (dateOf m))], [].
    simpl. repeat split; auto; try congruence.
  - exists [EvGenerateContent (leaguePrompt leagueName m (dateOf m));
            EvGenerateContent (leagueRetryPrompt leagueName m (dateOf m))], [].
    simpl. repeat split; auto; try congruence.
  - destruct (HP _ _ _ R) as (fb & -> & H1 & H2).
    exists [EvGenerateContent (leaguePrompt leagueName m (dateOf m))], fb.
    simpl. repeat split; auto; try discriminate.
  - destruct (HP _ _ _ R) as (fb & -> & H1 & H2).
    exists [EvGenerateContent (leaguePrompt leagueName m (dateOf m));
            EvGenerateContent (leagueRetryPrompt leagueName m (dateOf m))], fb.
    simpl. repeat split; auto; try discriminate.
Qed.

(** The happy path of a league generation: a first answer of at least
    100 bytes is returned after exactly two requests, with no retry and
    no fallback. *)
Theorem league_first_answer_returned (w : World) (league : FootballLeague)
    (leagueName : gostring) (m : PremierLeagueMatch) (content : gostring) :
  lastFetched (footballData w (leagueMatchesURL league)) m ->
  10 <= len (UtcDate m) ->
  primaryContent (gemini w 0 (leaguePrompt leagueName m (dateOf m))) = Some content ->
  minLen <= len content ->
  run (generateLeagueNewsFromAPI w league leagueName)
  = Returned (content, None)
      [EvFetchMatches (leagueMatchesURL league);
       EvGenerateContent (leaguePrompt leagueName m (dateOf m))].
Proof. exact (league_first_ok w league leagueName m content). Qed.

Lemma league_first_answer_returned_witness :
  run (generateLeagueNewsFromAPI Samples.fluent SerieA (lit "SerieA"))
  = Returned (Samples.longTweet, None)
      [EvFetchMatches (leagueMatchesURL SerieA);
       EvGenerateContent
         (leaguePrompt (lit "SerieA") Samples.derby (dateOf Samples.derby))].
Proof.
  apply (league_first_answer_returned Samples.fluent SerieA (lit "SerieA")
           Samples.derby Samples.longTweet).
  - exists (lit "{}"), [Samples.derby]. split; reflexivity.
  - apply Nat.leb_le. vm_compute. reflexivity.
  - vm_compute. reflexivity.
  - apply Nat.leb_le. vm_compute. reflexivity.
Defined.

(** Without a Perplexity key the fallback sends nothing: when the
    first call to the primary provider fails (an error, no candidate,
    or a first candidate whose content has no part), the league
    generation ends with the error of the missing key, after the fetch
    and the one call. *)
Theorem fallback_without_key (w : World) (league : FootballLeague)
    (leagueName : gostring) (m : PremierLeagueMatch) :
  len (PerplexityAPIKey w) = 0 ->
  lastFetched (footballData w (leagueMatchesURL league)) m ->
  10 <= len (UtcDate m) ->
  primaryFailed (gemini w 0 (leaguePrompt leagueName m (dateOf m))) = true ->
  run (generateLeagueNewsFromAPI w league leagueName)
  = Returned ([], Some (lit "Perplexity API key not set"))
      [EvFetchMatches (leagueMatchesURL league);
       EvGenerateContent (leaguePrompt leagueName m (dateOf m))].
Proof.
  intros Hk Hm Hd Hfail.
  rewrite (league_first_failed w league leagueName m Hm Hd Hfail).
  unfold fetchPerplexityFootballTweet. rewrite Hk. reflexivity.
Qed.

Lemma fallback_without_key_witness :
  run (generateLeagueNewsFromAPI MoreSamples.keyless LaLiga (lit "LaLiga"))
  = Returned ([], Some (lit "Perplexity API key not set"))
      [EvFetchMatches (leagueMatchesURL LaLiga);
       EvGenerateContent
         (leaguePrompt (lit "LaLiga") Samples.derby (dateOf Samples.derby))].
Proof.
  apply (fallback_without_key MoreSamples.keyless LaLiga (lit "LaLiga") Samples.derby).
  - reflexivity.
  - exists (lit "{}"), [Samples.derby]. split; reflexivity.
  - apply Nat.leb_le. vm_compute. reflexivity.
  - reflexivity.
Defined.

Lemma crypto_first_call w a :
  firstFetched (newsAPI w cryptoNewsURL) a ->
  run (generateCryptoNewsFromAPI w)
  = match gemini w 0 (cryptoPrompt a) with
    | GenerateError _ => fetchPerplexityCryptoTweet w (Some a)
    | GenerateResponse Candidates =>
        match firstPart Candidates with
        | ContentNil => panic
        | NoPart => fetchPerplexityCryptoTweet w (Some a)
        | Part part =>
            content <- orPanic (normalizeGemini part) ;;
            ret (content, None)
        end
    end [EvFetchNews cryptoNewsURL; EvGenerateContent (cryptoPrompt a)].
Proof.
  intros Ha. unfold run, generateCryptoNewsFromAPI.
  rewrite bind_eq, (fetchLatestCryptoNews_ok w a [] Ha).
  rewrite bind_eq, orPanic_Some, bind_eq, GenerateContent_eq. reflexivity.
Qed.

(** The crypto generation has no retry: the first answer of the primary
    provider is returned whatever its length, after exactly two
    requests; when that call fails (an error, no candidate, or a first
    candidate whose content has no part) the generation is the run of
    the crypto fallback on the same article; on a first candidate
    without content it panics at the call. *)
Theorem crypto_generation_single_attempt (w : World) (a : NewsAPIArticle) :
  firstFetched (newsAPI w cryptoNewsURL) a ->
  (forall content,
      primaryContent (gemini w 0 (cryptoPrompt a)) = Some content ->
      run (generateCryptoNewsFromAPI w)
      = Returned (content, None)
          [EvFetchNews cryptoNewsURL; EvGenerateContent (cryptoPrompt a)])
  /\ (primaryFailed (gemini w 0 (cryptoPrompt a)) = true ->
      run (generateCryptoNewsFromAPI w)
      = fetchPerplexityCryptoTweet w (Some a)
          [EvFetchNews cryptoNewsURL; EvGenerateContent (cryptoPrompt a)])
  /\ (primaryPanics (gemini w 0 (cryptoPrompt a)) = true ->
      run (generateCryptoNewsFromAPI w)
      = Panicked [EvFetchNews cryptoNewsURL; EvGenerateContent (cryptoPrompt a)]).
Proof.
  intros Ha. rewrite (crypto_first_call w a Ha). split; [|split].
  - intros content Hc.
    destruct (gemini w 0 (cryptoPrompt a)) as [e|cands]; [discriminate|].
    simpl in Hc. destruct (firstPart cands) as [| |part]; try discriminate.
    rewrite bind_eq, Hc, orPanic_Some. reflexivity.
  - intros Hfail.
    destruct (gemini w 0 (cryptoPrompt a)) as [e|cands]; [reflexivity|].
    simpl in Hfail. destruct (firstPart cands); try discriminate; reflexivity.
  - intros Hp.
    destruct (gemini w 0 (cryptoPrompt a)) as [e|cands]; [discriminate|].
    simpl in Hp. destruct (firstPart cands); try discriminate; reflexivity.
Qed.

Lemma crypto_generation_single_attempt_witness :
  run (generateCryptoNewsFromAPI MoreSamples.newsroom)
  = Returned (lit "Bitcoin up.", None)
      [EvFetchNews cryptoNewsURL;
       EvGenerateContent (cryptoPrompt MoreSamples.headline)].
Proof.
  destruct (crypto_generation_single_attempt MoreSamples.newsroom MoreSamples.headline)
    as [H _].
  - exists (lit "{}"), [MoreSamples.headline]. split; reflexivity.
  - apply (H (lit "Bitcoin up.")). vm_compute. reflexivity.
Defined.

(** The runs of [generatePremierLeagueNewsFromAPI], by cases. *)
Lemma generatePremierLeagueNewsFromAPI_cases w :
  (factFetchFails (footballData w premierLeagueMatchesURL) = true
   /\ exists e,
        run (generatePremierLeagueNewsFromAPI w)
        = Returned ([], Some e) [EvFetchMatches premierLeagueMatchesURL])
  \/ (exists m,
        lastFetched (footballData w premierLeagueMatchesURL) m
        /\ ((len (UtcDate m) < 10
             /\ run (generatePremierLeagueNewsFromAPI w)
                = Panicked [EvFetchMatches premierLeagueMatchesURL])
            \/ (10 <= len (UtcDate m)
                /\ ((primaryFailed (gemini w 0 (premierLeaguePrompt m (dateOf m)))
                     = true
                     /\ exists e,
                          run (generatePremierLeagueNewsFromAPI w)
                          = Returned ([], Some e)
                              [EvFetchMatches premierLeagueMatchesURL;
                               EvGenerateContent
                                 (premierLeaguePrompt m (dateOf m))])
                    \/ (primaryPanics (gemini w 0 (premierLeaguePrompt m (dateOf m)))
                        = true
                        /\ run (generatePremierLeagueNewsFromAPI w)
                           = Panicked
                               [EvFetchMatches premierLeagueMatchesURL;
                                EvGenerateContent
                                  (premierLeaguePrompt m (dateOf m))])
                    \/ (exists content,
                          primaryContent
                            (gemini w 0 (premierLeaguePrompt m (dateOf m)))
                          = Some content
                          /\ run (generatePremierLeagueNewsFromAPI w)
                             = Returned (content, None)
                                 [EvFetchMatches premierLeagueMatchesURL;
                                  EvGenerateContent
                                    (premierLeaguePrompt m (dateOf m))]))))).
Proof.
  destruct (fetch_results_aux w PremierLeague []) as (_ & (r & Hr & Hcases) & _).
  unfold run, generatePremierLeagueNewsFromAPI. rewrite bind_eq, Hr.
  destruct Hcases as [(m & -> & Hm)|(e & -> & Hf)].
  2:{ left. split; [exact Hf|]. eexists. reflexivity. }
  right. exists m. split; [exact Hm|]. cbn [app].
  rewrite bind_eq, orPanic_Some, bind_eq.
  destruct (Nat.le_gt_cases 10 (len (UtcDate m))) as [Hd|Hd].
  2:{ left. split; [exact Hd|]. rewrite (sliceTo_panic _ 10 Hd). reflexivity. }
  right. split; [exact Hd|].
  rewrite (sliceTo_ok _ 10 Hd), orPanic_Some. fold (dateOf m).
  rewrite bind_eq, GenerateContent_eq. cbn [filter isGenerateContent List.length app].
  destruct (gemini w 0 (premierLeaguePrompt m (dateOf m))) as [e|cands].
  { left. split; [reflexivity|]. eexists. reflexivity. }
  cbn [primaryFailed primaryPanics primaryContent].
  destruct (firstPart cands) as [| |part].
  { right. left. split; reflexivity. }
  { left. split; [reflexivity|]. eexists. reflexivity. }
  right. right. destruct (normalizeGemini_total part) as [c Hc].
  exists c. split; [exact Hc|]. rewrite bind_eq, Hc, orPanic_Some. reflexivity.
Qed.

(** [generatePremierLeagueNewsFromAPI] has neither retry nor fallback:
    it never calls the fallback provider and calls the primary provider
    at most once; what it returns is a text of at most 280 bytes and no
    error, or an error and the empty text. *)
Theorem premier_league_generation_no_fallback (w : World) :
  existsb isPerplexity (traceOf (run (generatePremierLeagueNewsFromAPI w))) = false
  /\ List.length
       (filter isGenerateContent (traceOf (run (generatePremierLeagueNewsFromAPI w))))
     <= 1
  /\ (forall content e t,
         run (generatePremierLeagueNewsFromAPI w) = Returned (content, e) t ->
         len content <= maxLen /\ (e <> None -> content = [])).
Proof.
  unfold maxLen.
  destruct (generatePremierLeagueNewsFromAPI_cases w)
    as [(_ & e & ->)
       |(m & Hm & [(_ & ->)|(_ & [(_ & e & ->)|[(_ & ->)|(c & Hc & ->)]])])];
    cbn [traceOf]; (split; [reflexivity|]); (split; [simpl; lia|]);
    intros content e' t H; try discriminate H.
  - assert (content = []) by congruence. subst. simpl. split; [lia|auto].
  - assert (content = []) by congruence. subst. simpl. split; [lia|auto].
  - assert (content = c) by congruence. assert (e' = None) by congruence. subst.
    split; [exact (primaryContent_len _ _ Hc)|congruence].
Qed.

Lemma primary_only_run (w : World) (prompt failed noContent : gostring) :
  let generation : M (gostring * error) :=
    resp <- GenerateContent w prompt ;;
    match resp with
    | GenerateError err => ret ([], Some (failed ++ err))
    | GenerateResponse Candidates =>
        match firstPart Candidates with
        | ContentNil => panic
        | NoPart => ret ([], Some noContent)
        | Part part =>
            content <- orPanic (normalizeGemini part) ;;
            ret (content, None)
        end
    end in
  (primaryPanics (gemini w 0 prompt) = true ->
   run generation = Panicked [EvGenerateContent prompt])
  /\ (primaryPanics (gemini w 0 prompt) = false ->
      exists content e,
        run generation = Returned (content, e) [EvGenerateContent prompt]
        /\ len content <= maxLen
        /\ match e with
           | None => primaryContent (gemini w 0 prompt) = Some content
           | Some _ => content = [] /\ primaryFailed (gemini w 0 prompt) = true
           end).
Proof.
  unfold maxLen. cbv zeta. unfold run. rewrite bind_eq, GenerateContent_eq.
  cbn [filter List.length app].
  destruct (gemini w 0 prompt) as [e|cands].
  { split; [discriminate|]. intros _.
    do 2 eexists. split; [reflexivity|]. simpl. split; [lia|auto]. }
  cbn [primaryContent primaryFailed primaryPanics].
  destruct (firstPart cands) as [| |part].
  - split; [reflexivity|discriminate].
  - split; [discriminate|]. intros _.
    do 2 eexists. split; [reflexivity|]. simpl. split; [lia|auto].
  - split; [discriminate|]. intros _.
    destruct (normalizeGemini_total part) as [c Hc].
    exists c, None. rewrite bind_eq, Hc, orPanic_Some.
    split; [reflexivity|]. split; [exact (normalizeGemini_len _ _ Hc)|reflexivity].
Qed.

(** The generations that ask the primary provider alone send that one
    request.  On a first candidate without content they panic at it;
    otherwise they return its validated text and no error, or, when the
    call failed (an error, no candidate, or a first candidate whose
    content has no part), an error and the empty text. *)
Theorem primary_only_generations (w : World) (currentMonth : gostring)
    (currentDay currentYear : Z) :
  ((primaryPanics (gemini w 0 (liverpoolNewsPrompt currentMonth currentDay)) = true ->
    run (generateLiverpoolNews w currentMonth currentDay)
    = Panicked [EvGenerateContent (liverpoolNewsPrompt currentMonth currentDay)])
   /\ (primaryPanics (gemini w 0 (liverpoolNewsPrompt currentMonth currentDay))
       = false ->
       exists content e,
         run (generateLiverpoolNews w currentMonth currentDay)
         = Returned (content, e)
             [EvGenerateContent (liverpoolNewsPrompt currentMonth currentDay)]
         /\ len content <= maxLen
         /\ match e with
            | None =>
                primaryContent
                  (gemini w 0 (liverpoolNewsPrompt currentMonth currentDay))
                = Some content
            | Some _ =>
                content = []
                /\ primaryFailed
                     (gemini w 0 (liverpoolNewsPrompt currentMonth currentDay))
                   = true
            end))
  /\ ((primaryPanics
         (gemini w 0 (premierLeagueNewsPrompt currentMonth currentDay currentYear))
       = true ->
       run (generatePremierLeagueNews w currentMonth currentDay currentYear)
       = Panicked
           [EvGenerateContent
              (premierLeagueNewsPrompt currentMonth currentDay currentYear)])
      /\ (primaryPanics
            (gemini w 0
               (premierLeagueNewsPrompt currentMonth currentDay currentYear))
          = false ->
          exists content e,
            run (generatePremierLeagueNews w currentMonth currentDay currentYear)
            = Returned (content, e)
                [EvGenerateContent
                   (premierLeagueNewsPrompt currentMonth currentDay currentYear)]
            /\ len content <= maxLen
            /\ match e with
               | None =>
                   primaryContent
                     (gemini w 0
                        (premierLeagueNewsPrompt currentMonth currentDay
                           currentYear))
                   = Some content
               | Some _ =>
                   content = []
                   /\ primaryFailed
                        (gemini w 0
                           (premierLeagueNewsPrompt currentMonth currentDay
                              currentYear))
                      = true
               end)).
Proof.
  split.
  - exact (primary_only_run w (liverpoolNewsPrompt currentMonth currentDay) _ _).
  - exact (primary_only_run w
             (premierLeagueNewsPrompt currentMonth currentDay currentYear) _ _).
Qed.

(** With a clock that is not negative, the topic index of
    [generateLiverpoolHistoryVariation] is in range, the Unix time
    modulo ten: taking the topic does not panic, and the one request of
    the generation is the prompt on that topic.  On a first candidate
    without content the generation panics at the request; otherwise it
    returns, a text within the limit or an error. *)
Theorem history_topic_in_range (w : World) (unix : Z) :
  (0 <= unix)%Z ->
  exists topic,
    nth_error topics (Z.to_nat (Z.rem unix 10)) = Some topic
    /\ (primaryPanics (gemini w 0 (liverpoolHistoryPrompt topic)) = true ->
        run (generateLiverpoolHistoryVariation w unix)
        = Panicked [EvGenerateContent (liverpoolHistoryPrompt topic)])
    /\ (primaryPanics (gemini w 0 (liverpoolHistoryPrompt topic)) = false ->
        exists content e,
          run (generateLiverpoolHistoryVariation w unix)
          = Returned (content, e) [EvGenerateContent (liverpoolHistoryPrompt topic)]
          /\ len content <= maxLen
          /\ match e with
             | None =>
                 primaryContent (gemini w 0 (liverpoolHistoryPrompt topic))
                 = Some content
             | Some _ =>
                 content = []
                 /\ primaryFailed (gemini w 0 (liverpoolHistoryPrompt topic))
                    = true
             end).
Proof.
  intros Hpos.
  assert (Hr : (0 <= Z.rem unix 10 < 10)%Z).
  { split; [apply Z.rem_nonneg; lia|apply Z.rem_bound_pos; lia]. }
  destruct (nth_error topics (Z.to_nat (Z.rem unix 10))) as [topic|] eqn:E.
  2:{ apply nth_error_None in E. change (List.length topics) with 10 in E. lia. }
  exists topic. split; [reflexivity|].
  assert (T : topicAt (Z.rem unix 10) = Some topic).
  { unfold topicAt. destruct (Z.ltb_spec (Z.rem unix 10) 0); [lia|exact E]. }
  assert (R : run (generateLiverpoolHistoryVariation w unix)
              = run (resp <- GenerateContent w (liverpoolHistoryPrompt topic) ;;
                     match resp with
                     | GenerateError err =>
                         ret ([], Some (lit "failed to generate content: " ++ err))
                     | GenerateResponse Candidates =>
                         match firstPart Candidates with
                         | ContentNil => panic
                         | NoPart => ret ([], Some (lit "no content generated"))
                         | Part part =>
                             content <- orPanic (normalizeGemini part) ;;
                             ret (content, None)
                         end
                     end)).
  { unfold run, generateLiverpoolHistoryVariation.
    change (Z.of_nat (List.length topics)) with 10%Z.
    rewrite bind_eq, T, orPanic_Some. reflexivity. }
  rewrite R. exact (primary_only_run w (liverpoolHistoryPrompt topic) _ _).
Qed.

Lemma history_topic_in_range_witness :
  exists topic,
    nth_error topics (Z.to_nat (Z.rem 1762000003 10)) = Some topic
    /\ (primaryPanics (gemini Samples.fluent 0 (liverpoolHistoryPrompt topic)) = true ->
        run (generateLiverpoolHistoryVariation Samples.fluent 1762000003)
        = Panicked [EvGenerateContent (liverpoolHistoryPrompt topic)])
    /\ (primaryPanics (gemini Samples.fluent 0 (liverpoolHistoryPrompt topic)) = false ->
        exists content e,
          run (generateLiverpoolHistoryVariation Samples.fluent 1762000003)
          = Returned (content, e) [EvGenerateContent (liverpoolHistoryPrompt topic)]
          /\ len content <= maxLen
          /\ match e with
             | None =>
                 primaryContent
                   (gemini Samples.fluent 0 (liverpoolHistoryPrompt topic))
                 = Some content
             | Some _ =>
                 content = []
                 /\ primaryFailed
                      (gemini Samples.fluent 0 (liverpoolHistoryPrompt topic))
                    = true
             end).
Proof.
  apply (history_topic_in_range Samples.fluent 1762000003). lia.
Defined.

(** ** More on publishing and on the runs *)

Lemma postToTwitter_result_aux (w : World) (content : gostring) (t : list Event) :
  exists err,
    postToTwitter w content t = Returned err (t ++ [EvPost content])
    /\ (err = None
        <-> exists body resp,
              twitter w content = PostResponse 201 body (DecodeOk resp)).
Proof.
  unfold postToTwitter. rewrite bind_eq, postTweet_eq.
  destruct (twitter w content) as [e|e|code body [e|resp]].
  - eexists. split; [reflexivity|]. split; [discriminate|].
    intros (b & r & H). discriminate H.
  - eexists. split; [reflexivity|]. split; [discriminate|].
    intros (b & r & H). discriminate H.
  - eexists. split; [reflexivity|]. split; [discriminate|].
    intros (b & r & H). discriminate H.
  - destruct (Z.eqb_spec code 201) as [->|Hne]; cbn [negb].
    + exists None. split; [reflexivity|]. split; [eauto|reflexivity].
    + destruct (Errors resp); eexists; (split; [reflexivity|]);
        (split; [discriminate|]); intros (b & r & H); congruence.
Qed.

(** [postToTwitter] sends one request; it returns no error exactly when
    the answer has status 201 and a body that decodes. *)
Theorem postToTwitter_result (w : World) (content : gostring) (t : list Event) :
  exists err,
    postToTwitter w content t = Returned err (t ++ [EvPost content])
    /\ (err = None
        <-> exists body resp,
              twitter w content = PostResponse 201 body (DecodeOk resp)).
Proof. apply postToTwitter_result_aux. Qed.

Section PublishingResults.
Variable w : World.

Let publish : gostring * error -> M error :=
  fun x =>
    match x with
    | (content, err) =>
        match err with
        | Some e => ret (Some (lit "failed to generate news: " ++ e))
        | None =>
            err <- postToTwitter w content ;;
            match err with
            | Some e => ret (Some (lit "failed to post to X: " ++ e))
            | None => ret None
            end
        end
    end.

Lemma publish_result content t :
  exists err,
    publish (content, None) t = Returned err (t ++ [EvPost content])
    /\ (err = None
        <-> exists body resp,
              twitter w content = PostResponse 201 body (DecodeOk resp)).
Proof.
  subst publish. cbv beta iota. rewrite bind_eq.
  destruct (postToTwitter_result_aux w content t) as (err & -> & Hiff).
  destruct err as [e|].
  - eexists. split; [reflexivity|]. split; [discriminate|].
    intros H. apply Hiff in H. discriminate H.
  - exists None. split; [reflexivity|exact Hiff].
Qed.

(** What a generation selected by [Run] returns, and its trace. *)
Lemma selected_generation g :
  (exists league leagueName, g = generateLeagueNewsFromAPI w league leagueName)
  \/ g = generateCryptoNewsFromAPI w ->
  exists f rest,
    isFetch f = true /\ forallb isProvider rest = true
    /\ traceOf (g []) = f :: rest
    /\ (forall content e t, g [] = Returned (content, e) t -> len content <= 280).
Proof.
  intros [(league & leagueName & ->)| ->].
  - exists (EvFetchMatches (leagueMatchesURL league)).
    destruct (generateLeagueNewsFromAPI_shape w league leagueName)
      as [(e & _ & E)|[(rest & _ & E & Hrest)
                       |(c & e & rest & _ & E & Hrest & Hlen)]];
      unfold run in E; rewrite E; cbn [traceOf].
    + exists []. repeat split.
      intros content e' t H. assert (content = []) by congruence.
      subst. simpl. lia.
    + exists rest. split; [reflexivity|]. split; [exact Hrest|].
      split; [reflexivity|]. intros content e' t H. discriminate H.
    + exists rest. split; [reflexivity|]. split; [exact Hrest|].
      split; [reflexivity|].
      intros content e' t H. assert (content = c) by congruence.
      subst. exact Hlen.
  - exists (EvFetchNews cryptoNewsURL).
    destruct (generateCryptoNewsFromAPI_shape w)
      as [(e & _ & E)|[(rest & _ & E & Hrest)
                       |(c & e & rest & _ & E & Hrest & Hlen)]];
      unfold run in E; rewrite E; cbn [traceOf].
    + exists []. repeat split.
      intros content e' t H. assert (content = []) by congruence.
      subst. simpl. lia.
    + exists rest. split; [reflexivity|]. split; [exact Hrest|].
      split; [reflexivity|]. intros content e' t H. discriminate H.
    + exists rest. split; [reflexivity|]. split; [exact Hrest|].
      split; [reflexivity|].
      intros content e' t H. assert (content = c) by congruence.
      subst. exact Hlen.
Qed.

Lemma Run_success_aux now t :
  run (Run w now) = Returned None t ->
  exists before content body resp,
    t = before ++ [EvPost content]
    /\ existsb isPost before = false
    /\ len content <= 280
    /\ twitter w content = PostResponse 201 body (DecodeOk resp).
Proof.
  destruct (Run_selects w now) as (g & -> & Hg). unfold run. rewrite bind_eq.
  fold publish.
  assert (Hgen : exists before,
             existsb isPost before = false
             /\ traceOf (g []) = before
             /\ (forall content e t, g [] = Returned (content, e) t ->
                                     len content <= 280)).
  { destruct Hg as [Hg|[Hg| ->]].
    - destruct (selected_generation g (or_introl Hg)) as (f & rest & Hf & Hr & E & Hl).
      exists (f :: rest). split; [|auto].
      cbn [existsb]. destruct (providers_not_posts rest Hr) as [_ ->].
      destruct f; try discriminate Hf; reflexivity.
    - destruct (selected_generation g (or_intror Hg)) as (f & rest & Hf & Hr & E & Hl).
      exists (f :: rest). split; [|auto].
      cbn [existsb]. destruct (providers_not_posts rest Hr) as [_ ->].
      destruct f; try discriminate Hf; reflexivity.
    - exists []. split; [reflexivity|]. split; [reflexivity|].
      intros content e t' H. assert (content = []) by (unfold ret in H; congruence).
      subst. simpl. lia. }
  destruct Hgen as (before & Hb & Ht & Hlen).
  destruct (g []) as [[content [e|]] t'|t'] eqn:E; cbn [traceOf] in Ht; subst t';
    cbv beta iota.
  - intros H. subst publish. cbv beta iota in H. rewrite ret_eq in H.
    discriminate H.
  - destruct (publish_result content before) as (err & Hp & Hiff).
    subst publish. cbv beta iota in Hp. rewrite Hp.
    intros H. assert (err = None) by congruence. subst err.
    assert (t = before ++ [EvPost content]) by congruence. subst t.
    destruct (proj1 Hiff eq_refl) as (body & resp & Htw).
    exists before, content, body, resp.
    split; [reflexivity|]. split; [exact Hb|]. split; [|exact Htw].
    exact (Hlen content None before eq_refl).
  - discriminate.
Qed.

(** With a clock that is not negative, the first request of [Run] is
    the fetch the rotation selects, by the Unix time modulo seven: the
    matches of one of six leagues, or the crypto news; no other fetch
    follows. *)
Theorem Run_first_request now :
  (0 <= now)%Z ->
  exists f rest,
    traceOf (run (Run w now)) = f :: rest
    /\ existsb isFetch rest = false
    /\ f = match Z.rem now 7 with
           | 0 => EvFetchMatches (leagueMatchesURL PremierLeague)
           | 1 => EvFetchMatches (leagueMatchesURL LaLiga)
           | 2 => EvFetchMatches (leagueMatchesURL Bundesliga)
           | 3 => EvFetchMatches (leagueMatchesURL SerieA)
           | 4 => EvFetchMatches (leagueMatchesURL Ligue1)
           | 5 => EvFetchMatches (leagueMatchesURL IrishPremier)
           | _ => EvFetchNews cryptoNewsURL
           end%Z.
Proof.
  intros Hpos.
  assert (Hr : (0 <= Z.rem now 7 < 7)%Z).
  { split; [apply Z.rem_nonneg; lia|apply Z.rem_bound_pos; lia]. }
  assert (Hpub : forall g f rest,
             forallb isProvider rest = true ->
             traceOf (g []) = f :: rest ->
             exists rest',
               traceOf (bind g publish []) = f :: rest'
               /\ existsb isFetch rest' = false).
  { intros g f rest Hrest E. rewrite bind_eq.
    assert (Hnf : existsb isFetch rest = false).
    { clear E. induction rest as [|x rest IH]; [reflexivity|].
      simpl in Hrest. apply andb_true_iff in Hrest as [Hx Hrest].
      simpl. rewrite (IH Hrest). destruct x; try discriminate Hx; reflexivity. }
    destruct (g []) as [[content [e|]] t'|t']; cbn [traceOf] in E; subst t';
      cbv beta iota.
    - exists rest. auto.
    - destruct (publish_result content (f :: rest)) as (err & Hp & _).
      exists (rest ++ [EvPost content]). split; [exact (f_equal traceOf Hp)|].
      rewrite existsb_app, Hnf. reflexivity.
    - exists rest. auto. }
  assert (Hleague : forall league leagueName,
             exists rest',
               traceOf (bind (generateLeagueNewsFromAPI w league leagueName)
                             publish [])
               = EvFetchMatches (leagueMatchesURL league) :: rest'
               /\ existsb isFetch rest' = false).
  { intros league leagueName.
    destruct (generateLeagueNewsFromAPI_shape w league leagueName)
      as [(e & _ & E)|[(rest & _ & E & Hrest)
                       |(c & e & rest & _ & E & Hrest & _)]];
      unfold run in E;
      [apply (Hpub _ _ [])|apply (Hpub _ _ rest)|apply (Hpub _ _ rest)];
      try reflexivity; try assumption; rewrite E; reflexivity. }
  assert (Hcrypto :
             exists rest',
               traceOf (bind (generateCryptoNewsFromAPI w) publish [])
               = EvFetchNews cryptoNewsURL :: rest'
               /\ existsb isFetch rest' = false).
  { destruct (generateCryptoNewsFromAPI_shape w)
      as [(e & _ & E)|[(rest & _ & E & Hrest)
                       |(c & e & rest & _ & E & Hrest & _)]];
      unfold run in E;
      [apply (Hpub _ _ [])|apply (Hpub _ _ rest)|apply (Hpub _ _ rest)];
      try reflexivity; try assumption; rewrite E; reflexivity. }
  unfold run, Run. fold publish.
  destruct (Z.rem now 7) as [|p|p]; [| |lia].
  - destruct (Hleague PremierLeague (lit "PremierLeague")) as (r & E & H). eauto.
  - destruct p as [[[q|q|]|[q|q|]|]|[[q|q|]|[q|q|]|]|]; try lia.
    + destruct (Hleague Ligue1 (lit "Ligue1")) as (r & E & H).
      destruct (Hleague IrishPremier (lit "IrishPremierDivision")) as (r5 & E5 & H5).
      eauto.
    + destruct (Hleague SerieA (lit "SerieA")) as (r & E & H). eauto.
    + destruct Hcrypto as (r & E & H). eauto.
    + destruct (Hleague Ligue1 (lit "Ligue1")) as (r & E & H). eauto.
    + destruct (Hleague Bundesliga (lit "Bundesliga")) as (r & E & H). eauto.
    + destruct (Hleague LaLiga (lit "LaLiga")) as (r & E & H). eauto.
Qed.
End PublishingResults.

(** [Run] returns no error only when it has posted: its last request
    is the post, the only one of the run; the string [Run] handed to
    [postToTwitter] for it has at most 280 bytes (the request carries
    the JSON encoding of that string), and the answer to it had status
    201 and a body that decodes. *)
Theorem Run_success (w : World) (now : Z) (t : list Event) :
  run (Run w now) = Returned None t ->
  exists before content body resp,
    t = before ++ [EvPost content]
    /\ existsb isPost before = false
    /\ len content <= 280
    /\ twitter w content = PostResponse 201 body (DecodeOk resp).
Proof. apply Run_success_aux. Qed.

Lemma Run_success_witness :
  exists before content body resp,
    traceOf (run (Run Samples.fluent 1762000000)) = before ++ [EvPost content]
    /\ existsb isPost before = false
    /\ len content <= 280
    /\ twitter Samples.fluent content = PostResponse 201 body (DecodeOk resp).
Proof.
  apply (Run_success Samples.fluent 1762000000
           (traceOf (run (Run Samples.fluent 1762000000)))).
  vm_compute. reflexivity.
Defined.

Lemma Run_first_request_witness :
  exists f rest,
    traceOf (run (Run Samples.fluent 1762000000)) = f :: rest
    /\ existsb isFetch rest = false
    /\ f = match Z.rem 1762000000 7 with
           | 0 => EvFetchMatches (leagueMatchesURL PremierLeague)
           | 1 => EvFetchMatches (leagueMatchesURL LaLiga)
           | 2 => EvFetchMatches (leagueMatchesURL Bundesliga)
           | 3 => EvFetchMatches (leagueMatchesURL SerieA)
           | 4 => EvFetchMatches (leagueMatchesURL Ligue1)
           | 5 => EvFetchMatches (leagueMatchesURL IrishPremier)
           | _ => EvFetchNews cryptoNewsURL
           end%Z.
Proof.
  apply (Run_first_request Samples.fluent 1762000000). lia.
Defined.

(** Whatever happens, [Run] posts at most once, and the post is then
    its last request. *)
Theorem Run_posts_at_most_once (w : World) (now : Z) :
  exists before posts,
    traceOf (run (Run w now)) = before ++ posts
    /\ existsb isPost before = false
    /\ forallb isPost posts = true
    /\ List.length posts <= 1.
Proof.
  assert (Hno : forall f rest,
             isFetch f = true -> forallb isProvider rest = true ->
             existsb isPost (f :: rest) = false).
  { intros f rest Hf Hr. cbn [existsb].
    destruct (providers_not_posts rest Hr) as [_ ->].
    destruct f; try discriminate Hf; reflexivity. }
  destruct (Run_shape w now)
    as [(f & e & Hf & E)
       |[(f & rest & Hi & Hf & Hrest & [E|[(e & E)|(err & c & Hlen & E)]])
        |(err & E)]];
    rewrite E; cbn [traceOf].
  - exists [f], []. split; [reflexivity|]. split; [|auto].
    destruct f; try discriminate Hf; reflexivity.
  - exists (f :: rest), []. rewrite app_nil_r. auto.
  - exists (f :: rest), []. rewrite app_nil_r. auto.
  - exists (f :: rest), [EvPost c]. auto.
  - exists [], [EvPost []]. auto.
Qed.

(** ** The process *)

(** With a required variable missing, [main] ends in a fatal error
    before any request is sent. *)
Theorem main_missing_config (getenv : Env) (newClient : error) (w : World)
    (now : Z) :
  forallb (fun name => negb (isEmpty (getenv name))) requiredKeys = false ->
  exists msg, run (main getenv newClient w now) = Returned (ExitFatal msg) [].
Proof.
  intros H.
  destruct (proj2 (loadConfig_required_keys_aux getenv) H) as [e He].
  unfold run, main. rewrite He. eexists. reflexivity.
Qed.

Lemma main_missing_config_witness :
  exists msg,
    run (main (envOf [(lit "GOOGLE_API_KEY", lit "g-key")]) None Samples.fluent
           1762000000)
    = Returned (ExitFatal msg) [].
Proof.
  apply (main_missing_config (envOf [(lit "GOOGLE_API_KEY", lit "g-key")]) None
           Samples.fluent 1762000000).
  vm_compute. reflexivity.
Defined.

(** [main] ends successfully only when the configuration was loaded,
    the client was created, and the run has posted: the last request is
    the one post, answered with status 201; the string handed to
    [postToTwitter] for it has at most 280 bytes (the request carries
    the JSON encoding of that string). *)
Theorem main_success_means_posted (getenv : Env) (newClient : error)
    (w : World) (now : Z) (t : list Event) :
  run (main getenv newClient w now) = Returned ExitSuccess t ->
  exists c before content body resp,
    loadConfig getenv = (Some c, None)
    /\ newClient = None
    /\ t = before ++ [EvPost content]
    /\ existsb isPost before = false
    /\ len content <= maxLen
    /\ twitter w content = PostResponse 201 body (DecodeOk resp).
Proof.
  unfold run, main, maxLen.
  destruct (loadConfig getenv) as [[c|] [e|]] eqn:Hl;
    try (rewrite ret_eq; discriminate).
  2:{ rewrite bind_eq, orPanic_None. discriminate. }
  rewrite bind_eq, orPanic_Some. unfold NewNewsBot.
  destruct newClient as [e|]; [rewrite ret_eq; discriminate|].
  rewrite bind_eq, orPanic_Some, bind_eq.
  destruct (debugCredentials_in_range_aux {| config := c |} []) as (_ & _ & ->).
  rewrite bind_eq.
  destruct (Run (botWorld {| config := c |} w) now []) as [[e|] t'|t'] eqn:HR;
    try (rewrite ?ret_eq; discriminate).
  rewrite ret_eq. intros H. assert (t' = t) by congruence. subst t'.
  destruct (Run_success_aux (botWorld {| config := c |} w) now t HR)
    as (before & content & body & resp & H1 & H2 & H3 & H4).
  exists c, before, content, body, resp.
  split; [reflexivity|]. split; [reflexivity|]. split; [exact H1|].
  split; [exact H2|]. split; [exact H3|exact H4].
Qed.

Lemma main_success_means_posted_witness :
  exists c before content body resp,
    loadConfig sampleEnv = (Some c, None)
    /\ @None gostring = None
    /\ traceOf (run (main sampleEnv None Samples.fluent 1762000000))
       = before ++ [EvPost content]
    /\ existsb isPost before = false
    /\ len content <= maxLen
    /\ twitter Samples.fluent content = PostResponse 201 body (DecodeOk resp).
Proof.
  apply (main_success_means_posted sampleEnv None Samples.fluent 1762000000
           (traceOf (run (main sampleEnv None Samples.fluent 1762000000)))).
  vm_compute. reflexivity.
Defined.

(** ** The earlier Run *)

(** The [Run] of main.go returns no error only along one path: the
    latest Premier League match is fetched, its date has ten bytes, the
    primary provider answers with a text, and the post of that text is
    answered with status 201; these three are its only requests. *)
Theorem MainGo_Run_success (w : World) (t : list Event) :
  run (MainGo.Run w) = Returned None t ->
  exists m content body resp,
    lastFetched (footballData w premierLeagueMatchesURL) m
    /\ 10 <= len (UtcDate m)
    /\ primaryContent (gemini w 0 (premierLeaguePrompt m (dateOf m))) = Some content
    /\ twitter w content = PostResponse 201 body (DecodeOk resp)
    /\ t = [EvFetchMatches premierLeagueMatchesURL;
            EvGenerateContent (premierLeaguePrompt m (dateOf m));
            EvPost content].
Proof.
  unfold run, MainGo.Run. rewrite bind_eq.
  destruct (generatePremierLeagueNewsFromAPI_cases w)
    as [(_ & e & E)
       |(m & Hm & [(_ & E)|(Hd & [(_ & e & E)|[(_ & E)|(c & Hc & E)]])])];
    unfold run in E; rewrite E; try (rewrite ret_eq; discriminate);
    try discriminate.
  rewrite bind_eq.
  destruct (postToTwitter_result_aux w c
              [EvFetchMatches premierLeagueMatchesURL;
               EvGenerateContent (premierLeaguePrompt m (dateOf m))])
    as (err & -> & Hiff).
  destruct err as [e|]; rewrite ret_eq; [discriminate|].
  intros H. destruct (proj1 Hiff eq_refl) as (body & resp & Htw).
  exists m, c, body, resp.
  split; [exact Hm|]. split; [exact Hd|]. split; [exact Hc|]. split; [exact Htw|].
  assert (Ht : [EvFetchMatches premierLeagueMatchesURL;
                EvGenerateContent (premierLeaguePrompt m (dateOf m))]
               ++ [EvPost c] = t) by congruence.
  rewrite <- Ht. reflexivity.
Qed.

Lemma MainGo_Run_success_witness :
  exists m content body resp,
    lastFetched (footballData Samples.fluent premierLeagueMatchesURL) m
    /\ 10 <= len (UtcDate m)
    /\ primaryContent (gemini Samples.fluent 0 (premierLeaguePrompt m (dateOf m)))
       = Some content
    /\ twitter Samples.fluent content = PostResponse 201 body (DecodeOk resp)
    /\ traceOf (run (MainGo.Run Samples.fluent))
       = [EvFetchMatches premierLeagueMatchesURL;
          EvGenerateContent (premierLeaguePrompt m (dateOf m));
          EvPost content].
Proof.
  apply (MainGo_Run_success Samples.fluent
           (traceOf (run (MainGo.Run Samples.fluent)))).
  vm_compute. reflexivity.
Defined.


(** ** Witnesses of earlier properties *)

Lemma final_text_single_provider_witness :
  exists m,
    lastFetched (footballData Samples.degraded (leagueMatchesURL Ligue1)) m
    /\ (primaryContent
          (gemini Samples.degraded 0 (leaguePrompt (lit "Ligue1") m (dateOf m)))
        = Some Samples.fallbackTweet
        \/ primaryContent
             (gemini Samples.degraded 1
                (leagueRetryPrompt (lit "Ligue1") m (dateOf m)))
           = Some Samples.fallbackTweet
        \/ fallbackContent
             (perplexity Samples.degraded (perplexityFootballSystem (lit "Ligue1"))
                (perplexityFootballPrompt (lit "Ligue1") m (dateOf m)))
           = Some Samples.fallbackTweet).
Proof.
  apply (final_text_single_provider Samples.degraded Ligue1 (lit "Ligue1")
           Samples.fallbackTweet
           (traceOf (run (generateLeagueNewsFromAPI Samples.degraded Ligue1
                            (lit "Ligue1"))))).
  vm_compute. reflexivity.
Defined.

Lemma truncation_law_perplexity_witness :
  exists result,
    normalizePerplexity (repeat "a"%char 300) = Some result
    /\ result = firstn (maxLen - 3) (TrimSpace (repeat "a"%char 300)) ++ lit "..."
    /\ len result = maxLen.
Proof.
  apply (truncation_law_perplexity (repeat "a"%char 300)).
  apply Nat.ltb_lt. vm_compute. reflexivity.
Defined.
